(** * OAK-D stereo streaming client: the browser-side pipeline

    A shallow embedding of the WebXR client (the main client script and
    [controllers.js]): the calibration loader, the per-eye texture offset,
    the WebRTC session set-up, the telemetry uplink and the XR frame
    callback, followed by the properties established about them. *)

From Stdlib Require Import ZArith SpecFloat.
From stdpp Require Import base option list strings pretty gmap.

Local Open Scope Z_scope.

(** ** JavaScript numbers

    A JavaScript number is an IEEE-754 binary64 value.  [spec_float] is the
    Standard Library's executable specification of IEEE arithmetic
    (round to nearest, ties to even), instantiated here at the binary64
    format; a [Float32Array] element is a binary32 value read back as a
    binary64 one. *)
Module F64.
Definition prec : Z := 53.
Definition emax : Z := 1024.
Definition prec32 : Z := 24.
Definition emax32 : Z := 128.

Definition add : spec_float -> spec_float -> spec_float := SFadd prec emax.
Definition sub : spec_float -> spec_float -> spec_float := SFsub prec emax.
Definition mul : spec_float -> spec_float -> spec_float := SFmul prec emax.
Definition div : spec_float -> spec_float -> spec_float := SFdiv prec emax.
Definition neg : spec_float -> spec_float := SFopp.

(** The operator [===] on two numbers. *)
Definition eqb : spec_float -> spec_float -> bool := SFeqb.

(** An integer literal. *)
Definition of_Z (z : Z) : spec_float := binary_normalize prec emax z 0 false.

(** A decimal literal [n / 10^k], correctly rounded: both operands are
    exact, so the rounded quotient is the binary64 value nearest to the
    decimal. *)
Definition decimal (n : Z) (k : nat) : spec_float :=
  div (of_Z n) (of_Z (10 ^ Z.of_nat k)).

Definition round_to (p e : Z) (x : spec_float) : spec_float :=
  match x with
  | S754_finite s m ex => binary_normalize p e (cond_Zopp s (Zpos m)) ex s
  | _ => x
  end.

(** Storing a number into a [Float32Array] and reading it back:
    rounding to binary32, then the exact embedding into binary64. *)
Definition fround (x : spec_float) : spec_float :=
  round_to prec emax (round_to prec32 emax32 x).

Definition nan : spec_float := S754_nan.
Definition zero : spec_float := S754_zero false.
End F64.

(** ** The arithmetic interface of the numeric code

    The numeric code only uses the four operations, negation, integer
    literals and the store into a [Float32Array].  It is written once over
    this interface and read at the IEEE numbers the browser computes
    with. *)
Class JsNumber (num : Type) := {
  num_add : num -> num -> num;
  num_sub : num -> num -> num;
  num_mul : num -> num -> num;
  num_div : num -> num -> num;
  num_neg : num -> num;
  num_lit : Z -> num;
  num_fround : num -> num
}.

Declare Scope js_scope.
Delimit Scope js_scope with js.
Infix "+" := num_add : js_scope.
Infix "-" := num_sub : js_scope.
Infix "*" := num_mul : js_scope.
Infix "/" := num_div : js_scope.
Notation "- x" := (num_neg x) : js_scope.
Notation "# z" := (num_lit z) (at level 1, format "# z") : js_scope.

#[export] Instance ieee_number : JsNumber spec_float := {|
  num_add := F64.add; num_sub := F64.sub; num_mul := F64.mul;
  num_div := F64.div; num_neg := F64.neg; num_lit := F64.of_Z;
  num_fround := F64.fround
|}.

(** ** Geometric correction *)

(** A 3x3 matrix, row major, read as [K[i][j]]. *)
Definition Row3 (A : Type) : Type := (A * A * A)%type.
Definition Mat3 (A : Type) : Type := Row3 (Row3 A).

Inductive Ix3 := ix0 | ix1 | ix2.

Definition at3 {A} (v : Row3 A) (i : Ix3) : A :=
  let '(a, b, c) := v in
  match i with ix0 => a | ix1 => b | ix2 => c end.

Definition ix_of (n : nat) : Ix3 :=
  match n with O => ix0 | S O => ix1 | _ => ix2 end.

Notation "K .[ i ][ j ]" := (at3 (at3 K (ix_of i)) (ix_of j))
  (at level 1, i at level 0, j at level 0, format "K .[ i ][ j ]").

Section Geometry.
Context {num : Type} `{JsNumber num}.
Local Open Scope js_scope.

(** [new Float32Array([...])] *)
Definition Float32Array (xs : list num) : list num := map num_fround xs.

(** The body of [perEyeTexOffset] once the three intrinsics are read. *)
Definition texOffset (fx cx cy : num)
    (width height baseline_m convergence_m : num) (eye : string) : list num :=
  let dx_pp := (cx - width / #2) / width in
  let dy_pp := (cy - height / #2) / height in
  let conv_tc := (fx * baseline_m) / (#2 * convergence_m * width) in
  let eye_sign := if String.eqb eye "left" then #1 else #(-1) in
  let du := - dx_pp + eye_sign * conv_tc in
  let dv := dy_pp in
  Float32Array [du; dv].

Definition perEyeTexOffset (K : Mat3 num)
    (width height baseline_m convergence_m : num) (eye : string) : list num :=
  let fx := K.[0][0] in
  let cx := K.[0][2] in
  let cy := K.[1][2] in
  texOffset fx cx cy width height baseline_m convergence_m eye.

(** The correction as the specification words it. *)
Definition sign (eye : string) : num :=
  if String.eqb eye "right" then #(-1) else #1.

Definition dx_pp (K : Mat3 num) (width : num) : num :=
  (K.[0][2] - width / #2) / width.

Definition dy_pp (K : Mat3 num) (height : num) : num :=
  (K.[1][2] - height / #2) / height.

Definition conv (K : Mat3 num) (width baseline_m convergence_m : num) : num :=
  (K.[0][0] * baseline_m) / (#2 * convergence_m * width).

Definition offset_spec (K : Mat3 num)
    (width height baseline_m convergence_m : num) (eye : string) : num * num :=
  (- dx_pp K width + sign eye * conv K width baseline_m convergence_m,
   dy_pp K height).
End Geometry.

(** ** JSON payloads and the values read from them *)

#[local] Unset Elimination Schemes.
Inductive json :=
| JNull
| JBool (b : bool)
| JNum (x : spec_float)
| JStr (s : string)
| JArr (items : list json)
| JObj (fields : list (string * json)).
#[local] Set Elimination Schemes.

(** A JavaScript value read from a payload; [None] is [undefined]. *)
Definition jsval : Type := option json.

(** Truthiness, as tested by [!v]. *)
Definition truthy (v : jsval) : bool :=
  match v with
  | None => false
  | Some JNull => false
  | Some (JBool b) => b
  | Some (JNum (S754_zero _)) => false
  | Some (JNum S754_nan) => false
  | Some (JNum _) => true
  | Some (JStr s) => negb (String.eqb s "")
  | Some (JArr _) => true
  | Some (JObj _) => true
  end.

Definition typeof (v : jsval) : string :=
  match v with
  | None => "undefined"
  | Some JNull => "object"
  | Some (JBool _) => "boolean"
  | Some (JNum _) => "number"
  | Some (JStr _) => "string"
  | Some (JArr _) => "object"
  | Some (JObj _) => "object"
  end.

(** [JSON.parse] keeps the last of several bindings of one key. *)
Definition last_binding (name : string) (fields : list (string * json)) : jsval :=
  fold_left (fun acc kv => if String.eqb (fst kv) name then Some (snd kv) else acc)
            fields None.

(** [v.name] for a named field ([k_left], [k_right], [baseline_m]): only an
    object carries such a field, every other non-null value answers
    [undefined]. *)
Definition field (v : json) (name : string) : jsval :=
  match v with
  | JObj fields => last_binding name fields
  | _ => None
  end.

(** ** Exceptions *)

Inductive Exn :=
| Error (message : string)
| TypeError (message : string)
| DOMException (name message : string).

(** ** Platform objects *)

(** The two [<video>] elements and the two textures ([leftTexture] and
    [rightTexture] are created by [initGLResources], before any frame). *)
Inductive Video := leftVideo | rightVideo.
Inductive Texture := leftTexture | rightTexture.

#[export] Instance Video_eq_dec : EqDecision Video.
Proof. solve_decision. Defined.
#[export] Instance Texture_eq_dec : EqDecision Texture.
Proof. solve_decision. Defined.

Record VideoState := {
  readyState : nat;
  videoWidth : nat;
  videoHeight : nat;
  currentFrame : nat
}.

(** What a texture holds: the checkerboard drawn at initialisation, or a
    frame uploaded from a video element. *)
Inductive TexImage :=
| DefaultCanvas
| VideoFrame (v : Video) (frame : nat).

Record Viewport := { vp_x : Z; vp_y : Z; vp_width : Z; vp_height : Z }.

Inductive XREye := eye_none | eye_left | eye_right.

Definition XREye_str (e : XREye) : string :=
  match e with eye_none => "none" | eye_left => "left" | eye_right => "right" end.

Record XRView := { eye : XREye; viewport_of : Viewport }.

Record Point := { px : spec_float; py : spec_float; pz : spec_float }.
Record Quaternion := {
  qx : spec_float; qy : spec_float; qz : spec_float; qw : spec_float
}.

Record XRViewerPose := {
  position : Point;
  orientation : Quaternion;
  views : list XRView
}.

Inductive XRHandedness := hand_none | hand_left | hand_right.

#[export] Instance XRHandedness_eq_dec : EqDecision XRHandedness.
Proof. solve_decision. Defined.

Definition handedness_str (h : XRHandedness) : string :=
  match h with hand_none => "none" | hand_left => "left" | hand_right => "right" end.

Record GamepadButton := { pressed : bool; touched : bool; value : spec_float }.
Record Gamepad := { axes : list spec_float; gp_buttons : list GamepadButton }.
Record XRInputSource := { handedness : XRHandedness; gamepad : option Gamepad }.

Record XRFrame := {
  getViewerPose : option XRViewerPose;
  inputSources : list XRInputSource
}.

Inductive RTCDataChannelState := connecting | open | closing | closed.

#[export] Instance RTCDataChannelState_eq_dec : EqDecision RTCDataChannelState.
Proof. solve_decision. Defined.

Record RTCDataChannelInit := { ordered : bool; maxRetransmits : option nat }.
Record RTCDataChannel := { label : string; init : RTCDataChannelInit }.

(** ** Telemetry messages *)

Record Stick := { stick_x : spec_float; stick_y : spec_float }.

Record ControllerMessage := {
  msg_type : string;
  timestamp : Z;
  leftJoystick : Stick;
  rightJoystick : Stick;
  buttons : gmap string bool
}.

Inductive TelemetryMessage :=
| PoseMessage (msg_type : string) (position : Point) (orientation : Quaternion)
| Controller (m : ControllerMessage).

(** ** Observable effects *)

(** The WebGL calls the client issues, with the arguments that matter. *)
Inductive GLCall :=
| bindFramebuffer
| clearColor
| clear
| useProgram
| enableVertexAttribArray
| bindBuffer
| vertexAttribPointer
| viewport (v : Viewport)
| activeTexture
| bindTexture (t : Texture)
| texImage2D (img : TexImage)
| uniform1i
| uniform2fv (v : list spec_float)
| drawArrays
| setup (method : string).

(** The WebRTC and WebXR calls. *)
Inductive RTCCall :=
| newRTCPeerConnection
| createDataChannel (ch : RTCDataChannel)
| addTransceiver (kind direction : string)
| createOffer
| setLocalDescription
| postOffer
| setRemoteDescription.

Inductive XRCall :=
| requestSession
| makeXRCompatible
| newXRWebGLLayer
| updateRenderState
| requestReferenceSpace.

(** What a draw call puts on screen: the viewport, the texture bound to the
    sampler with the image it holds, and the offset uniform. *)
Record DrawRecord := {
  drawn_viewport : Viewport;
  drawn_texture : option Texture;
  drawn_image : option TexImage;
  drawn_offset : option (list spec_float)
}.

Inductive Event :=
| SetStatus (message : string)
| LogError (message : string) (err : option Exn)
| LogToOverlay (message : string)
| ConsoleError (message : string) (err : Exn)
| ConsoleWarn (message : string)
| Send (m : TelemetryMessage)
| RequestAnimationFrame
| GetViewerPose
| GetViewport
| GL (c : GLCall)
| Draw (d : DrawRecord)
| RTC (c : RTCCall)
| XR (c : XRCall)
| SrcObject (v : Video) (track : nat)
| CallPerEyeTexOffset (K : jsval) (eye : string).

(** ** The state of the page *)

(** The part of the WebGL state the client depends on. *)
Record GLState := {
  bound_texture : option Texture;
  image_left : TexImage;
  image_right : TexImage;
  uTexOffset : option (list spec_float);
  current_viewport : Viewport
}.

(** The module-level variables of the client, under their own names.
    [gl] records whether the context has been obtained; [videoCount] is the
    counter the [ontrack] handler closes over. *)
Record Vars := {
  dataChannel : option RTCDataChannel;
  calib : jsval;
  gl : bool;
  texOffsetLeft : option (list spec_float);
  texOffsetRight : option (list spec_float);
  hasLoggedLeftVideo : bool;
  hasLoggedRightVideo : bool;
  uTexOffsetLoc : option nat;
  samplerLoc : option nat;
  positionAttrLoc : Z;
  videoCount : nat
}.

(** The handles [initGLResources] stores once the program is linked. *)
Record GLHandles := {
  h_uTexOffsetLoc : option nat;
  h_samplerLoc : option nat;
  h_positionAttrLoc : Z
}.

(** An HTTP response: [res.ok], [res.status] and what [res.json()]
    resolves to. *)
Record Response := { ok : bool; status : Z; json_body : Exn + json }.

(** What the browser and the network decide, read but never written by the
    client: the state of the data channel, the clock, the two video
    elements, the answers to the start-up requests, and the engine's own
    conversions. *)
Record Env := {
  channel_readyState : RTCDataChannelState;
  Date_now : Z;
  video : Video -> VideoState;
  (* start-up *)
  navigator_xr : bool;
  fetch_result : string -> Exn + Response;
  getContext : bool;
  COMPILE_STATUS : bool;
  LINK_STATUS : bool;
  info_log : string;
  gl_handles : GLHandles;
  (* the engine's conversions between values and text; [to_String] is read
     on the values that have a primitive form *)
  JSON_stringify : json -> string;
  to_String : json -> string;
  StringToNumber : string -> spec_float;
  toFixed : spec_float -> nat -> string
}.

(** [oracle] answers, call by call, whether the next platform call raises
    (and what); an exhausted oracle lets every call succeed. *)
Record World := {
  vars : Vars;
  env : Env;
  gpu : GLState;
  trace : list Event;
  oracle : list (option Exn)
}.

Definition with_vars (f : Vars -> Vars) (w : World) : World :=
  {| vars := f (vars w); env := env w; gpu := gpu w;
     trace := trace w; oracle := oracle w |}.

Definition with_gpu (f : GLState -> GLState) (w : World) : World :=
  {| vars := vars w; env := env w; gpu := f (gpu w);
     trace := trace w; oracle := oracle w |}.

Definition with_trace (f : list Event -> list Event) (w : World) : World :=
  {| vars := vars w; env := env w; gpu := gpu w;
     trace := f (trace w); oracle := oracle w |}.

Definition with_oracle (o : list (option Exn)) (w : World) : World :=
  {| vars := vars w; env := env w; gpu := gpu w;
     trace := trace w; oracle := o |}.

Definition with_env (e : Env) (w : World) : World :=
  {| vars := vars w; env := e; gpu := gpu w;
     trace := trace w; oracle := oracle w |}.

Definition set_dataChannel (c : option RTCDataChannel) (v : Vars) : Vars :=
  {| dataChannel := c; calib := calib v; gl := gl v;
     texOffsetLeft := texOffsetLeft v; texOffsetRight := texOffsetRight v;
     hasLoggedLeftVideo := hasLoggedLeftVideo v;
     hasLoggedRightVideo := hasLoggedRightVideo v;
     uTexOffsetLoc := uTexOffsetLoc v; samplerLoc := samplerLoc v;
     positionAttrLoc := positionAttrLoc v; videoCount := videoCount v |}.

Definition set_calib (c : jsval) (v : Vars) : Vars :=
  {| dataChannel := dataChannel v; calib := c; gl := gl v;
     texOffsetLeft := texOffsetLeft v; texOffsetRight := texOffsetRight v;
     hasLoggedLeftVideo := hasLoggedLeftVideo v;
     hasLoggedRightVideo := hasLoggedRightVideo v;
     uTexOffsetLoc := uTexOffsetLoc v; samplerLoc := samplerLoc v;
     positionAttrLoc := positionAttrLoc v; videoCount := videoCount v |}.

Definition set_texOffsetLeft (o : option (list spec_float)) (v : Vars) : Vars :=
  {| dataChannel := dataChannel v; calib := calib v; gl := gl v;
     texOffsetLeft := o; texOffsetRight := texOffsetRight v;
     hasLoggedLeftVideo := hasLoggedLeftVideo v;
     hasLoggedRightVideo := hasLoggedRightVideo v;
     uTexOffsetLoc := uTexOffsetLoc v; samplerLoc := samplerLoc v;
     positionAttrLoc := positionAttrLoc v; videoCount := videoCount v |}.

Definition set_texOffsetRight (o : option (list spec_float)) (v : Vars) : Vars :=
  {| dataChannel := dataChannel v; calib := calib v; gl := gl v;
     texOffsetLeft := texOffsetLeft v; texOffsetRight := o;
     hasLoggedLeftVideo := hasLoggedLeftVideo v;
     hasLoggedRightVideo := hasLoggedRightVideo v;
     uTexOffsetLoc := uTexOffsetLoc v; samplerLoc := samplerLoc v;
     positionAttrLoc := positionAttrLoc v; videoCount := videoCount v |}.

Definition set_hasLoggedLeftVideo (b : bool) (v : Vars) : Vars :=
  {| dataChannel := dataChannel v; calib := calib v; gl := gl v;
     texOffsetLeft := texOffsetLeft v; texOffsetRight := texOffsetRight v;
     hasLoggedLeftVideo := b;
     hasLoggedRightVideo := hasLoggedRightVideo v;
     uTexOffsetLoc := uTexOffsetLoc v; samplerLoc := samplerLoc v;
     positionAttrLoc := positionAttrLoc v; videoCount := videoCount v |}.

Definition set_hasLoggedRightVideo (b : bool) (v : Vars) : Vars :=
  {| dataChannel := dataChannel v; calib := calib v; gl := gl v;
     texOffsetLeft := texOffsetLeft v; texOffsetRight := texOffsetRight v;
     hasLoggedLeftVideo := hasLoggedLeftVideo v;
     hasLoggedRightVideo := b;
     uTexOffsetLoc := uTexOffsetLoc v; samplerLoc := samplerLoc v;
     positionAttrLoc := positionAttrLoc v; videoCount := videoCount v |}.

Definition set_videoCount (n : nat) (v : Vars) : Vars :=
  {| dataChannel := dataChannel v; calib := calib v; gl := gl v;
     texOffsetLeft := texOffsetLeft v; texOffsetRight := texOffsetRight v;
     hasLoggedLeftVideo := hasLoggedLeftVideo v;
     hasLoggedRightVideo := hasLoggedRightVideo v;
     uTexOffsetLoc := uTexOffsetLoc v; samplerLoc := samplerLoc v;
     positionAttrLoc := positionAttrLoc v; videoCount := n |}.

Definition set_gl (b : bool) (v : Vars) : Vars :=
  {| dataChannel := dataChannel v; calib := calib v; gl := b;
     texOffsetLeft := texOffsetLeft v; texOffsetRight := texOffsetRight v;
     hasLoggedLeftVideo := hasLoggedLeftVideo v;
     hasLoggedRightVideo := hasLoggedRightVideo v;
     uTexOffsetLoc := uTexOffsetLoc v; samplerLoc := samplerLoc v;
     positionAttrLoc := positionAttrLoc v; videoCount := videoCount v |}.

Definition set_gl_handles (h : GLHandles) (v : Vars) : Vars :=
  {| dataChannel := dataChannel v; calib := calib v; gl := gl v;
     texOffsetLeft := texOffsetLeft v; texOffsetRight := texOffsetRight v;
     hasLoggedLeftVideo := hasLoggedLeftVideo v;
     hasLoggedRightVideo := hasLoggedRightVideo v;
     uTexOffsetLoc := h_uTexOffsetLoc h; samplerLoc := h_samplerLoc h;
     positionAttrLoc := h_positionAttrLoc h; videoCount := videoCount v |}.

(** ** The effect monad: state, trace and exceptions *)

Inductive Outcome (A : Type) :=
| Normal (a : A)
| Thrown (e : Exn).
Arguments Normal {A} a.
Arguments Thrown {A} e.

Definition Js (A : Type) : Type := World -> Outcome A * World.

#[export] Instance Js_ret : MRet Js := fun A a w => (Normal a, w).

#[export] Instance Js_bind : MBind Js := fun A B f m w =>
  match m w with
  | (Normal a, w') => f a w'
  | (Thrown e, w') => (Thrown e, w')
  end.

Definition throw {A} (e : Exn) : Js A := fun w => (Thrown e, w).

Definition try_catch {A} (body : Js A) (handler : Exn -> Js A) : Js A :=
  fun w =>
    match body w with
    | (Normal a, w') => (Normal a, w')
    | (Thrown e, w') => handler e w'
    end.

Definition read {A} (f : World -> A) : Js A := fun w => (Normal (f w), w).

Definition update (f : World -> World) : Js unit := fun w => (Normal tt, f w).

Definition emit (ev : Event) : Js unit := update (with_trace (fun t => t ++ [ev])).

(** A call into the browser: it raises when the oracle says so, and
    otherwise happens and is recorded. *)
Definition platform (ev : Event) : Js unit := fun w =>
  match oracle w with
  | Some e :: o => (Thrown e, with_oracle o w)
  | None :: o => emit ev (with_oracle o w)
  | [] => emit ev w
  end.

Fixpoint for_each {A} (xs : list A) (body : A -> Js unit) : Js unit :=
  match xs with
  | [] => mret tt
  | x :: rest => body x ;; for_each rest body
  end.

Definition when (b : bool) (m : Js unit) : Js unit := if b then m else mret tt.

(** ** Logging helpers ([logging.js]) *)

Definition setStatus (message : string) : Js unit := emit (SetStatus message).

Definition logError (message : string) (err : option Exn) : Js unit :=
  emit (LogError message err).

Definition logToOverlay (msg : string) : Js unit := emit (LogToOverlay msg).

(** [e.message]. *)
Definition exn_message (e : Exn) : string :=
  match e with
  | Error m => m
  | TypeError m => m
  | DOMException _ m => m
  end.

(** ** WebGL calls *)

Definition set_image (t : Texture) (img : TexImage) (s : GLState) : GLState :=
  match t with
  | leftTexture =>
      {| bound_texture := bound_texture s; image_left := img;
         image_right := image_right s; uTexOffset := uTexOffset s;
         current_viewport := current_viewport s |}
  | rightTexture =>
      {| bound_texture := bound_texture s; image_left := image_left s;
         image_right := img; uTexOffset := uTexOffset s;
         current_viewport := current_viewport s |}
  end.

Definition image_of (s : GLState) (t : Texture) : TexImage :=
  match t with leftTexture => image_left s | rightTexture => image_right s end.

(** The effect of a call on the WebGL state: [texImage2D] writes the
    texture bound at the time. *)
Definition gl_effect (c : GLCall) (s : GLState) : GLState :=
  match c with
  | bindTexture t =>
      {| bound_texture := Some t; image_left := image_left s;
         image_right := image_right s; uTexOffset := uTexOffset s;
         current_viewport := current_viewport s |}
  | texImage2D img =>
      match bound_texture s with
      | Some t => set_image t img s
      | None => s
      end
  | uniform2fv v =>
      {| bound_texture := bound_texture s; image_left := image_left s;
         image_right := image_right s; uTexOffset := Some v;
         current_viewport := current_viewport s |}
  | viewport v =>
      {| bound_texture := bound_texture s; image_left := image_left s;
         image_right := image_right s; uTexOffset := uTexOffset s;
         current_viewport := v |}
  | _ => s
  end.

Definition snapshot (s : GLState) : DrawRecord :=
  {| drawn_viewport := current_viewport s;
     drawn_texture := bound_texture s;
     drawn_image := image_of s <$> bound_texture s;
     drawn_offset := uTexOffset s |}.

Definition gl_event (c : GLCall) (s : GLState) : Event :=
  match c with
  | drawArrays => Draw (snapshot s)
  | _ => GL c
  end.

(** A method call on the global [gl]: a [TypeError] while [gl] is still
    [null]. *)
Definition gl_call (c : GLCall) : Js unit :=
  ctx ← read (fun w => gl (vars w));
  if ctx : bool then
    s ← read gpu;
    platform (gl_event c s);;
    update (with_gpu (gl_effect c))
  else throw (TypeError "Cannot read properties of null").

(** ** Telemetry uplink ([controllers.js]) *)

Definition set_leftJoystick (s : Stick) (m : ControllerMessage) : ControllerMessage :=
  {| msg_type := msg_type m; timestamp := timestamp m; leftJoystick := s;
     rightJoystick := rightJoystick m; buttons := buttons m |}.

Definition set_rightJoystick (s : Stick) (m : ControllerMessage) : ControllerMessage :=
  {| msg_type := msg_type m; timestamp := timestamp m;
     leftJoystick := leftJoystick m; rightJoystick := s; buttons := buttons m |}.

(** [controllerMessage.buttons[key] = true] *)
Definition set_button (key : string) (m : ControllerMessage) : ControllerMessage :=
  {| msg_type := msg_type m; timestamp := timestamp m;
     leftJoystick := leftJoystick m; rightJoystick := rightJoystick m;
     buttons := <[key := true]> (buttons m) |}.

(** [btns[i] && btns[i].pressed] *)
Definition is_pressed (btns : list GamepadButton) (i : nat) : bool :=
  match btns !! i with
  | Some b => pressed b
  | None => false
  end.

Definition cond {A} (b : bool) (f : A -> A) (a : A) : A := if b then f a else a.

Definition hand_is (h : XRHandedness) (s : string) : bool :=
  String.eqb (handedness_str h) s.

(** One turn of the loop over the input sources. *)
Definition read_inputSource (controllerMessage : ControllerMessage)
    (inputSource : XRInputSource) : ControllerMessage :=
  match gamepad inputSource with
  | None => controllerMessage
  | Some gamepad =>
      let hand := handedness inputSource in
      let m := controllerMessage in
      let m :=
        if (4 <=? length (axes gamepad))%nat then
          let stick := {| stick_x := default F64.nan (axes gamepad !! 2%nat);
                          stick_y := F64.neg (default F64.nan (axes gamepad !! 3%nat)) |} in
          let m := cond (hand_is hand "left") (set_leftJoystick stick) m in
          cond (hand_is hand "right") (set_rightJoystick stick) m
        else m in
      let btns := gp_buttons gamepad in
      let m := cond (is_pressed btns 0) (set_button (handedness_str hand +:+ "_trigger")) m in
      let m := cond (is_pressed btns 1) (set_button (handedness_str hand +:+ "_grip")) m in
      let m := cond (is_pressed btns 4) (set_button "plow_up") m in
      let m := cond (is_pressed btns 5) (set_button "plow_down") m in
      let m := cond (hand_is hand "right" && is_pressed btns 1) (set_button "lights") m in
      cond (hand_is hand "left" && is_pressed btns 1) (set_button "horn") m
  end.

Definition new_controllerMessage (now : Z) : ControllerMessage :=
  {| msg_type := "controller"; timestamp := now;
     leftJoystick := {| stick_x := F64.zero; stick_y := F64.zero |};
     rightJoystick := {| stick_x := F64.zero; stick_y := F64.zero |};
     buttons := ∅ |}.

(** The message [sendControllerData] builds before sending it. *)
Definition controllerMessage_of (now : Z) (inputSources : list XRInputSource)
    : ControllerMessage :=
  fold_left read_inputSource inputSources (new_controllerMessage now).

(** [dataChannel && dataChannel.readyState === "open"] *)
Definition channel_is_open (w : World) : bool :=
  match dataChannel (vars w) with
  | Some _ => bool_decide (channel_readyState (env w) = open)
  | None => false
  end.

Definition sendControllerData (inputSources : list XRInputSource) : Js unit :=
  is_open ← read channel_is_open;
  if negb is_open then mret tt
  else
    now ← read (fun w => Date_now (env w));
    let controllerMessage := controllerMessage_of now inputSources in
    try_catch
      (platform (Send (Controller controllerMessage)))
      (fun e => logToOverlay ("Controller send error: " +:+ exn_message e)).

(** ** The stereo compositor *)

Definition updateTextureFromVideo (texture : Texture) (video_el : Video) : Js unit :=
  v ← read (fun w => video (env w) video_el);
  if (readyState v <? 2)%nat || (videoWidth v =? 0)%nat || (videoHeight v =? 0)%nat
  then
    loggedL ← read (fun w => hasLoggedLeftVideo (vars w));
    when (bool_decide (video_el = leftVideo) && negb loggedL)
      (setStatus "Left video not ready yet";;
       update (with_vars (set_hasLoggedLeftVideo true)));;
    loggedR ← read (fun w => hasLoggedRightVideo (vars w));
    when (bool_decide (video_el = rightVideo) && negb loggedR)
      (setStatus "Right video not ready yet";;
       update (with_vars (set_hasLoggedRightVideo true)))
  else
    try_catch
      (gl_call (bindTexture texture);;
       gl_call (texImage2D (VideoFrame video_el (currentFrame v))))
      (fun err => emit (ConsoleError "Error updating texture from video:" err)).

(** The head-pose message of a frame. *)
Definition send_pose (pose : XRViewerPose) : Js unit :=
  is_open ← read channel_is_open;
  when is_open
    (platform (Send (PoseMessage "pose" (position pose) (orientation pose)))).

Definition draw_view (view : XRView) : Js unit :=
  platform GetViewport;;
  gl_call (viewport (viewport_of view));;
  let isLeft := bool_decide (XREye_str (eye view) = "left") in
  (if isLeft then
     updateTextureFromVideo leftTexture leftVideo;;
     gl_call activeTexture;;
     gl_call (bindTexture leftTexture)
   else
     updateTextureFromVideo rightTexture rightVideo;;
     gl_call activeTexture;;
     gl_call (bindTexture rightTexture));;
  sampler ← read (fun w => samplerLoc (vars w));
  when (bool_decide (is_Some sampler)) (gl_call uniform1i);;
  offset ← read (fun w => if isLeft then texOffsetLeft (vars w)
                          else texOffsetRight (vars w));
  loc ← read (fun w => uTexOffsetLoc (vars w));
  when (bool_decide (is_Some loc))
    (gl_call (uniform2fv (default (Float32Array [F64.of_Z 0; F64.of_Z 0]) offset)));;
  gl_call drawArrays.

Definition frame_body (frame : XRFrame) : Js unit :=
  platform GetViewerPose;;
  match getViewerPose frame with
  | None => platform RequestAnimationFrame
  | Some pose =>
      send_pose pose;;
      sendControllerData (inputSources frame);;
      sampler ← read (fun w => samplerLoc (vars w));
      if negb (bool_decide (is_Some sampler)) then
        setStatus "Waiting for GL sampler";;
        platform RequestAnimationFrame
      else
        gl_call bindFramebuffer;;
        gl_call clearColor;;
        gl_call clear;;
        gl_call useProgram;;
        attr ← read (fun w => positionAttrLoc (vars w));
        when (0 <=? attr)
          (gl_call enableVertexAttribArray;;
           gl_call bindBuffer;;
           gl_call vertexAttribPointer);;
        for_each (views pose) draw_view;;
        platform RequestAnimationFrame
  end.

Definition onXRFrame (time : Z) (frame : XRFrame) : Js unit :=
  try_catch (frame_body frame)
            (fun err => logError "XR frame error" (Some err)).

(** ** Calibration loader *)

(** [await fetch(url)] *)
Definition fetch (url : string) : Js Response :=
  r ← read (fun w => fetch_result (env w) url);
  match r with
  | inl e => throw e
  | inr res => mret res
  end.

(** [await res.json()] *)
Definition json_of (res : Response) : Js json :=
  match json_body res with
  | inl e => throw e
  | inr body => mret body
  end.

Definition loadCalibration : Js unit :=
  try_catch
    (res ← fetch "/calibration";
     if negb (ok res) then
       throw (Error ("Calibration request failed: " +:+ pretty (status res)))
     else
       body ← json_of res;
       update (with_vars (set_calib (Some body)));;
       calib ← read (fun w => calib (vars w));
       if negb (truthy calib)
          || negb (truthy (calib ≫= fun c => field c "k_left"))
          || negb (truthy (calib ≫= fun c => field c "k_right"))
          || negb (String.eqb (typeof (calib ≫= fun c => field c "baseline_m")) "number")
       then throw (Error "Calibration payload missing required fields")
       else
         setStatus "Calibration loaded";;
         stringify ← read (fun w => JSON_stringify (env w));
         logToOverlay ("Calibration: " +:+ from_option stringify "undefined" calib))
    (fun err =>
       logError "Failed to load calibration" (Some err);;
       throw err).

(** ** Reading an intrinsic matrix out of the payload *)

(** A string of the payload is held as its UTF-8 text, while [s[i]] counts
    UTF-16 code units: a character below U+10000 is one unit, a character
    from U+10000 on is a pair of surrogates.  [characters] cuts the text
    into characters (a byte [10xxxxxx] continues the character before it),
    [units_of] gives the units of one character, a surrogate in the
    three-byte form of its number. *)
Definition continuation (a : Ascii.ascii) : bool :=
  ((128 <=? Ascii.N_of_ascii a) && (Ascii.N_of_ascii a <? 192))%N.

Fixpoint split_characters (s : string) : string * list string :=
  match s with
  | EmptyString => (EmptyString, [])
  | String a rest =>
      let '(tail, chars) := split_characters rest in
      if continuation a then (String a tail, chars)
      else (EmptyString, String a tail :: chars)
  end.

Definition characters (s : string) : list string := snd (split_characters s).

Definition code_point (c : string) : N :=
  match c with
  | String a (String b (String c (String d EmptyString))) =>
      ((Ascii.N_of_ascii a mod 8) * 262144 + (Ascii.N_of_ascii b mod 64) * 4096
       + (Ascii.N_of_ascii c mod 64) * 64 + Ascii.N_of_ascii d mod 64)%N
  | _ => 0%N
  end.

Definition unit_text (u : N) : string :=
  String (Ascii.ascii_of_N (224 + u / 4096))
    (String (Ascii.ascii_of_N (128 + (u / 64) mod 64))
       (String (Ascii.ascii_of_N (128 + u mod 64)) EmptyString)).

Definition units_of (c : string) : list string :=
  match c with
  | EmptyString => []
  | String a _ =>
      if (240 <=? Ascii.N_of_ascii a)%N then
        let v := (code_point c - 65536)%N in
        [unit_text (55296 + v / 1024); unit_text (56320 + v mod 1024)]
      else [c]
  end.

Definition code_units (s : string) : list string :=
  concat (map units_of (characters s)).

(** [v[i]]: a [TypeError] on [undefined] and [null], an element of an array,
    a code unit of a string, the field named by the index of an object, and
    [undefined] on a number or a boolean. *)
Definition index (v : jsval) (i : nat) : Js jsval :=
  match v with
  | None => throw (TypeError "Cannot read properties of undefined")
  | Some JNull => throw (TypeError "Cannot read properties of null")
  | Some (JArr items) => mret (items !! i)
  | Some (JObj fields) => mret (last_binding (pretty i) fields)
  | Some (JStr s) => mret (JStr <$> code_units s !! i)
  | Some (JBool _) => mret None
  | Some (JNum _) => mret None
  end.

(** A value that has no primitive form.  The conversion of an object to a
    number or to a string calls its [valueOf] and [toString]: on a parsed
    object the inherited [valueOf] returns the object itself and the
    inherited [toString] a string, but a key ["toString"] of the payload
    hides the inherited method behind a value that cannot be called, and
    the conversion raises a [TypeError].  An array is converted by joining
    the strings of its elements, [null] being the empty string, so it has
    no primitive form when one of its elements has none. *)
Fixpoint inconvertible (v : json) : bool :=
  match v with
  | JObj fields => existsb (fun kv => String.eqb (fst kv) "toString") fields
  | JArr items => existsb inconvertible items
  | _ => false
  end.

(** The conversion an arithmetic operator applies to an operand. *)
Definition ToNumber (v : jsval) : Js spec_float :=
  match v with
  | None => mret F64.nan
  | Some JNull => mret F64.zero
  | Some (JBool b) => mret (F64.of_Z (if b then 1 else 0))
  | Some (JNum x) => mret x
  | Some (JStr s) => parse ← read (fun w => StringToNumber (env w)); mret (parse s)
  | Some other =>
      if inconvertible other then
        throw (TypeError "Cannot convert object to primitive value")
      else
        show ← read (fun w => to_String (env w));
        parse ← read (fun w => StringToNumber (env w));
        mret (parse (show other))
  end.

(** The conversion to a string, which [new Error(v)] applies to its
    message. *)
Definition ToString (v : jsval) : Js string :=
  match v with
  | None => mret "undefined"
  | Some JNull => mret "null"
  | Some (JBool b) => mret (if b then "true" else "false")
  | Some (JStr s) => mret s
  | Some other =>
      if inconvertible other then
        throw (TypeError "Cannot convert object to primitive value")
      else
        show ← read (fun w => to_String (env w));
        mret (show other)
  end.

(** [perEyeTexOffset] as [startXR] calls it, on the values of the payload:
    the three reads [K[0][0]], [K[0][2]], [K[1][2]], then the arithmetic of
    [texOffset] on the operands as numbers.  The first step records the
    entry into the function. *)
Definition perEyeTexOffset_call (K : jsval) (width height : spec_float)
    (baseline_m : jsval) (convergence_m : spec_float) (eye : string)
    : Js (list spec_float) :=
  emit (CallPerEyeTexOffset K eye);;
  row0 ← index K 0;
  fx ← index row0 0;
  row0 ← index K 0;
  cx ← index row0 2;
  row1 ← index K 1;
  cy ← index row1 2;
  cx ← ToNumber cx;
  cy ← ToNumber cy;
  fx ← ToNumber fx;
  baseline_m ← ToNumber baseline_m;
  mret (texOffset fx cx cy width height baseline_m convergence_m eye).

(** A matrix of numbers as it arrives in a payload: an array of three
    arrays of three numbers. *)
Definition json_of_row (r : Row3 spec_float) : json :=
  let '(a, b, c) := r in JArr [JNum a; JNum b; JNum c].

Definition json_of_matrix (K : Mat3 spec_float) : json :=
  let '(r0, r1, r2) := K in JArr [json_of_row r0; json_of_row r1; json_of_row r2].

(** ** Session negotiator *)

Record RTCRtpTransceiver := { mid : option string }.

Record RTCTrackEvent := {
  track_kind : string;
  track : nat;
  transceiver : option RTCRtpTransceiver
}.

(** The data channel [startWebRTC] opens. *)
Definition poseData : RTCDataChannel :=
  {| label := "poseData";
     init := {| ordered := true; maxRetransmits := Some 0%nat |} |}.

(** The choice of [targetVideo] in the [pc.ontrack] handler. *)
Definition targetVideo_of (videoCount : nat) (event : RTCTrackEvent) : Video :=
  let has_mid :=
    match transceiver event with
    | Some tr => bool_decide (mid tr <> None)
    | None => false
    end in
  if has_mid then
    if bool_decide ((transceiver event ≫= mid) = Some "0")
    then leftVideo else rightVideo
  else
    if (videoCount =? 0)%nat then leftVideo else rightVideo.

(** The [pc.ontrack] handler; [videoCount] is the variable it closes over.
    [SrcObject] records the assignment [targetVideo.srcObject = stream]. *)
Definition pc_ontrack (event : RTCTrackEvent) : Js unit :=
  if negb (String.eqb (track_kind event) "video") then mret tt
  else
    videoCount ← read (fun w => videoCount (vars w));
    let targetVideo := targetVideo_of videoCount event in
    emit (SrcObject targetVideo (track event));;
    setStatus ("Video track " +:+ pretty (videoCount + 1)%nat +:+ " attached");;
    update (with_vars (set_videoCount (videoCount + 1))).

(** The [dataChannel.onclose] handler. *)
Definition dataChannel_onclose : Js unit :=
  update (with_vars (set_dataChannel None));;
  setStatus "Data channel closed".

Definition startWebRTC : Js unit :=
  platform (RTC newRTCPeerConnection);;
  setStatus "Starting WebRTC";;
  platform (RTC (createDataChannel poseData));;
  update (with_vars (set_dataChannel (Some poseData)));;
  update (with_vars (set_videoCount 0));;
  platform (RTC (addTransceiver "video" "recvonly"));;
  platform (RTC (addTransceiver "video" "recvonly"));;
  platform (RTC createOffer);;
  platform (RTC setLocalDescription);;
  platform (RTC postOffer);;
  response ← fetch "/offer";
  answer ← json_of response;
  match answer with
  | JNull => throw (TypeError "Cannot read properties of null")
  | _ =>
      let error := field answer "error" in
      if truthy error then
        message ← ToString error;
        throw (Error message)
      else platform (RTC setRemoteDescription)
  end.

(** ** Start-up *)

Definition createShader (kind : string) : Js unit :=
  gl_call (setup "createShader");;
  gl_call (setup "shaderSource");;
  gl_call (setup "compileShader");;
  compiled ← read (fun w => COMPILE_STATUS (env w));
  if negb compiled then
    info ← read (fun w => info_log (env w));
    gl_call (setup "deleteShader");;
    throw (Error (if String.eqb info "" then "Shader compile failed" else info))
  else mret tt.

Definition init_texture (t : Texture) : Js unit :=
  gl_call (setup "createTexture");;
  gl_call (bindTexture t);;
  gl_call (setup "texParameteri");;
  gl_call (setup "texParameteri");;
  gl_call (setup "texParameteri");;
  gl_call (setup "texParameteri");;
  gl_call (texImage2D DefaultCanvas).

Definition initGLResources : Js unit :=
  ctx ← read (fun w => getContext (env w));
  update (with_vars (set_gl ctx));;
  createShader "VERTEX_SHADER";;
  createShader "FRAGMENT_SHADER";;
  gl_call (setup "createProgram");;
  gl_call (setup "attachShader");;
  gl_call (setup "attachShader");;
  gl_call (setup "linkProgram");;
  linked ← read (fun w => LINK_STATUS (env w));
  if negb linked then
    info ← read (fun w => info_log (env w));
    throw (Error (if String.eqb info "" then "Program link failed" else info))
  else
    handles ← read (fun w => gl_handles (env w));
    update (with_vars (set_gl_handles handles));;
    gl_call (setup "createBuffer");;
    gl_call bindBuffer;;
    gl_call (setup "bufferData");;
    (if 0 <=? h_positionAttrLoc handles then
       gl_call enableVertexAttribArray;;
       gl_call bindBuffer;;
       gl_call vertexAttribPointer
     else emit (ConsoleWarn "position attribute not found in index.js shader"));;
    init_texture leftTexture;;
    init_texture rightTexture.

Definition CONVERGENCE_M : spec_float := F64.decimal 12 1.

(** [x.toFixed(1)] on a value read from the payload: only a number has the
    method. *)
Definition toFixed1 (v : jsval) : Js string :=
  match v with
  | Some (JNum x) => fmt ← read (fun w => toFixed (env w)); mret (fmt x 1%nat)
  | None => throw (TypeError "Cannot read properties of undefined")
  | Some JNull => throw (TypeError "Cannot read properties of null")
  | Some _ => throw (TypeError "toFixed is not a function")
  end.

Definition log_convergence (calib : jsval) : Js unit :=
  row0 ← index (calib ≫= fun c => field c "k_left") 0;
  fx ← index row0 0;
  fx_n ← ToNumber fx;
  baseline ← ToNumber (calib ≫= fun c => field c "baseline_m");
  fmt ← read (fun w => toFixed (env w));
  let shiftPx :=
    fmt (F64.div (F64.mul fx_n baseline) (F64.mul (F64.of_Z 2) CONVERGENCE_M)) 1%nat in
  let baseline_mm := fmt (F64.mul baseline (F64.of_Z 1000)) 1%nat in
  row0 ← index (calib ≫= fun c => field c "k_left") 0;
  fx ← index row0 0;
  fx_s ← toFixed1 fx;
  show ← read (fun w => to_String (env w));
  logToOverlay ("Convergence: " +:+ show (JNum CONVERGENCE_M) +:+ "m, baseline: "
                +:+ baseline_mm +:+ "mm, fx: " +:+ fx_s
                +:+ ", shift: " +:+ shiftPx +:+ "px/eye").

Definition startXR : Js unit :=
  xr ← read (fun w => navigator_xr (env w));
  if negb xr then logError "WebXR not supported" None
  else
    started ← try_catch (startWebRTC;; loadCalibration;; mret true)
                        (fun err => logError "Startup failed" (Some err);; mret false);
    if negb started then mret tt
    else
      ctx ← read (fun w => gl (vars w));
      ready ← (if negb ctx then
                 try_catch (initGLResources;; mret true)
                           (fun err => logError "WebGL init failed" (Some err);; mret false)
               else mret true);
      if negb ready then mret tt
      else
        let width := F64.of_Z 1280 in
        let height := F64.of_Z 720 in
        calib ← read (fun w => calib (vars w));
        left ← perEyeTexOffset_call (calib ≫= fun c => field c "k_left") width height
                 (calib ≫= fun c => field c "baseline_m") CONVERGENCE_M "left";
        update (with_vars (set_texOffsetLeft (Some left)));;
        right ← perEyeTexOffset_call (calib ≫= fun c => field c "k_right") width height
                  (calib ≫= fun c => field c "baseline_m") CONVERGENCE_M "right";
        update (with_vars (set_texOffsetRight (Some right)));;
        log_convergence calib;;
        platform (XR requestSession);;
        platform (XR makeXRCompatible);;
        platform (XR newXRWebGLLayer);;
        platform (XR updateRenderState);;
        platform (XR requestReferenceSpace);;
        platform RequestAnimationFrame.

(** ** Sample data

    A calibration close to the one of the specification's worked example
    (fx = 800, cy = 360, 1280x720, baseline 0.075 m, convergence 1.2 m),
    with the principal point one pixel right of the centre column. *)
Module Sample.
Definition K641 : Mat3 spec_float :=
  ((F64.of_Z 800, F64.zero, F64.of_Z 641),
   (F64.zero, F64.of_Z 800, F64.of_Z 360),
   (F64.zero, F64.zero, F64.of_Z 1)).
Definition K640 : Mat3 spec_float :=
  ((F64.of_Z 800, F64.zero, F64.of_Z 640),
   (F64.zero, F64.of_Z 800, F64.of_Z 360),
   (F64.zero, F64.zero, F64.of_Z 1)).
Definition width : spec_float := F64.of_Z 1280.
Definition height : spec_float := F64.of_Z 720.
Definition baseline_m : spec_float := F64.decimal 75 3.
Definition convergence_m : spec_float := F64.decimal 12 1.

Definition matrix (cx : Z) : json :=
  json_of_matrix ((F64.of_Z 800, F64.zero, F64.of_Z cx),
                  (F64.zero, F64.of_Z 800, F64.of_Z 360),
                  (F64.zero, F64.zero, F64.of_Z 1)).

(** A payload whose [k_left] is a number, not a matrix. *)
Definition bad_payload : json :=
  JObj [("k_left", JNum (F64.of_Z 1)); ("k_right", matrix 640);
        ("baseline_m", JNum baseline_m)].

(** A payload without [baseline_m]. *)
Definition short_payload : json :=
  JObj [("k_left", matrix 640); ("k_right", matrix 640)].

(** A well-formed calibration payload. *)
Definition payload : json :=
  JObj [("k_left", matrix 640); ("k_right", matrix 640);
        ("baseline_m", JNum baseline_m)].

Definition not_ready : VideoState :=
  {| readyState := 0; videoWidth := 0; videoHeight := 0; currentFrame := 0 |}.

Definition playing (frame : nat) : VideoState :=
  {| readyState := 4; videoWidth := 1280; videoHeight := 720;
     currentFrame := frame |}.

(** A browser that answers the calibration request with [body] and the
    offer with an answer, whose data channel is in state [st], and whose
    video elements are in the states [l] and [r]. *)
Definition browser (body : json) (st : RTCDataChannelState) (l r : VideoState) : Env :=
  {| channel_readyState := st;
     Date_now := 1700000000000;
     video := fun v => match v with leftVideo => l | rightVideo => r end;
     navigator_xr := true;
     fetch_result := fun url =>
       if String.eqb url "/calibration"
       then inr {| ok := true; status := 200; json_body := inr body |}
       else inr {| ok := true; status := 200;
                   json_body := inr (JObj [("sdp", JStr "v=0"); ("type", JStr "answer")]) |};
     getContext := true;
     COMPILE_STATUS := true;
     LINK_STATUS := true;
     info_log := "";
     gl_handles := {| h_uTexOffsetLoc := Some 1%nat; h_samplerLoc := Some 2%nat;
                      h_positionAttrLoc := 0 |};
     JSON_stringify := fun _ => "{}";
     to_String := fun _ => "";
     StringToNumber := fun _ => F64.nan;
     toFixed := fun _ _ => "0.0" |}.

(** The variables as the script initialises them. *)
Definition fresh_vars : Vars :=
  {| dataChannel := None; calib := Some JNull; gl := false;
     texOffsetLeft := None; texOffsetRight := None;
     hasLoggedLeftVideo := false; hasLoggedRightVideo := false;
     uTexOffsetLoc := None; samplerLoc := None; positionAttrLoc := -1;
     videoCount := 0 |}.

Definition blank_gpu : GLState :=
  {| bound_texture := None; image_left := DefaultCanvas;
     image_right := DefaultCanvas; uTexOffset := None;
     current_viewport := {| vp_x := 0; vp_y := 0; vp_width := 0; vp_height := 0 |} |}.

(** The page before the user enters VR. *)
Definition page (e : Env) : World :=
  {| vars := fresh_vars; env := e; gpu := blank_gpu; trace := []; oracle := [] |}.

(** The variables once start-up has succeeded. *)
Definition running_vars : Vars :=
  {| dataChannel := Some poseData; calib := Some payload; gl := true;
     texOffsetLeft := Some [F64.zero; F64.zero];
     texOffsetRight := Some [F64.zero; F64.zero];
     hasLoggedLeftVideo := false; hasLoggedRightVideo := false;
     uTexOffsetLoc := Some 1%nat; samplerLoc := Some 2%nat; positionAttrLoc := 0;
     videoCount := 2 |}.

(** A running session, with the platform raising as [faults] says. *)
Definition running (e : Env) (faults : list (option Exn)) : World :=
  {| vars := running_vars; env := e; gpu := blank_gpu; trace := [];
     oracle := faults |}.

Definition origin : Point := {| px := F64.zero; py := F64.zero; pz := F64.zero |}.
Definition upright : Quaternion :=
  {| qx := F64.zero; qy := F64.zero; qz := F64.zero; qw := F64.of_Z 1 |}.

Definition left_view : XRView :=
  {| eye := eye_left;
     viewport_of := {| vp_x := 0; vp_y := 0; vp_width := 1680; vp_height := 1760 |} |}.
Definition right_view : XRView :=
  {| eye := eye_right;
     viewport_of := {| vp_x := 1680; vp_y := 0; vp_width := 1680; vp_height := 1760 |} |}.

Definition pose : XRViewerPose :=
  {| position := origin; orientation := upright; views := [left_view; right_view] |}.

Definition button (b : bool) : GamepadButton :=
  {| pressed := b; touched := b; value := F64.of_Z (if b then 1 else 0) |}.

(** A left controller with the stick pushed forward and the grip held. *)
Definition left_controller : XRInputSource :=
  {| handedness := hand_left;
     gamepad := Some {| axes := [F64.zero; F64.zero; F64.zero; F64.of_Z (-1)];
                        gp_buttons := [button false; button true] |} |}.

Definition video_track (id : nat) (m : option string) : RTCTrackEvent :=
  {| track_kind := "video"; track := id; transceiver := Some {| mid := m |} |}.

Definition audio_track : RTCTrackEvent :=
  {| track_kind := "audio"; track := 10; transceiver := Some {| mid := Some "2" |} |}.

Definition tracked_frame : XRFrame :=
  {| getViewerPose := Some pose; inputSources := [left_controller] |}.

Definition untracked_frame : XRFrame :=
  {| getViewerPose := None; inputSources := [left_controller] |}.
End Sample.


(** * Specification vocabulary

    The notions the properties are stated with: triples and invariants over
    the effect monad, and the predicates on events, messages and states. *)

(** ** Triples and invariants *)

(** A triple with a postcondition for each way of terminating. *)
Definition triple {A} (P : World -> Prop) (m : Js A)
    (Q : A -> World -> Prop) (E : Exn -> World -> Prop) : Prop :=
  forall w, P w ->
    match m w with
    | (Normal a, w') => Q a w'
    | (Thrown e, w') => E e w'
    end.

(** [keeps I m]: the invariant [I] survives [m] however it terminates. *)
Definition keeps {A} (I : World -> Prop) (m : Js A) : Prop :=
  triple I m (fun _ => I) (fun _ => I).

(** [guarded I m Q]: from [I], either [m] returns with [Q], or it raises
    with [I] still true. *)
Definition guarded {A} (I : World -> Prop) (m : Js A) (Q : A -> World -> Prop) : Prop :=
  triple I m Q (fun _ => I).

(** An invariant is stable when it does not look at what a step writes. *)
Definition emit_stable (I : World -> Prop) (ev : Event) : Prop :=
  forall w, I w -> I (with_trace (fun t => t ++ [ev]) w).
Definition oracle_stable (I : World -> Prop) : Prop :=
  forall w o, I w -> I (with_oracle o w).
Definition gpu_stable (I : World -> Prop) (c : GLCall) : Prop :=
  forall w, I w -> I (with_gpu (gl_effect c) w).

(** The invariants used below: the trace is [t0] followed by events that
    all satisfy [allowed], and the client's variables, the environment and
    the WebGL state satisfy [fixed]. *)
Definition Inv (t0 : list Event) (allowed : Event -> Prop)
    (fixed : Vars -> Env -> GLState -> Prop) (w : World) : Prop :=
  exists evs,
    trace w = t0 ++ evs /\ Forall allowed evs /\ fixed (vars w) (env w) (gpu w).

(** ** Session negotiation *)

(** An event that creates no data channel other than [poseData]. *)
Definition creates_only_poseData (ev : Event) : Prop :=
  forall ch, ev = RTC (createDataChannel ch) -> ch = poseData.

(** The tracks that count: [pc.ontrack] ignores everything but video. *)
Definition is_video (event : RTCTrackEvent) : bool :=
  String.eqb (track_kind event) "video".

Definition video_tracks (events : list RTCTrackEvent) : nat :=
  length (filter (fun e => is_video e = true) events).

(** [event.transceiver.mid] when the transceiver is there and its mid is
    not [null]. *)
Definition mid_of (event : RTCTrackEvent) : option string :=
  transceiver event ≫= mid.

(** ** Controller messages *)

(** An input source drives the stick of [hand] when it is of that hand and
    has a gamepad with at least four axes. *)
Definition drives (hand : XRHandedness) (src : XRInputSource) : Prop :=
  handedness src = hand
  /\ exists g, gamepad src = Some g /\ (4 <= length (axes g))%nat.

(** The stick reading of an input source: [x = axes[2]], [y = -axes[3]]. *)
Definition stick_of (src : XRInputSource) (s : Stick) : Prop :=
  exists g a2 a3,
    gamepad src = Some g
    /\ axes g !! 2%nat = Some a2
    /\ axes g !! 3%nat = Some a3
    /\ s = {| stick_x := a2; stick_y := F64.neg a3 |}.

Definition centred : Stick := {| stick_x := F64.zero; stick_y := F64.zero |}.

(** Some button of some source in [srcs] is pressed. *)
Definition some_pressed (srcs : list XRInputSource) : Prop :=
  exists src g i,
    src ∈ srcs /\ gamepad src = Some g /\ is_pressed (gp_buttons g) i = true.

(** Every key of the buttons object is [true], and none is there unless
    [why] holds. *)
Definition buttons_ok (m : ControllerMessage) (why : Prop) : Prop :=
  forall key v, buttons m !! key = Some v -> v = true /\ why.

Definition has_button (m : ControllerMessage) (key : string) : Prop :=
  buttons m !! key = Some true.

(** ** Calibration *)

(** The condition under which [loadCalibration] lets a payload through, as
    the code tests it. *)
Definition passes_validation (body : json) : Prop :=
  truthy (Some body) = true
  /\ truthy (field body "k_left") = true
  /\ truthy (field body "k_right") = true
  /\ typeof (field body "baseline_m") = "number".

(** The browser answers the calibration request with status OK and a
    payload that passes. *)
Definition accepts (e : Env) : Prop :=
  exists res body,
    fetch_result e "/calibration" = inr res
    /\ ok res = true
    /\ json_body res = inr body
    /\ passes_validation body.

(** The entries into [perEyeTexOffset] recorded in a trace. *)
Definition perEyeTexOffset_calls (evs : list Event) : list (jsval * string) :=
  omap (fun ev => match ev with
                  | CallPerEyeTexOffset K eye => Some (K, eye)
                  | _ => None
                  end) evs.

Definition no_call (ev : Event) : Prop :=
  match ev with CallPerEyeTexOffset _ _ => False | _ => True end.

(** ** Frames *)

(** Events that are not a transmission, respectively not a frame request. *)
Definition not_send (ev : Event) : Prop :=
  match ev with Send _ => False | _ => True end.

Definition no_raf (ev : Event) : Prop :=
  match ev with RequestAnimationFrame => False | _ => True end.

(** The next platform call does not raise. *)
Definition next_call_returns (o : list (option Exn)) : Prop :=
  forall e rest, o <> Some e :: rest.

(** The WebGL calls the frame callback makes outside
    [updateTextureFromVideo]. *)
Definition frame_gl (c : GLCall) : Prop :=
  match c with
  | texImage2D _ => False
  | setup _ => False
  | _ => True
  end.

(** The steps of a frame, each keeping the invariant [I]. *)
Definition frame_steps_keep (I : World -> Prop) : Prop :=
  (forall pose, keeps I (send_pose pose))
  /\ (forall srcs, keeps I (sendControllerData srcs))
  /\ keeps I (updateTextureFromVideo leftTexture leftVideo)
  /\ keeps I (updateTextureFromVideo rightTexture rightVideo)
  /\ (forall c, frame_gl c -> keeps I (gl_call c))
  /\ keeps I (platform GetViewerPose)
  /\ keeps I (platform GetViewport)
  /\ keeps I (setStatus "Waiting for GL sampler").

(** ** A session: the callbacks the browser runs after start-up *)

Inductive Callback :=
| AnimationFrame (time : Z) (frame : XRFrame)
| Track (event : RTCTrackEvent)
| ChannelClose.

(** One turn of the event loop: the state of the browser at that time, what
    its calls will raise, and the callback it runs. *)
Record Turn := {
  browser_state : Env;
  faults : list (option Exn);
  callback : Callback
}.

Definition run_callback (c : Callback) : Js unit :=
  match c with
  | AnimationFrame time frame => onXRFrame time frame
  | Track event => pc_ontrack event
  | ChannelClose => dataChannel_onclose
  end.

(** An exception that leaves a callback reaches the [window] error
    listener. *)
Definition turn (t : Turn) : Js unit :=
  update (fun w => with_oracle (faults t) (with_env (browser_state t) w));;
  try_catch (run_callback (callback t))
            (fun e => logError "Unhandled error" (Some e)).

Definition session (turns : list Turn) : Js unit := for_each turns turn.

(** The data channel cannot be written to: closed or closing, or already
    dropped by the [onclose] handler. *)
Definition channel_closed (v : Vars) (e : Env) : Prop :=
  dataChannel v = None \/ channel_readyState e <> open.

(** The [onclose] handler has run: [dataChannel] is [null]. *)
Definition channel_dropped (v : Vars) (e : Env) (s : GLState) : Prop :=
  dataChannel v = None.

(** ** Videos that are not decodable yet *)

(** [readyState] below 2 or a zero frame dimension. *)
Definition not_decodable (s : VideoState) : Prop :=
  (readyState s < 2)%nat \/ videoWidth s = 0%nat \/ videoHeight s = 0%nat.

Definition stall_message (v : Video) : string :=
  match v with
  | leftVideo => "Left video not ready yet"
  | rightVideo => "Right video not ready yet"
  end.

Definition has_logged (v : Video) (vs : Vars) : bool :=
  match v with
  | leftVideo => hasLoggedLeftVideo vs
  | rightVideo => hasLoggedRightVideo vs
  end.

Definition set_logged (v : Video) : Vars -> Vars :=
  match v with
  | leftVideo => set_hasLoggedLeftVideo true
  | rightVideo => set_hasLoggedRightVideo true
  end.

(** The video element and the texture of an eye view. *)
Definition video_of (view : XRView) : Video :=
  if bool_decide (XREye_str (eye view) = "left") then leftVideo else rightVideo.

Definition texture_for (v : Video) : Texture :=
  match v with leftVideo => leftTexture | rightVideo => rightTexture end.

(** The stall of [v] logged in a trace. *)
Definition is_stall (v : Video) (ev : Event) : bool :=
  match ev with
  | SetStatus m => String.eqb m (stall_message v)
  | _ => false
  end.

Definition stall_logs (v : Video) (evs : list Event) : nat :=
  length (filter (fun ev => is_stall v ev = true) evs).

(** Each stall has been logged at most once, and not at all while its flag
    is still down. *)
Definition logged_once (w : World) : Prop :=
  forall v, (stall_logs v (trace w) <= if has_logged v (vars w) then 1 else 0)%nat.

(** An upload of a frame of [v]. *)
Definition is_upload (v : Video) (ev : Event) : Prop :=
  exists n, ev = GL (texImage2D (VideoFrame v n)).

(** No platform call raises and the WebGL context is there. *)
Definition quiet (w : World) : Prop := oracle w = [] /\ gl (vars w) = true.

(** The world after a WebGL call that does not raise. *)
Definition after_gl (c : GLCall) (w : World) : World :=
  with_gpu (gl_effect c) (with_trace (fun t => t ++ [gl_event c (gpu w)]) w).

(** An event that uploads no frame of a video that is not decodable. *)
Definition no_stalled_upload (e : Env) (ev : Event) : Prop :=
  forall u, not_decodable (video e u) -> ~ is_upload u ev.

(** From [w] the code has reached [w'], adding the events [evs], without
    raising: the environment and the sampler handle are the same, the
    texture of every video that is not decodable holds the same image, and
    no frame of such a video was uploaded. *)
Definition reaches (w w' : World) (evs : list Event) : Prop :=
  quiet w'
  /\ env w' = env w
  /\ samplerLoc (vars w') = samplerLoc (vars w)
  /\ (forall u, not_decodable (video (env w) u) ->
        image_of (gpu w') (texture_for u) = image_of (gpu w) (texture_for u))
  /\ trace w' = trace w ++ evs
  /\ Forall (no_stalled_upload (env w)) evs.

(** [m] returns from every quiet world, reaching another one. *)
Definition runs (m : Js unit) : Prop :=
  forall w, quiet w -> exists w' evs, m w = (Normal tt, w') /\ reaches w w' evs.

(** A draw of the view [view] among [evs], made with the texture of its eye
    holding the image [img]. *)
Definition drawn_with (view : XRView) (img : TexImage) (evs : list Event) : Prop :=
  exists d,
    Draw d ∈ evs
    /\ drawn_viewport d = viewport_of view
    /\ drawn_texture d = Some (texture_for (video_of view))
    /\ drawn_image d = Some img.

(** * Further vocabulary: the rest of the client *)

(** ** The frame after its telemetry *)

(** What [onXRFrame] does once the pose and the controllers are sent: the
    sampler test, then the clear and the eye passes. *)
Definition frame_rest (pose : XRViewerPose) : Js unit :=
  sampler ← read (fun w => samplerLoc (vars w));
  if negb (bool_decide (is_Some sampler)) then
    setStatus "Waiting for GL sampler";;
    platform RequestAnimationFrame
  else
    gl_call bindFramebuffer;;
    gl_call clearColor;;
    gl_call clear;;
    gl_call useProgram;;
    attr ← read (fun w => positionAttrLoc (vars w));
    when (0 <=? attr)
      (gl_call enableVertexAttribArray;;
       gl_call bindBuffer;;
       gl_call vertexAttribPointer);;
    for_each (views pose) draw_view;;
    platform RequestAnimationFrame.

(** The telemetry of a frame in which nothing raises: the pose message, then
    the controller message, when the channel is open. *)
Definition telemetry_of (pose : XRViewerPose) (srcs : list XRInputSource)
    (w : World) : list Event :=
  if channel_is_open w then
    [Send (PoseMessage "pose" (position pose) (orientation pose));
     Send (Controller (controllerMessage_of (Date_now (env w)) srcs))]
  else [].

(** Events that are not WebGL work. *)
Definition no_gl (ev : Event) : Prop :=
  match ev with
  | GL _ => False
  | Draw _ => False
  | GetViewport => False
  | _ => True
  end.

(** The offset of an eye as the frame reads it: the stored one, or zero
    while none is stored. *)
Definition offset_for (v : Video) (vs : Vars) : list spec_float :=
  default (Float32Array [F64.of_Z 0; F64.of_Z 0])
    (match v with
     | leftVideo => texOffsetLeft vs
     | rightVideo => texOffsetRight vs
     end).

(** ** What a frame draws *)

(** The draws recorded in a trace, in order. *)
Definition draws (evs : list Event) : list DrawRecord :=
  omap (fun ev => match ev with Draw d => Some d | _ => None end) evs.

(** The image the texture of a video holds after its upload step in [w]:
    the current frame when the video is decodable, the old image
    otherwise. *)
Definition eye_image (w : World) (v : Video) : TexImage :=
  let s := video (env w) v in
  if (readyState s <? 2)%nat || (videoWidth s =? 0)%nat || (videoHeight s =? 0)%nat
  then image_of (gpu w) (texture_for v)
  else VideoFrame v (currentFrame s).

(** The draw an eye pass started in [w] is expected to make. *)
Definition expected_draw (w : World) (view : XRView) : DrawRecord :=
  let v := video_of view in
  {| drawn_viewport := viewport_of view;
     drawn_texture := Some (texture_for v);
     drawn_image := Some (eye_image w v);
     drawn_offset :=
       match uTexOffsetLoc (vars w) with
       | Some _ => Some (offset_for v (vars w))
       | None => uTexOffset (gpu w)
       end |}.

(** WebGL calls that write neither a texture image nor the offset
    uniform. *)
Definition inert (c : GLCall) : Prop :=
  match c with
  | texImage2D _ => False
  | uniform2fv _ => False
  | _ => True
  end.

(** From [w] the code has advanced to [x], adding the events [evs], without
    raising and without touching what the eye passes read. *)
Record advances (w x : World) (evs : list Event) : Prop := {
  adv_quiet : quiet x;
  adv_env : env x = env w;
  adv_left : texOffsetLeft (vars x) = texOffsetLeft (vars w);
  adv_right : texOffsetRight (vars x) = texOffsetRight (vars w);
  adv_loc : uTexOffsetLoc (vars x) = uTexOffsetLoc (vars w);
  adv_sampler : samplerLoc (vars x) = samplerLoc (vars w);
  adv_attr : positionAttrLoc (vars x) = positionAttrLoc (vars w);
  adv_uniform :
    uTexOffsetLoc (vars w) = None -> uTexOffset (gpu x) = uTexOffset (gpu w);
  adv_images :
    forall u, not_decodable (video (env w) u) ->
      image_of (gpu x) (texture_for u) = image_of (gpu w) (texture_for u);
  adv_trace : trace x = trace w ++ evs
}.

(** [m] returns from every quiet world, advancing without a draw. *)
Definition prepares (m : Js unit) : Prop :=
  forall w, quiet w ->
    exists w' evs, m w = (Normal tt, w') /\ advances w w' evs /\ draws evs = [].

(** ** Buttons *)

(** The input source [src] sets the key [key] of the buttons object: the
    six assignments of the loop body, each under its test. *)
Definition writes (src : XRInputSource) (key : string) : bool :=
  match gamepad src with
  | None => false
  | Some g =>
      let btns := gp_buttons g in
      let hand := handedness src in
      is_pressed btns 0 && String.eqb key (handedness_str hand +:+ "_trigger")
      || is_pressed btns 1 && String.eqb key (handedness_str hand +:+ "_grip")
      || is_pressed btns 4 && String.eqb key "plow_up"
      || is_pressed btns 5 && String.eqb key "plow_down"
      || (hand_is hand "right" && is_pressed btns 1) && String.eqb key "lights"
      || (hand_is hand "left" && is_pressed btns 1) && String.eqb key "horn"
  end.

(** ** Starting the render loop *)

(** The calls that set the XR session up, in the order [startXR] makes
    them. *)
Definition session_setup : list Event :=
  [XR requestSession; XR makeXRCompatible; XR newXRWebGLLayer;
   XR updateRenderState; XR requestReferenceSpace].

(** Both texture offsets are stored. *)
Definition offsets_stored (v : Vars) : Prop :=
  is_Some (texOffsetLeft v) /\ is_Some (texOffsetRight v).

(** Since the trace [t0] no frame was requested before the events [suffix],
    which come last, and both offsets are stored. *)
Definition loop_ready (t0 suffix : list Event) (w : World) : Prop :=
  exists pre,
    trace w = t0 ++ pre ++ suffix
    /\ Forall no_raf pre
    /\ offsets_stored (vars w).

(** ** A start-up that goes through *)

(** The events of a negotiation that succeeds. *)
Definition negotiation : list Event :=
  [RTC newRTCPeerConnection;
   SetStatus "Starting WebRTC";
   RTC (createDataChannel poseData);
   RTC (addTransceiver "video" "recvonly");
   RTC (addTransceiver "video" "recvonly");
   RTC createOffer;
   RTC setLocalDescription;
   RTC postOffer;
   RTC setRemoteDescription].

(** The server answers the offer without an error. *)
Definition answers (e : Env) : Prop :=
  exists res answer,
    fetch_result e "/offer" = inr res
    /\ json_body res = inr answer
    /\ answer <> JNull
    /\ truthy (field answer "error") = false.

(** The server serves the calibration [body], whose matrices are [KL] and
    [KR] and whose baseline is [b]. *)
Definition serves (e : Env) (body : json) (KL KR : Mat3 spec_float)
    (b : spec_float) : Prop :=
  (exists res,
     fetch_result e "/calibration" = inr res
     /\ ok res = true
     /\ json_body res = inr body)
  /\ field body "k_left" = Some (json_of_matrix KL)
  /\ field body "k_right" = Some (json_of_matrix KR)
  /\ field body "baseline_m" = Some (JNum b).

(** WebGL is available and the shaders compile and link. *)
Definition gl_available (e : Env) : Prop :=
  getContext e = true /\ COMPILE_STATUS e = true /\ LINK_STATUS e = true.

(** The events of WebGL initialisation: WebGL calls other than a draw, and
    the console warning about the position attribute. *)
Definition init_event (ev : Event) : Prop :=
  match ev with
  | GL _ => True
  | ConsoleWarn _ => True
  | _ => False
  end.

(** The events of start-up outside WebGL initialisation and the request for
    the first frame: logs, negotiation, session set-up and the entries into
    [perEyeTexOffset]. *)
Definition startup_event (ev : Event) : Prop :=
  match ev with
  | SetStatus _ => True
  | LogError _ _ => True
  | LogToOverlay _ => True
  | RTC _ => True
  | XR _ => True
  | CallPerEyeTexOffset _ _ => True
  | _ => False
  end.

(** The three handles [initGLResources] stores. *)
Definition handles_of (v : Vars) : option nat * option nat * Z :=
  (uTexOffsetLoc v, samplerLoc v, positionAttrLoc v).

(** ** The loop over a session *)

Definition is_raf (ev : Event) : bool :=
  match ev with RequestAnimationFrame => true | _ => false end.

(** The frame requests recorded in a trace. *)
Definition frame_requests (evs : list Event) : nat :=
  length (List.filter is_raf evs).

Definition is_frame (t : Turn) : bool :=
  match callback t with AnimationFrame _ _ => true | _ => false end.

(** The animation-frame callbacks among the turns of a session. *)
Definition frames (turns : list Turn) : nat :=
  length (List.filter is_frame turns).

(** ** Reading the intrinsics *)

(** [v == null]: the value is [undefined] or [null]. *)
Definition nullish (v : jsval) : bool :=
  match v with
  | None => true
  | Some JNull => true
  | _ => false
  end.

(** [v[i]] on a value that is neither [undefined] nor [null]. *)
Definition element (v : jsval) (i : nat) : jsval :=
  match v with
  | Some (JArr items) => items !! i
  | Some (JObj fields) => last_binding (pretty i) fields
  | Some (JStr s) => JStr <$> code_units s !! i
  | _ => None
  end.

(** A value with no primitive form: neither an arithmetic operator nor
    [new Error] can convert it. *)
Definition no_primitive (v : jsval) : bool := from_option inconvertible false v.

(** The string of a value that has a primitive form. *)
Definition text_of (e : Env) (v : jsval) : string :=
  match v with
  | None => "undefined"
  | Some JNull => "null"
  | Some (JBool b) => if b then "true" else "false"
  | Some (JStr s) => s
  | Some other => to_String e other
  end.

(** ** The log overlay ([logging.js])

    The client model above records a call of [logToOverlay], [setStatus] or
    [logError] as one event.  This is what the three functions do to the
    page: the status element, the error overlay, the console, and the log
    overlay with its buffer of lines. *)
Module Logging.

(** The elements the script looks up when it loads are there or not
    ([None]); the log overlay is created on first use. *)
Record Page := {
  statusEl : option string;
  errorOverlay : option (bool * string);
  logOverlay : option string;
  _logLines : list string;
  console_error : list string
}.

(** Where the creation of the overlay fails, if it does:
    [document.createElement] raising, or [document.body.appendChild] on a
    document without body. *)
Inductive Fault := no_fault | createElement_raises | appendChild_raises.

Definition set_overlay (text : option string) (p : Page) : Page :=
  {| statusEl := statusEl p; errorOverlay := errorOverlay p; logOverlay := text;
     _logLines := _logLines p; console_error := console_error p |}.

Definition set_lines (lines : list string) (p : Page) : Page :=
  {| statusEl := statusEl p; errorOverlay := errorOverlay p;
     logOverlay := logOverlay p; _logLines := lines;
     console_error := console_error p |}.

(** [createLogOverlay]: the page after it, and whether it returned. *)
Definition createLogOverlay (fault : Fault) (p : Page) : Page * bool :=
  match logOverlay p with
  | Some _ => (p, true)
  | None =>
      match fault with
      | createElement_raises => (p, false)
      | appendChild_raises => (set_overlay (Some "") p, false)
      | no_fault => (set_overlay (Some "") p, true)
      end
  end.

(** [s.toUpperCase()] on the ASCII letters. *)
Definition upper (c : Ascii.ascii) : Ascii.ascii :=
  let n := Ascii.nat_of_ascii c in
  if ((97 <=? n) && (n <=? 122))%nat then Ascii.ascii_of_nat (n - 32) else c.

Fixpoint toUpperCase (s : string) : string :=
  match s with
  | EmptyString => EmptyString
  | String c rest => String (upper c) (toUpperCase rest)
  end.

(** [s.replace('T', ' ')]: the first occurrence only (T is character 84,
    the space character 32). *)
Fixpoint replace_T (s : string) : string :=
  match s with
  | EmptyString => EmptyString
  | String c rest =>
      if Ascii.eqb c (Ascii.ascii_of_nat 84) then String (Ascii.ascii_of_nat 32) rest
      else String c (replace_T rest)
  end.

(** [(new Date()).toISOString().replace('T',' ').slice(0,19)] on the ISO
    string of the clock. *)
Definition timestamp_of (iso : string) : string :=
  String.substring 0 19 (replace_T iso).

Definition newline : string := String (Ascii.ascii_of_nat 10) EmptyString.

(** The line [logToOverlay] builds. *)
Definition line_of (iso msg level : string) : string :=
  timestamp_of iso +:+ " " +:+ toUpperCase level +:+ ": " +:+ msg.

(** [_logLines.push(line); if (_logLines.length > 200) _logLines.shift()] *)
Definition push_line (line : string) (lines : list string) : list string :=
  let lines := lines ++ [line] in
  if (200 <? length lines)%nat then tail lines else lines.

(** [logToOverlay(msg, level)]: whatever is raised inside is swallowed. *)
Definition logToOverlay (fault : Fault) (iso msg level : string) (p : Page) : Page :=
  let '(p, created) := createLogOverlay fault p in
  if created then
    let lines := push_line (line_of iso msg level) (_logLines p) in
    set_overlay (Some (String.concat newline lines)) (set_lines lines p)
  else p.

Definition setStatus (fault : Fault) (iso message : string) (p : Page) : Page :=
  let p :=
    match statusEl p with
    | Some _ =>
        {| statusEl := Some message; errorOverlay := errorOverlay p;
           logOverlay := logOverlay p; _logLines := _logLines p;
           console_error := console_error p |}
    | None => p
    end in
  logToOverlay fault iso message "status" p.

(** [logError(message, err)]; [err] is the text of [err.stack || err] when
    an error is given. *)
Definition logError (fault : Fault) (iso message : string) (err : option string)
    (p : Page) : Page :=
  let details := match err with Some e => newline +:+ e | None => "" end in
  let text := message +:+ details in
  let p :=
    {| statusEl := statusEl p;
       errorOverlay := match errorOverlay p with
                       | Some _ => Some (true, text)
                       | None => None
                       end;
       logOverlay := logOverlay p; _logLines := _logLines p;
       console_error := console_error p ++ [text] |} in
  logToOverlay fault iso text "error" p.

(** One use of the logger. *)
Inductive Call :=
| LogToOverlay (msg level : string)
| SetStatus (message : string)
| LogError (message : string) (err : option string).

(** A call as the page sees it: the fault that awaits it and the clock. *)
Record Use := { fault : Fault; clock : string; call : Call }.

Definition run (u : Use) (p : Page) : Page :=
  match call u with
  | LogToOverlay msg level => logToOverlay (fault u) (clock u) msg level p
  | SetStatus message => setStatus (fault u) (clock u) message p
  | LogError message err => logError (fault u) (clock u) message err p
  end.

(** The line a call writes. *)
Definition written (u : Use) : string :=
  match call u with
  | LogToOverlay msg level => line_of (clock u) msg level
  | SetStatus message => line_of (clock u) message "status"
  | LogError message err =>
      line_of (clock u)
        (message +:+ match err with Some e => newline +:+ e | None => "" end) "error"
  end.

(** The page as the script finds it when it loads. *)
Definition loaded (status error : bool) : Page :=
  {| statusEl := if status then Some "" else None;
     errorOverlay := if error then Some (false, "") else None;
     logOverlay := None; _logLines := []; console_error := [] |}.
End Logging.

(** The page after a sequence of uses of the logger. *)
Definition log_session (uses : list Logging.Use) (p : Logging.Page) : Logging.Page :=
  fold_left (fun p u => Logging.run u p) uses p.

(** The last [n] elements of a list. *)
Definition latest {A} (n : nat) (xs : list A) : list A := drop (length xs - n) xs.

(** [perEyeTexOffset] on values of the payload, once entered: the reads and
    the arithmetic. *)
Definition read_intrinsics (K : jsval) (width height : spec_float)
    (baseline_m : jsval) (convergence_m : spec_float) (eye : string)
    : Js (list spec_float) :=
  row0 ← index K 0;
  fx ← index row0 0;
  row0 ← index K 0;
  cx ← index row0 2;
  row1 ← index K 1;
  cy ← index row1 2;
  cx ← ToNumber cx;
  cy ← ToNumber cy;
  fx ← ToNumber fx;
  baseline_m ← ToNumber baseline_m;
  mret (texOffset fx cx cy width height baseline_m convergence_m eye).

(** Events any part of the client may add. *)
Definition any_event (ev : Event) : Prop := True.
Definition any_state (v : Vars) (e : Env) (g : GLState) : Prop := True.

(** ** A negotiation the server refuses *)

(** Events other than applying the remote description. *)
Definition not_applied (ev : Event) : Prop :=
  match ev with RTC setRemoteDescription => False | _ => True end.

(** The browser [e] in front of a server that refuses the offer. *)
Definition refusing (e : Env) : Env :=
  {| channel_readyState := channel_readyState e;
     Date_now := Date_now e;
     video := video e;
     navigator_xr := navigator_xr e;
     fetch_result := fun url =>
       if String.eqb url "/offer"
       then inr {| ok := false; status := 500;
                   json_body := inr (JObj [("error", JStr "no cameras")]) |}
       else fetch_result e url;
     getContext := getContext e;
     COMPILE_STATUS := COMPILE_STATUS e;
     LINK_STATUS := LINK_STATUS e;
     info_log := info_log e;
     gl_handles := gl_handles e;
     JSON_stringify := JSON_stringify e;
     to_String := to_String e;
     StringToNumber := StringToNumber e;
     toFixed := toFixed e |}.

(** * Properties *)

(** ** Reasoning about effectful code *)

Section Rules.
Context {A B : Type}.
Implicit Types (P I : World -> Prop).

Lemma keeps_spec I (m : Js A) : keeps I m <-> forall w, I w -> I (snd (m w)).
Proof.
  unfold keeps, triple; split; intros Hk w Hw; specialize (Hk w Hw);
    destruct (m w) as [[a | e] w']; exact Hk.
Qed.

Lemma triple_bind P (m : Js A) (f : A -> Js B) R Q E :
  triple P m R E -> (forall a, triple (R a) (f a) Q E) -> triple P (m ≫= f) Q E.
Proof.
  intros Hm Hf w Hw. specialize (Hm w Hw).
  unfold mbind, Js_bind. destruct (m w) as [[a | e] w']; [| exact Hm].
  apply (Hf a w' Hm).
Qed.

Lemma keeps_bind I (m : Js A) (f : A -> Js B) :
  keeps I m -> (forall a, keeps I (f a)) -> keeps I (m ≫= f).
Proof. intros Hm Hf. eapply triple_bind; [exact Hm | exact Hf]. Qed.

Lemma guarded_bind I (m : Js A) (f : A -> Js B) Q :
  keeps I m -> (forall a, guarded I (f a) Q) -> guarded I (m ≫= f) Q.
Proof. intros Hm Hf. eapply triple_bind; [exact Hm | exact Hf]. Qed.

Lemma keeps_ret I (a : A) : keeps I (mret a).
Proof. intros w Hw. exact Hw. Qed.

Lemma keeps_throw I (e : Exn) : keeps I (throw (A := A) e).
Proof. intros w Hw. exact Hw. Qed.

Lemma keeps_read I (f : World -> A) : keeps I (read f).
Proof. intros w Hw. exact Hw. Qed.

Lemma keeps_catch I (m : Js A) (h : Exn -> Js A) :
  keeps I m -> (forall e, keeps I (h e)) -> keeps I (try_catch m h).
Proof.
  intros Hm Hh w Hw. specialize (Hm w Hw). unfold try_catch.
  destruct (m w) as [[a | e] w']; [exact Hm |]. apply (Hh e w' Hm).
Qed.

End Rules.

Lemma keeps_update I (f : World -> World) :
  (forall w, I w -> I (f w)) -> keeps I (update f).
Proof. intros Hf w Hw. apply Hf, Hw. Qed.

Lemma keeps_when I (b : bool) (m : Js unit) : keeps I m -> keeps I (when b m).
Proof. intros Hm. destruct b; [exact Hm | apply keeps_ret]. Qed.

Lemma keeps_for_each {A} I (xs : list A) (body : A -> Js unit) :
  (forall x, keeps I (body x)) -> keeps I (for_each xs body).
Proof.
  intros Hb. induction xs as [| x xs IH]; cbn [for_each].
  - apply keeps_ret.
  - apply keeps_bind; [apply Hb | intros _; exact IH].
Qed.

Lemma keeps_emit I ev : emit_stable I ev -> keeps I (emit ev).
Proof. intros He. apply keeps_update, He. Qed.

Lemma keeps_platform I ev :
  oracle_stable I -> emit_stable I ev -> keeps I (platform ev).
Proof.
  intros Ho He w Hw. unfold platform.
  destruct (oracle w) as [| [e |] o].
  - apply (keeps_emit I ev He w Hw).
  - apply Ho, Hw.
  - apply (keeps_emit I ev He), Ho, Hw.
Qed.

Lemma keeps_gl_call I (c : GLCall) :
  oracle_stable I -> gpu_stable I c -> (forall s, emit_stable I (gl_event c s)) ->
  keeps I (gl_call c).
Proof.
  intros Ho Hg He. unfold gl_call.
  apply keeps_bind; [apply keeps_read | intros [|]; [| apply keeps_throw]].
  apply keeps_bind; [apply keeps_read | intros s].
  apply keeps_bind; [apply keeps_platform; [exact Ho | apply He] | intros _].
  apply keeps_update. intros w Hw. apply Hg, Hw.
Qed.

Section InvFacts.
Variables (t0 : list Event) (allowed : Event -> Prop)
  (fixed : Vars -> Env -> GLState -> Prop).

Lemma Inv_start (w : World) :
  fixed (vars w) (env w) (gpu w) -> Inv (trace w) allowed fixed w.
Proof.
  intros Hf. exists []. rewrite app_nil_r. repeat split; [constructor | exact Hf].
Qed.

Lemma Inv_emit_stable ev : allowed ev -> emit_stable (Inv t0 allowed fixed) ev.
Proof.
  intros Hev w (evs & Htr & Hall & Hf). exists (evs ++ [ev]). cbn.
  split; [rewrite Htr, app_assoc; reflexivity | split; [| exact Hf]].
  apply Forall_app; split; [exact Hall | repeat constructor; exact Hev].
Qed.

Lemma Inv_oracle_stable : oracle_stable (Inv t0 allowed fixed).
Proof. intros w o H. exact H. Qed.

Lemma Inv_vars (f : Vars -> Vars) :
  (forall v e s, fixed v e s -> fixed (f v) e s) ->
  keeps (Inv t0 allowed fixed) (update (with_vars f)).
Proof.
  intros Hf. apply keeps_update. intros w (evs & Htr & Hall & Hfix).
  exists evs. split; [exact Htr | split; [exact Hall | apply Hf, Hfix]].
Qed.

Lemma Inv_emit ev : allowed ev -> keeps (Inv t0 allowed fixed) (emit ev).
Proof. intros H. apply keeps_emit, Inv_emit_stable, H. Qed.

Lemma Inv_platform ev : allowed ev -> keeps (Inv t0 allowed fixed) (platform ev).
Proof.
  intros H. apply keeps_platform; [apply Inv_oracle_stable | apply Inv_emit_stable, H].
Qed.

Lemma Inv_gl_call c :
  (forall s, allowed (gl_event c s)) ->
  (forall v e s, fixed v e s -> fixed v e (gl_effect c s)) ->
  keeps (Inv t0 allowed fixed) (gl_call c).
Proof.
  intros H Hg. apply keeps_gl_call.
  - apply Inv_oracle_stable.
  - intros w (evs & Htr & Hall & Hfix). exists evs.
    split; [exact Htr | split; [exact Hall | apply Hg, Hfix]].
  - intros s. apply Inv_emit_stable, H.
Qed.
End InvFacts.

(** ** Geometric correction *)

Section GeometryFacts.
Context {num : Type} `{JsNumber num}.

(** C1, as amended.  For every intrinsic matrix [K] and all other
    arguments, [perEyeTexOffset] returns the two-element [Float32Array]
    built from [(du, dv)]: its elements are [du = -dx_pp + sign(eye) *
    conv] and [dv = dy_pp] after the store into the array (the rounding to
    single precision), with [dx_pp = (cx - width/2)/width],
    [dy_pp = (cy - height/2)/height] and
    [conv = (fx * baseline_m)/(2 * convergence_m * width)], [sign] being
    +1 for "left" and -1 for "right".  This holds over any arithmetic,
    the IEEE one included. *)
Theorem perEyeTexOffset_formula
    (K : Mat3 num) (width height baseline_m convergence_m : num) (eye : string) :
  eye = "left" \/ eye = "right" ->
  perEyeTexOffset K width height baseline_m convergence_m eye
  = [num_fround (fst (offset_spec K width height baseline_m convergence_m eye));
     num_fround (snd (offset_spec K width height baseline_m convergence_m eye))]
  /\ offset_spec K width height baseline_m convergence_m eye
     = ((- ((K.[0][2] - width / #2) / width)
         + sign eye * ((K.[0][0] * baseline_m) / (#2 * convergence_m * width)))%js,
        ((K.[1][2] - height / #2) / height)%js)
  /\ sign (num := num) "left" = num_lit 1
  /\ sign (num := num) "right" = num_lit (-1).
Proof.
  intros [-> | ->]; repeat split; reflexivity.
Qed.
End GeometryFacts.

(** The amended C1 at the sample calibration, left eye. *)
Lemma perEyeTexOffset_formula_witness :
  ("left" = "left" \/ "left" = "right")
  /\ perEyeTexOffset Sample.K641 Sample.width Sample.height
       Sample.baseline_m Sample.convergence_m "left"
     = [num_fround (fst (offset_spec Sample.K641 Sample.width Sample.height
                           Sample.baseline_m Sample.convergence_m "left"));
        num_fround (snd (offset_spec Sample.K641 Sample.width Sample.height
                           Sample.baseline_m Sample.convergence_m "left"))].
Proof.
  split; [left; reflexivity |].
  apply (perEyeTexOffset_formula Sample.K641 Sample.width Sample.height
           Sample.baseline_m Sample.convergence_m "left").
  left; reflexivity.
Defined.

(** The worked example of the specification: with the principal point at
    the centre the offsets are (0.01953125, 0) and (-0.01953125, 0), and
    there the two horizontal components do cancel. *)
Example perEyeTexOffset_worked_example :
  perEyeTexOffset Sample.K640 Sample.width Sample.height
    Sample.baseline_m Sample.convergence_m "left"
  = [F64.decimal 1953125 8; F64.zero]
  /\ perEyeTexOffset Sample.K640 Sample.width Sample.height
       Sample.baseline_m Sample.convergence_m "right"
     = [F64.neg (F64.decimal 1953125 8); F64.zero]
  /\ F64.add (F64.decimal 1953125 8) (F64.neg (F64.decimal 1953125 8)) = F64.zero.
Proof. repeat split; vm_compute; reflexivity. Qed.

(** C1, counterexample.  At the sample calibration the first element of the
    array returned for the left eye is not [du]: [du] is 0.01875 as a
    double, the array holds its single-precision rounding. *)
Lemma perEyeTexOffset_not_exact :
  exists r0,
    perEyeTexOffset Sample.K641 Sample.width Sample.height
      Sample.baseline_m Sample.convergence_m "left" !! 0%nat = Some r0
    /\ F64.eqb r0 (fst (offset_spec Sample.K641 Sample.width Sample.height
                          Sample.baseline_m Sample.convergence_m "left")) = false.
Proof.
  eexists; split; [vm_compute; reflexivity | vm_compute; reflexivity].
Qed.


(** Subtracting is adding the opposite, on every pair of values. *)
Lemma sub_add_neg (x y : spec_float) : F64.sub x y = F64.add x (F64.neg y).
Proof.
  unfold F64.sub, F64.add, F64.neg.
  destruct x as [sx | sx | | sx mx ex], y as [sy | sy | | sy my ey];
    try reflexivity; try (destruct sx, sy; reflexivity).
Qed.

(** Rounding to nearest is symmetric: the sign goes through unchanged. *)
Lemma binary_round_aux_neg (s : bool) (m e : Z) (l : location) :
  binary_round_aux F64.prec F64.emax (negb s) m e l
  = F64.neg (binary_round_aux F64.prec F64.emax s m e l).
Proof.
  unfold binary_round_aux, F64.neg.
  destruct (shr_fexp F64.prec F64.emax m e l) as [mrs1 e1].
  destruct (shr_fexp F64.prec F64.emax
              (round_nearest_even (shr_m mrs1) (loc_of_shr_record mrs1))
              e1 loc_Exact) as [mrs2 e2].
  destruct (shr_m mrs2); try reflexivity.
  destruct (e2 <=? F64.emax - F64.prec); reflexivity.
Qed.

(** The factor [-1] of the right eye gives the opposite of the product by
    the factor [1] of the left eye. *)
Lemma mul_minus_one (x : spec_float) :
  F64.mul (F64.of_Z (-1)) x = F64.neg (F64.mul (F64.of_Z 1) x).
Proof.
  change (F64.of_Z (-1)) with (S754_finite true 4503599627370496 (-52)).
  change (F64.of_Z 1) with (S754_finite false 4503599627370496 (-52)).
  unfold F64.mul.
  destruct x as [sx | sx | | sx mx ex]; try reflexivity.
  destruct sx; cbn [SFmul xorb].
  - exact (binary_round_aux_neg true _ _ _).
  - exact (binary_round_aux_neg false _ _ _).
Qed.



(** ** Walking through a piece of code with an invariant *)

Ltac keeps_structure leaf :=
  repeat lazymatch goal with
  | |- keeps _ (mbind _ _) => apply keeps_bind; [| intros ?]
  | |- keeps _ (try_catch _ _) => apply keeps_catch; [| intros ?]
  | |- keeps _ (when _ _) => apply keeps_when
  | |- keeps _ (for_each _ _) => apply keeps_for_each; intros ?
  | |- keeps _ (mret _) => apply keeps_ret
  | |- keeps _ (throw _) => apply keeps_throw
  | |- keeps _ (read _) => apply keeps_read
  | |- keeps _ (setStatus _) => unfold setStatus
  | |- keeps _ (logError _ _) => unfold logError
  | |- keeps _ (logToOverlay _) => unfold logToOverlay
  | |- keeps _ (fetch _) => unfold fetch
  | |- keeps _ (json_of _) => unfold json_of
  | |- keeps _ (ToString _) => unfold ToString
  | |- keeps _ (emit _) => leaf
  | |- keeps _ (platform _) => leaf
  | |- keeps _ (gl_call _) => leaf
  | |- keeps _ (update _) => leaf
  | |- keeps _ (if ?b then _ else _) => destruct b
  | |- keeps _ (match ?x with _ => _ end) => destruct x
  end.

Ltac Inv_leaf :=
  lazymatch goal with
  | |- keeps (Inv _ _ _) (emit _) => apply Inv_emit
  | |- keeps (Inv _ _ _) (platform _) => apply Inv_platform
  | |- keeps (Inv _ _ _) (gl_call _) => apply Inv_gl_call; [intros ? | intros ? ? ?]
  | |- keeps (Inv _ _ _) (update (with_vars _)) => apply Inv_vars; intros ? ? ?
  end.

Ltac keeps_walk := keeps_structure ltac:(idtac; Inv_leaf).

Lemma run_bind {A B} (m : Js A) (f : A -> Js B) (w : World) :
  (m ≫= f) w
  = match m w with
    | (Normal a, w') => f a w'
    | (Thrown e, w') => (Thrown e, w')
    end.
Proof. reflexivity. Qed.

Lemma platform_quiet (ev : Event) (w : World) :
  oracle w = [] -> platform ev w = (Normal tt, with_trace (fun t => t ++ [ev]) w).
Proof. intros Ho. unfold platform. rewrite Ho. reflexivity. Qed.

Lemma run_platform_quiet {B} (ev : Event) (k : unit -> Js B) (w : World) :
  oracle w = [] ->
  (platform ev ≫= k) w = k tt (with_trace (fun t => t ++ [ev]) w).
Proof. intros Ho. rewrite run_bind, (platform_quiet _ _ Ho). reflexivity. Qed.

Lemma run_update {B} (f : World -> World) (k : unit -> Js B) (w : World) :
  (update f ≫= k) w = k tt (f w).
Proof. reflexivity. Qed.

Lemma run_emit {B} (ev : Event) (k : unit -> Js B) (w : World) :
  (emit ev ≫= k) w = k tt (with_trace (fun t => t ++ [ev]) w).
Proof. reflexivity. Qed.

Lemma run_read {A B} (f : World -> A) (k : A -> Js B) (w : World) :
  (read f ≫= k) w = k (f w) w.
Proof. reflexivity. Qed.

(** What an invariant gives at the end of a run started in [w]. *)
Lemma Inv_run {A} (m : Js A) (w : World) allowed fixed :
  keeps (Inv (trace w) allowed fixed) m -> fixed (vars w) (env w) (gpu w) ->
  exists evs, trace (snd (m w)) = trace w ++ evs
              /\ Forall allowed evs
              /\ fixed (vars (snd (m w))) (env (snd (m w))) (gpu (snd (m w))).
Proof.
  intros Hk Hf. apply (proj1 (keeps_spec _ _) Hk), Inv_start, Hf.
Qed.

(** ** Session negotiator *)

Lemma startWebRTC_creates_only_poseData (t0 : list Event) :
  keeps (Inv t0 creates_only_poseData (fun _ _ _ => True)) startWebRTC.
Proof.
  unfold startWebRTC. keeps_walk;
    try (intros ch Hch; congruence); try (intros; exact I).
Qed.

(** C2, as amended.  Every data channel [startWebRTC] creates is the
    channel labelled "poseData" with [ordered = true] and
    [maxRetransmits = 0]; and when no platform call raises, it does create
    one and stores it in [dataChannel]. *)
Theorem telemetry_channel_config (w : World) :
  exists evs,
    trace (snd (startWebRTC w)) = trace w ++ evs
    /\ (forall ch, RTC (createDataChannel ch) ∈ evs ->
          label ch = "poseData"
          /\ ordered (init ch) = true
          /\ maxRetransmits (init ch) = Some 0%nat)
    /\ (oracle w = [] ->
          exists ch, RTC (createDataChannel ch) ∈ evs
                     /\ dataChannel (vars (snd (startWebRTC w))) = Some ch).
Proof.
  destruct (Inv_run startWebRTC w creates_only_poseData (fun _ _ _ => True)
              (startWebRTC_creates_only_poseData _) I) as (evs & Htr & Hall & _).
  exists evs. split; [exact Htr |]. split.
  - intros ch Hin. rewrite Forall_forall in Hall.
    rewrite (Hall _ Hin ch eq_refl). repeat split.
  - intros Ho. exists poseData.
    revert Htr. unfold startWebRTC, setStatus.
    rewrite run_platform_quiet by exact Ho.
    rewrite run_emit.
    rewrite run_platform_quiet by exact Ho.
    rewrite run_update.
    set (w4 := with_vars _ _).
    set (rest := _ ≫= _).
    assert (Hk : keeps (Inv (trace w4) (fun _ => True)
                          (fun v _ _ => dataChannel v = Some poseData)) rest).
    { subst rest. keeps_walk; try exact I; try (cbn; intros Hdc; exact Hdc). }
    destruct (Inv_run rest w4 _ _ Hk eq_refl) as (evs' & Htr' & _ & Hdc).
    intros Htr. split; [| exact Hdc].
    rewrite Htr' in Htr. subst w4. cbn in Htr.
    rewrite <- !app_assoc in Htr. apply app_inv_head in Htr. subst evs.
    cbn. set_solver.
Qed.

(** The amended C2 on the sample page. *)
Lemma telemetry_channel_config_witness :
  oracle (Sample.page (Sample.browser Sample.payload connecting
                         Sample.not_ready Sample.not_ready)) = []
  /\ exists evs,
       trace (snd (startWebRTC (Sample.page (Sample.browser Sample.payload
                 connecting Sample.not_ready Sample.not_ready))))
       = [] ++ evs
       /\ exists ch, RTC (createDataChannel ch) ∈ evs
                     /\ ordered (init ch) = true
                     /\ maxRetransmits (init ch) = Some 0%nat.
Proof.
  split; [reflexivity |].
  destruct (telemetry_channel_config
              (Sample.page (Sample.browser Sample.payload connecting
                              Sample.not_ready Sample.not_ready)))
    as (evs & Htr & Hcfg & Hmade).
  exists evs. split; [exact Htr |].
  destruct (Hmade eq_refl) as (ch & Hin & _).
  exists ch. split; [exact Hin |]. apply (Hcfg ch Hin).
Defined.

(** C2, counterexample.  On the sample page the channel that session
    negotiation creates and stores is an ordered one. *)
Lemma telemetry_channel_is_ordered :
  exists ch,
    dataChannel (vars (snd (startWebRTC (Sample.page (Sample.browser
        Sample.payload connecting Sample.not_ready Sample.not_ready))))) = Some ch
    /\ ordered (init ch) <> false
    /\ maxRetransmits (init ch) = Some 0%nat.
Proof.
  exists poseData. split; [vm_compute; reflexivity |].
  split; [discriminate | reflexivity].
Qed.

(** *** Eye assignment *)

Lemma pc_ontrack_video (event : RTCTrackEvent) (w : World) :
  is_video event = true ->
  pc_ontrack event w
  = (Normal tt,
     with_vars (set_videoCount (videoCount (vars w) + 1))
       (with_trace
          (fun t => t ++ [SrcObject (targetVideo_of (videoCount (vars w)) event)
                                    (track event);
                          SetStatus ("Video track "
                                     +:+ pretty (videoCount (vars w) + 1)%nat
                                     +:+ " attached")]) w)).
Proof.
  intros Hv. unfold pc_ontrack. unfold is_video in Hv. rewrite Hv. cbn [negb].
  unfold setStatus. rewrite run_read, run_emit, run_emit.
  unfold update, with_vars, with_trace. cbn. rewrite <- app_assoc. reflexivity.
Qed.

Lemma pc_ontrack_other (event : RTCTrackEvent) (w : World) :
  is_video event = false -> pc_ontrack event w = (Normal tt, w).
Proof.
  intros Hv. unfold pc_ontrack. unfold is_video in Hv. rewrite Hv. reflexivity.
Qed.

Lemma videoCount_counts (events : list RTCTrackEvent) (w : World) :
  videoCount (vars (snd (for_each events pc_ontrack w)))
  = (videoCount (vars w) + video_tracks events)%nat.
Proof.
  revert w. induction events as [| ev events IH]; intros w.
  - cbn. unfold video_tracks. cbn. lia.
  - cbn [for_each]. rewrite run_bind.
    unfold video_tracks. rewrite filter_cons.
    destruct (is_video ev) eqn:Hv.
    + rewrite (pc_ontrack_video ev w Hv). rewrite IH.
      rewrite decide_True by reflexivity. cbn. unfold video_tracks. lia.
    + rewrite (pc_ontrack_other ev w Hv). rewrite IH.
      rewrite decide_False by discriminate. unfold video_tracks. lia.
Qed.

Lemma targetVideo_of_mid (n : nat) (event : RTCTrackEvent) (m : string) :
  mid_of event = Some m ->
  targetVideo_of n event = if bool_decide (m = "0") then leftVideo else rightVideo.
Proof.
  unfold mid_of, targetVideo_of. destruct (transceiver event) as [[mi] |]; cbn;
    [| discriminate].
  intros ->. rewrite bool_decide_true by discriminate.
  destruct (bool_decide (m = "0")) eqn:Hm.
  - apply bool_decide_eq_true in Hm. subst m. reflexivity.
  - apply bool_decide_eq_false in Hm. rewrite bool_decide_false; [reflexivity |].
    intros [= H]. contradiction.
Qed.

Lemma targetVideo_of_fallback (n : nat) (event : RTCTrackEvent) :
  mid_of event = None ->
  targetVideo_of n event = if (n =? 0)%nat then leftVideo else rightVideo.
Proof.
  unfold mid_of, targetVideo_of. destruct (transceiver event) as [[mi] |]; cbn;
    [| reflexivity].
  intros ->. rewrite bool_decide_false; [reflexivity |]. intros H; apply H; reflexivity.
Qed.

(** C6.  When a video track arrives after the tracks [earlier], the handler
    assigns it to one video element, [target]: with a non-null mid, the left
    element for mid "0" and the right one for any other mid; without one, the
    left element if no video track arrived earlier and the right one
    otherwise.  The choice is the same from any starting state in which
    [videoCount] is 0, so it is determined by the arrival order. *)
Theorem eye_assignment (w : World) (earlier : list RTCTrackEvent)
    (event : RTCTrackEvent) :
  videoCount (vars w) = 0%nat ->
  track_kind event = "video" ->
  exists target message,
    trace (snd (pc_ontrack event (snd (for_each earlier pc_ontrack w))))
    = trace (snd (for_each earlier pc_ontrack w))
      ++ [SrcObject target (track event); SetStatus message]
    /\ (forall m, mid_of event = Some m ->
          (m = "0" -> target = leftVideo) /\ (m <> "0" -> target = rightVideo))
    /\ (mid_of event = None ->
          (video_tracks earlier = 0%nat -> target = leftVideo)
          /\ (video_tracks earlier <> 0%nat -> target = rightVideo))
    /\ (forall w', videoCount (vars w') = 0%nat ->
          trace (snd (pc_ontrack event (snd (for_each earlier pc_ontrack w'))))
          = trace (snd (for_each earlier pc_ontrack w'))
            ++ [SrcObject target (track event); SetStatus message]).
Proof.
  intros Hw Hk.
  assert (Hv : is_video event = true) by (unfold is_video; rewrite Hk; reflexivity).
  assert (Hrun : forall w', videoCount (vars w') = 0%nat ->
            trace (snd (pc_ontrack event (snd (for_each earlier pc_ontrack w'))))
            = trace (snd (for_each earlier pc_ontrack w'))
              ++ [SrcObject (targetVideo_of (video_tracks earlier) event) (track event);
                  SetStatus ("Video track " +:+ pretty (video_tracks earlier + 1)%nat
                             +:+ " attached")]).
  { intros w' Hw'. rewrite (pc_ontrack_video event _ Hv). cbn.
    rewrite videoCount_counts, Hw'. reflexivity. }
  exists (targetVideo_of (video_tracks earlier) event). eexists.
  split; [apply (Hrun w Hw) |]. split; [| split; [| exact Hrun]].
  - intros m Hm. rewrite (targetVideo_of_mid _ _ _ Hm). split.
    + intros ->. reflexivity.
    + intros Hne. rewrite bool_decide_false by exact Hne. reflexivity.
  - intros Hm. rewrite (targetVideo_of_fallback _ _ Hm). split.
    + intros ->. reflexivity.
    + intros Hne. destruct (video_tracks earlier); [contradiction | reflexivity].
Qed.

(** C6 on the sample page: after an audio track and a first video track,
    a second video track without a mid goes to the right element. *)
Lemma eye_assignment_witness :
  videoCount (vars (Sample.page (Sample.browser Sample.payload connecting
                      Sample.not_ready Sample.not_ready))) = 0%nat
  /\ track_kind (Sample.video_track 12 None) = "video"
  /\ exists target message,
       trace (snd (pc_ontrack (Sample.video_track 12 None)
                     (snd (for_each [Sample.audio_track; Sample.video_track 11 None]
                             pc_ontrack
                             (Sample.page (Sample.browser Sample.payload connecting
                                             Sample.not_ready Sample.not_ready))))))
       = trace (snd (for_each [Sample.audio_track; Sample.video_track 11 None]
                       pc_ontrack
                       (Sample.page (Sample.browser Sample.payload connecting
                                       Sample.not_ready Sample.not_ready))))
         ++ [SrcObject target 12%nat; SetStatus message]
       /\ target = rightVideo.
Proof.
  split; [reflexivity |]. split; [reflexivity |].
  destruct (eye_assignment
              (Sample.page (Sample.browser Sample.payload connecting
                              Sample.not_ready Sample.not_ready))
              [Sample.audio_track; Sample.video_track 11 None]
              (Sample.video_track 12 None) eq_refl eq_refl)
    as (target & message & Htr & _ & Hfallback & _).
  exists target, message. split; [exact Htr |].
  apply (Hfallback eq_refl). discriminate.
Defined.

(** ** Telemetry uplink: the controller message *)

Section CondFacts.
Variables (b : bool) (key : string) (m : ControllerMessage).

Lemma cond_button_type : msg_type (cond b (set_button key) m) = msg_type m.
Proof. destruct b; reflexivity. Qed.

Lemma cond_button_timestamp : timestamp (cond b (set_button key) m) = timestamp m.
Proof. destruct b; reflexivity. Qed.

Lemma cond_button_left : leftJoystick (cond b (set_button key) m) = leftJoystick m.
Proof. destruct b; reflexivity. Qed.

Lemma cond_button_right : rightJoystick (cond b (set_button key) m) = rightJoystick m.
Proof. destruct b; reflexivity. Qed.

Lemma cond_button_ok (why : Prop) :
  buttons_ok m why -> (b = true -> why) -> buttons_ok (cond b (set_button key) m) why.
Proof.
  intros Hok Hb. destruct b; [| exact Hok]. intros k v. cbn.
  rewrite lookup_insert. case_decide.
  - intros [= <-]. split; [reflexivity | apply Hb; reflexivity].
  - apply Hok.
Qed.

Lemma cond_button_mono (k : string) :
  has_button m k -> has_button (cond b (set_button key) m) k.
Proof.
  unfold has_button. intros Hk. destruct b; [| exact Hk]. cbn.
  rewrite lookup_insert. case_decide; [reflexivity | exact Hk].
Qed.

Lemma cond_button_set : b = true -> has_button (cond b (set_button key) m) key.
Proof. intros ->. unfold has_button. cbn. apply lookup_insert_eq. Qed.
End CondFacts.

Section StickFacts.
Variables (b : bool) (s : Stick) (m : ControllerMessage).

Lemma cond_left_buttons : buttons (cond b (set_leftJoystick s) m) = buttons m.
Proof. destruct b; reflexivity. Qed.

Lemma cond_right_buttons : buttons (cond b (set_rightJoystick s) m) = buttons m.
Proof. destruct b; reflexivity. Qed.
End StickFacts.

(** The message with its sticks possibly updated, before the buttons. *)
Lemma read_inputSource_fields (m : ControllerMessage) (src : XRInputSource) :
  msg_type (read_inputSource m src) = msg_type m
  /\ timestamp (read_inputSource m src) = timestamp m.
Proof.
  unfold read_inputSource. destruct (gamepad src) as [g |]; [| split; reflexivity].
  cbv zeta. rewrite !cond_button_type, !cond_button_timestamp.
  destruct (4 <=? length (axes g))%nat; [| split; reflexivity].
  destruct (hand_is (handedness src) "left"), (hand_is (handedness src) "right");
    split; reflexivity.
Qed.

Lemma controllerMessage_fields (srcs : list XRInputSource) (m : ControllerMessage) :
  msg_type (fold_left read_inputSource srcs m) = msg_type m
  /\ timestamp (fold_left read_inputSource srcs m) = timestamp m.
Proof.
  revert m. induction srcs as [| src srcs IH]; intros m; [split; reflexivity |].
  cbn [fold_left]. destruct (IH (read_inputSource m src)) as [-> ->].
  apply read_inputSource_fields.
Qed.

(** *** Sticks *)

Lemma drives_dec (hand : XRHandedness) (src : XRInputSource) :
  drives hand src \/ ~ drives hand src.
Proof.
  unfold drives. destruct (gamepad src) as [g |].
  - destruct (decide (handedness src = hand)) as [Hh | Hh];
      [| right; intros [H _]; contradiction].
    destruct (decide (4 <= length (axes g))%nat) as [Hl | Hl].
    + left. split; [exact Hh | exists g; split; [reflexivity | exact Hl]].
    + right. intros (_ & g' & [= <-] & Hl'). contradiction.
  - right. intros (_ & g & Hg & _). discriminate.
Qed.

Lemma read_left_keep (m : ControllerMessage) (src : XRInputSource) :
  ~ drives hand_left src ->
  leftJoystick (read_inputSource m src) = leftJoystick m.
Proof.
  intros Hn. unfold read_inputSource. destruct (gamepad src) as [g |] eqn:Hg;
    [| reflexivity].
  cbv zeta. rewrite !cond_button_left.
  destruct (4 <=? length (axes g))%nat eqn:Hl; [| reflexivity].
  apply Nat.leb_le in Hl.
  destruct (handedness src) eqn:Hh; try reflexivity.
  exfalso. apply Hn. split; [exact Hh | exists g; split; [exact Hg | exact Hl]].
Qed.

Lemma read_right_keep (m : ControllerMessage) (src : XRInputSource) :
  ~ drives hand_right src ->
  rightJoystick (read_inputSource m src) = rightJoystick m.
Proof.
  intros Hn. unfold read_inputSource. destruct (gamepad src) as [g |] eqn:Hg;
    [| reflexivity].
  cbv zeta. rewrite !cond_button_right.
  destruct (4 <=? length (axes g))%nat eqn:Hl; [| reflexivity].
  apply Nat.leb_le in Hl.
  destruct (handedness src) eqn:Hh; try reflexivity.
  exfalso. apply Hn. split; [exact Hh | exists g; split; [exact Hg | exact Hl]].
Qed.

Lemma axes_present (g : Gamepad) :
  (4 <= length (axes g))%nat ->
  exists a2 a3, axes g !! 2%nat = Some a2 /\ axes g !! 3%nat = Some a3.
Proof.
  intros Hl.
  destruct (lookup_lt_is_Some_2 (axes g) 2) as [a2 H2]; [lia |].
  destruct (lookup_lt_is_Some_2 (axes g) 3) as [a3 H3]; [lia |].
  exists a2, a3. split; assumption.
Qed.

Lemma read_left_set (m : ControllerMessage) (src : XRInputSource) :
  drives hand_left src -> stick_of src (leftJoystick (read_inputSource m src)).
Proof.
  intros (Hh & g & Hg & Hl). unfold read_inputSource. rewrite Hg. cbv zeta.
  rewrite !cond_button_left.
  destruct (axes_present g Hl) as (a2 & a3 & H2 & H3).
  apply Nat.leb_le in Hl. rewrite Hl, Hh, H2, H3. cbn.
  exists g, a2, a3. repeat split; assumption.
Qed.

Lemma read_right_set (m : ControllerMessage) (src : XRInputSource) :
  drives hand_right src -> stick_of src (rightJoystick (read_inputSource m src)).
Proof.
  intros (Hh & g & Hg & Hl). unfold read_inputSource. rewrite Hg. cbv zeta.
  rewrite !cond_button_right.
  destruct (axes_present g Hl) as (a2 & a3 & H2 & H3).
  apply Nat.leb_le in Hl. rewrite Hl, Hh, H2, H3. cbn.
  exists g, a2, a3. repeat split; assumption.
Qed.

Lemma fold_left_keep (srcs : list XRInputSource) (m : ControllerMessage) :
  Forall (fun s => ~ drives hand_left s) srcs ->
  leftJoystick (fold_left read_inputSource srcs m) = leftJoystick m.
Proof.
  revert m. induction srcs as [| src srcs IH]; intros m Hall; [reflexivity |].
  inversion Hall as [| ? ? Hsrc Hrest]; subst. cbn [fold_left].
  rewrite IH by exact Hrest. apply read_left_keep, Hsrc.
Qed.

Lemma fold_right_keep (srcs : list XRInputSource) (m : ControllerMessage) :
  Forall (fun s => ~ drives hand_right s) srcs ->
  rightJoystick (fold_left read_inputSource srcs m) = rightJoystick m.
Proof.
  revert m. induction srcs as [| src srcs IH]; intros m Hall; [reflexivity |].
  inversion Hall as [| ? ? Hsrc Hrest]; subst. cbn [fold_left].
  rewrite IH by exact Hrest. apply read_right_keep, Hsrc.
Qed.

Lemma fold_left_last (pre post : list XRInputSource) (src : XRInputSource)
    (m : ControllerMessage) :
  drives hand_left src -> Forall (fun s => ~ drives hand_left s) post ->
  stick_of src (leftJoystick (fold_left read_inputSource (pre ++ src :: post) m)).
Proof.
  intros Hsrc Hpost. rewrite fold_left_app. cbn [fold_left].
  rewrite fold_left_keep by exact Hpost. apply read_left_set, Hsrc.
Qed.

Lemma fold_right_last (pre post : list XRInputSource) (src : XRInputSource)
    (m : ControllerMessage) :
  drives hand_right src -> Forall (fun s => ~ drives hand_right s) post ->
  stick_of src (rightJoystick (fold_left read_inputSource (pre ++ src :: post) m)).
Proof.
  intros Hsrc Hpost. rewrite fold_left_app. cbn [fold_left].
  rewrite fold_right_keep by exact Hpost. apply read_right_set, Hsrc.
Qed.

(** *** Buttons *)

Lemma buttons_ok_weaken (m : ControllerMessage) (why why' : Prop) :
  (why -> why') -> buttons_ok m why -> buttons_ok m why'.
Proof. intros Hw Hok k v Hk. destruct (Hok k v Hk). split; auto. Qed.

Lemma buttons_ok_ext (m m' : ControllerMessage) (why : Prop) :
  buttons m' = buttons m -> buttons_ok m why -> buttons_ok m' why.
Proof. unfold buttons_ok. intros ->. auto. Qed.

Lemma some_pressed_mono (srcs srcs' : list XRInputSource) :
  srcs ⊆ srcs' -> some_pressed srcs -> some_pressed srcs'.
Proof.
  intros Hsub (src & g & i & Hin & Hg & Hp). exists src, g, i. auto.
Qed.

Lemma read_inputSource_ok (m : ControllerMessage) (src : XRInputSource)
    (seen : list XRInputSource) :
  buttons_ok m (some_pressed seen) ->
  buttons_ok (read_inputSource m src) (some_pressed (seen ++ [src])).
Proof.
  intros Hok.
  assert (Hok' : buttons_ok m (some_pressed (seen ++ [src]))).
  { eapply buttons_ok_weaken; [| exact Hok].
    apply some_pressed_mono. set_solver. }
  unfold read_inputSource. destruct (gamepad src) as [g |] eqn:Hg; [| exact Hok'].
  cbv zeta.
  assert (Hp : forall i, is_pressed (gp_buttons g) i = true ->
                         some_pressed (seen ++ [src])).
  { intros i Hi. exists src, g, i. split; [set_solver | auto]. }
  repeat (apply cond_button_ok;
          [| first [ intros Hb; apply andb_true_iff in Hb; apply (Hp _ (proj2 Hb))
                   | apply Hp ]]).
  destruct (4 <=? length (axes g))%nat; [| exact Hok'].
  eapply buttons_ok_ext; [| exact Hok'].
  rewrite cond_right_buttons, cond_left_buttons. reflexivity.
Qed.

Lemma fold_left_ok (srcs seen : list XRInputSource) (m : ControllerMessage) :
  buttons_ok m (some_pressed seen) ->
  buttons_ok (fold_left read_inputSource srcs m) (some_pressed (seen ++ srcs)).
Proof.
  revert seen m. induction srcs as [| src srcs IH]; intros seen m Hok.
  - rewrite app_nil_r. exact Hok.
  - cbn [fold_left]. replace (seen ++ src :: srcs) with ((seen ++ [src]) ++ srcs)
      by (rewrite <- app_assoc; reflexivity).
    apply IH, read_inputSource_ok, Hok.
Qed.

Lemma read_inputSource_mono (m : ControllerMessage) (src : XRInputSource)
    (key : string) :
  has_button m key -> has_button (read_inputSource m src) key.
Proof.
  intros Hk. unfold read_inputSource. destruct (gamepad src) as [g |]; [| exact Hk].
  cbv zeta. repeat apply cond_button_mono.
  unfold has_button.
  destruct (4 <=? length (axes g))%nat; [| exact Hk].
  rewrite cond_right_buttons, cond_left_buttons. exact Hk.
Qed.

Lemma fold_left_mono (srcs : list XRInputSource) (m : ControllerMessage)
    (key : string) :
  has_button m key -> has_button (fold_left read_inputSource srcs m) key.
Proof.
  revert m. induction srcs as [| src srcs IH]; intros m Hk; [exact Hk |].
  cbn [fold_left]. apply IH, read_inputSource_mono, Hk.
Qed.

(** A held grip writes the key of the hand and its alias in the same turn. *)
Lemma read_inputSource_grip (m : ControllerMessage) (src : XRInputSource)
    (g : Gamepad) :
  gamepad src = Some g -> is_pressed (gp_buttons g) 1 = true ->
  (handedness src = hand_left ->
     has_button (read_inputSource m src) "left_grip"
     /\ has_button (read_inputSource m src) "horn")
  /\ (handedness src = hand_right ->
        has_button (read_inputSource m src) "right_grip"
        /\ has_button (read_inputSource m src) "lights").
Proof.
  intros Hg Hp. unfold read_inputSource. rewrite Hg. cbv zeta. rewrite Hp.
  split; intros Hh; rewrite Hh; cbn [handedness_str hand_is andb]; split.
  - do 4 apply cond_button_mono. apply cond_button_set. reflexivity.
  - apply cond_button_set. reflexivity.
  - do 4 apply cond_button_mono. apply cond_button_set. reflexivity.
  - apply cond_button_mono. apply cond_button_set. reflexivity.
Qed.

Lemma controllerMessage_grip (srcs : list XRInputSource) (m : ControllerMessage)
    (src : XRInputSource) (g : Gamepad) :
  src ∈ srcs -> gamepad src = Some g -> is_pressed (gp_buttons g) 1 = true ->
  (handedness src = hand_left ->
     has_button (fold_left read_inputSource srcs m) "left_grip"
     /\ has_button (fold_left read_inputSource srcs m) "horn")
  /\ (handedness src = hand_right ->
        has_button (fold_left read_inputSource srcs m) "right_grip"
        /\ has_button (fold_left read_inputSource srcs m) "lights").
Proof.
  intros Hin Hg Hp. apply list_elem_of_split in Hin as (pre & post & ->).
  rewrite fold_left_app. cbn [fold_left].
  destruct (read_inputSource_grip (fold_left read_inputSource pre m) src g Hg Hp)
    as [Hl Hr].
  split; intros Hh; [destruct (Hl Hh) | destruct (Hr Hh)];
    split; apply fold_left_mono; assumption.
Qed.

(** The keys of the buttons object, assignment by assignment. *)
Lemma cond_button_lookup (b : bool) (k : string) (m : ControllerMessage) (key : string) :
  buttons (cond b (set_button k) m) !! key
  = if b && String.eqb key k then Some true else buttons m !! key.
Proof.
  destruct b; [| reflexivity]. cbn.
  destruct (String.eqb_spec key k) as [-> | Hne].
  - apply lookup_insert_eq.
  - apply lookup_insert_ne. congruence.
Qed.

Lemma read_inputSource_lookup (m : ControllerMessage) (src : XRInputSource)
    (key : string) :
  buttons (read_inputSource m src) !! key
  = if writes src key then Some true else buttons m !! key.
Proof.
  unfold read_inputSource, writes. destruct (gamepad src) as [g |]; [| reflexivity].
  cbv zeta. rewrite !cond_button_lookup.
  set (m0 := if (4 <=? length (axes g))%nat then _ else m).
  assert (Hm0 : buttons m0 = buttons m).
  { unfold m0. destruct (4 <=? length (axes g))%nat; [| reflexivity].
    rewrite cond_right_buttons, cond_left_buttons. reflexivity. }
  rewrite Hm0.
  repeat match goal with
         | |- context [?b && String.eqb key ?k] =>
             destruct (b && String.eqb key k); cbn [orb]; try reflexivity
         end.
Qed.

Lemma fold_inputSources_lookup (srcs : list XRInputSource) (m : ControllerMessage)
    (key : string) :
  buttons (fold_left read_inputSource srcs m) !! key
  = if existsb (fun src => writes src key) srcs then Some true else buttons m !! key.
Proof.
  revert m. induction srcs as [| src srcs IH]; intros m; [reflexivity |].
  cbn [fold_left existsb]. rewrite IH, read_inputSource_lookup.
  destruct (writes src key), (existsb _ srcs); reflexivity.
Qed.

(** *** What [sendControllerData] sends *)

Lemma sendControllerData_closed (srcs : list XRInputSource) (w : World) :
  channel_is_open w = false -> sendControllerData srcs w = (Normal tt, w).
Proof.
  intros Hc. unfold sendControllerData. rewrite run_read, Hc. reflexivity.
Qed.

Lemma sendControllerData_sends (srcs : list XRInputSource) (w : World) :
  exists evs,
    trace (snd (sendControllerData srcs w)) = trace w ++ evs
    /\ fst (sendControllerData srcs w) = Normal tt
    /\ (forall m, Send (Controller m) ∈ evs ->
          m = controllerMessage_of (Date_now (env w)) srcs)
    /\ (channel_is_open w = true -> oracle w = [] ->
          evs = [Send (Controller (controllerMessage_of (Date_now (env w)) srcs))]).
Proof.
  destruct (channel_is_open w) eqn:Hc.
  - unfold sendControllerData. rewrite run_read, Hc. cbn [negb]. rewrite run_read.
    unfold try_catch, platform, logToOverlay.
    destruct (oracle w) as [| [e |] o] eqn:Ho; cbn.
    + eexists. split; [reflexivity |]. split; [reflexivity |]. split.
      * intros m Hin. apply list_elem_of_singleton in Hin. congruence.
      * reflexivity.
    + eexists. split; [reflexivity |]. split; [reflexivity |]. split.
      * intros m Hin. apply list_elem_of_singleton in Hin. discriminate.
      * intros _ [=].
    + eexists. split; [reflexivity |]. split; [reflexivity |]. split.
      * intros m Hin. apply list_elem_of_singleton in Hin. congruence.
      * intros _ [=].
  - rewrite (sendControllerData_closed srcs w Hc). exists []. cbn.
    rewrite app_nil_r. repeat split; [| discriminate].
    intros m Hin. apply elem_of_nil in Hin. contradiction.
Qed.

(** C10.  Whatever controller message [sendControllerData] sends has type
    "controller", the time of the call as timestamp, and both sticks: a
    stick is [{x: 0, y: 0}] when every input source of its hand lacks a
    gamepad or has fewer than four axes, and otherwise is
    [{x: axes[2], y: -axes[3]}] of the last source of that hand with such a
    gamepad.  Every key of its buttons object is [true] and is there only
    because some button is pressed; a held grip (button 1) sets both the key
    of its hand and the alias ("horn" on the left, "lights" on the right).
    Key by key, the buttons object holds [true] under exactly the keys
    that some input source writes: "<hand>_trigger" for its pressed
    button 0, "<hand>_grip" for its pressed button 1, "plow_up" and
    "plow_down" for its pressed buttons 4 and 5, "lights" for a pressed
    button 1 of a right hand and "horn" for one of a left hand; every
    other key is absent. *)
Theorem controller_message_shape (w : World) (srcs : list XRInputSource) :
  exists evs,
    trace (snd (sendControllerData srcs w)) = trace w ++ evs
    /\ forall m, Send (Controller m) ∈ evs ->
         msg_type m = "controller"
         /\ timestamp m = Date_now (env w)
         /\ (Forall (fun s => ~ drives hand_left s) srcs -> leftJoystick m = centred)
         /\ (Forall (fun s => ~ drives hand_right s) srcs -> rightJoystick m = centred)
         /\ (forall pre src post, srcs = pre ++ src :: post ->
               drives hand_left src ->
               Forall (fun s => ~ drives hand_left s) post ->
               stick_of src (leftJoystick m))
         /\ (forall pre src post, srcs = pre ++ src :: post ->
               drives hand_right src ->
               Forall (fun s => ~ drives hand_right s) post ->
               stick_of src (rightJoystick m))
         /\ (forall key v, buttons m !! key = Some v ->
               v = true /\ some_pressed srcs)
         /\ (forall src g, src ∈ srcs -> gamepad src = Some g ->
               is_pressed (gp_buttons g) 1 = true ->
               (handedness src = hand_left ->
                  buttons m !! "left_grip" = Some true
                  /\ buttons m !! "horn" = Some true)
               /\ (handedness src = hand_right ->
                     buttons m !! "right_grip" = Some true
                     /\ buttons m !! "lights" = Some true))
         /\ (forall key,
               buttons m !! key
               = if existsb (fun src => writes src key) srcs
                 then Some true else None).
Proof.
  destruct (sendControllerData_sends srcs w) as (evs & Htr & _ & Hm & _).
  exists evs. split; [exact Htr |]. intros m Hin. rewrite (Hm m Hin).
  unfold controllerMessage_of.
  destruct (controllerMessage_fields srcs (new_controllerMessage (Date_now (env w))))
    as [Hty Hts].
  split; [rewrite Hty; reflexivity |]. split; [rewrite Hts; reflexivity |].
  split; [intros Hall; rewrite fold_left_keep by exact Hall; reflexivity |].
  split; [intros Hall; rewrite fold_right_keep by exact Hall; reflexivity |].
  split; [intros pre src post -> Hd Hpost; apply fold_left_last; assumption |].
  split; [intros pre src post -> Hd Hpost; apply fold_right_last; assumption |].
  split; [| split].
  - apply (fold_left_ok srcs [] (new_controllerMessage (Date_now (env w)))).
    intros key v Hk. cbn in Hk. rewrite lookup_empty in Hk. discriminate.
  - intros src g Hin' Hg Hp. apply controllerMessage_grip with (g := g); assumption.
  - intros key. rewrite fold_inputSources_lookup. cbn. rewrite lookup_empty.
    reflexivity.
Qed.

(** C10 on a running session with the left grip held: the message is sent,
    and carries "left_grip" and "horn" and no "right_grip". *)
Lemma controller_message_shape_witness :
  exists m,
    Send (Controller m)
      ∈ trace (snd (sendControllerData [Sample.left_controller]
                      (Sample.running (Sample.browser Sample.payload open
                                         Sample.not_ready Sample.not_ready) [])))
    /\ msg_type m = "controller"
    /\ buttons m !! "left_grip" = Some true
    /\ buttons m !! "horn" = Some true
    /\ buttons m !! "right_grip" = None.
Proof.
  destruct (controller_message_shape
              (Sample.running (Sample.browser Sample.payload open
                                 Sample.not_ready Sample.not_ready) [])
              [Sample.left_controller]) as (evs & Htr & Hshape).
  exists (controllerMessage_of 1700000000000 [Sample.left_controller]).
  assert (Hin : Send (Controller (controllerMessage_of 1700000000000
                                    [Sample.left_controller])) ∈ evs).
  { cbn in Htr. subst evs. apply list_elem_of_singleton. reflexivity. }
  split; [rewrite Htr; exact Hin |].
  destruct (Hshape _ Hin) as (Hty & _ & _ & _ & _ & _ & _ & Hgrip & Hkeys).
  split; [exact Hty |].
  assert (Hl : Sample.left_controller ∈ [Sample.left_controller])
    by (apply list_elem_of_singleton; reflexivity).
  destruct (proj1 (Hgrip Sample.left_controller _ Hl eq_refl eq_refl) eq_refl)
    as [Hgrip' Hhorn].
  split; [exact Hgrip' |]. split; [exact Hhorn |].
  rewrite Hkeys. reflexivity.
Defined.

(** ** Calibration loader *)

Lemma triple_catch {A} P (m : Js A) (h : Exn -> Js A) Q R E :
  triple P m Q R -> (forall e, triple (R e) (h e) Q E) -> triple P (try_catch m h) Q E.
Proof.
  intros Hm Hh w Hw. specialize (Hm w Hw). unfold try_catch.
  destruct (m w) as [[a | e] w']; [exact Hm |]. apply (Hh e w' Hm).
Qed.

Lemma passes_validation_test (body : json) :
  negb (truthy (Some body))
  || negb (truthy (field body "k_left"))
  || negb (truthy (field body "k_right"))
  || negb (String.eqb (typeof (field body "baseline_m")) "number") = false
  <-> passes_validation body.
Proof.
  unfold passes_validation.
  rewrite !orb_false_iff, !negb_false_iff, String.eqb_eq. tauto.
Qed.

(** [loadCalibration] returns exactly when the response is accepted, and
    then has stored the payload. *)
Lemma loadCalibration_accepts (w : World) :
  (fst (loadCalibration w) = Normal tt <-> accepts (env w))
  /\ (forall e, fst (loadCalibration w) = Thrown e -> ~ accepts (env w))
  /\ (fst (loadCalibration w) = Normal tt ->
        exists body, calib (vars (snd (loadCalibration w))) = Some body
                     /\ passes_validation body).
Proof.
  unfold loadCalibration, try_catch, fetch, accepts.
  rewrite run_bind, run_read.
  destruct (fetch_result (env w) "/calibration") as [e | res] eqn:Hf.
  { cbn. split; [split; [discriminate | intros (? & ? & [=] & _)] |].
    split; [intros _ _ (? & ? & [=] & _) | discriminate]. }
  cbn [mret Js_ret]. destruct (ok res) eqn:Hok; cbn [negb].
  2:{ cbn. split; [split; [discriminate |] |].
      - intros (res' & ? & [= <-] & Hok' & _). congruence.
      - split; [intros _ _ (res' & ? & [= <-] & Hok' & _); congruence | discriminate]. }
  unfold json_of. destruct (json_body res) as [e | body] eqn:Hb.
  { cbn. split; [split; [discriminate |] |].
    - intros (res' & ? & [= <-] & _ & Hb' & _). congruence.
    - split; [intros _ _ (res' & ? & [= <-] & _ & Hb' & _); congruence | discriminate]. }
  rewrite run_bind. cbn [mret Js_ret]. rewrite run_update, run_read. cbn [vars with_vars calib set_calib mbind option_bind].
  destruct (negb (truthy (Some body)) || _ || _ || _) eqn:Hv.
  - assert (Hnot : ~ passes_validation body).
    { intros Hp. apply passes_validation_test in Hp. congruence. }
    cbn. split; [split; [discriminate |] |].
    + intros (res' & body' & [= <-] & _ & Hb' & Hp). congruence.
    + split; [| discriminate].
      intros _ _ (res' & body' & [= <-] & _ & Hb' & Hp). congruence.
  - apply passes_validation_test in Hv. cbn.
    split; [split; [intros _; exists res, body; auto | reflexivity] |].
    split; [discriminate |]. intros _. exists body. auto.
Qed.

Lemma no_call_calls (evs : list Event) :
  Forall no_call evs -> perEyeTexOffset_calls evs = [].
Proof.
  induction 1 as [| ev evs Hev _ IH]; [reflexivity |].
  unfold perEyeTexOffset_calls in *. cbn. rewrite IH.
  destruct ev; cbn in Hev; try reflexivity. contradiction.
Qed.

Lemma startWebRTC_no_call (t0 : list Event) (e0 : Env) :
  keeps (Inv t0 no_call (fun _ e _ => e = e0)) startWebRTC.
Proof.
  unfold startWebRTC. keeps_walk; try exact I; try (intros; assumption).
Qed.

Lemma loadCalibration_no_call (t0 : list Event) (e0 : Env) :
  keeps (Inv t0 no_call (fun _ e _ => e = e0)) loadCalibration.
Proof.
  unfold loadCalibration. keeps_walk; try exact I; try (intros; assumption).
Qed.

(** Without an accepted response [startXR] stops before the geometric
    correction. *)
Lemma startXR_rejected (t0 : list Event) (e0 : Env) :
  ~ accepts e0 -> keeps (Inv t0 no_call (fun _ e _ => e = e0)) startXR.
Proof.
  intros Hrej. set (I0 := Inv t0 no_call (fun _ e _ => e = e0)).
  unfold startXR, keeps.
  eapply triple_bind; [apply keeps_read | intros xr].
  destruct (negb xr); [unfold logError; apply Inv_emit; exact I |].
  eapply triple_bind with (R := fun started w => I0 w /\ started = false).
  - eapply triple_catch with (R := fun _ => I0).
    + eapply triple_bind; [apply startWebRTC_no_call | intros ?].
      eapply triple_bind with (R := fun _ _ => False).
      * intros w Hw.
        pose proof (proj1 (keeps_spec _ _) (loadCalibration_no_call t0 e0) w Hw) as Hk.
        destruct (loadCalibration_accepts w) as (Hacc & _ & _).
        destruct Hw as (_ & _ & _ & He).
        destruct (loadCalibration w) as [[[] | e] w'] eqn:Hrun; [| exact Hk].
        apply Hrej. rewrite <- He. apply Hacc. reflexivity.
      * intros ? w [].
    + intros err. eapply triple_bind; [unfold logError; apply Inv_emit; exact I |].
      intros ? w Hw. split; [exact Hw | reflexivity].
  - intros [|]; cbn [negb].
    + intros w [_ [=]].
    + intros w [Hw _]. exact Hw.
Qed.

(** C4, as amended.  [loadCalibration] accepts a response exactly when its
    status is OK and the payload, [k_left] and [k_right] are truthy and
    [baseline_m] is a number.  A response that is not accepted - a status
    that is not OK, a payload without [baseline_m] or with a [baseline_m]
    that is not a number, or without one of the matrices - makes it fail with
    an error, and [startXR] then never enters [perEyeTexOffset]. *)
Theorem calibration_validation (w : World) :
  (fst (loadCalibration w) = Normal tt <-> accepts (env w))
  /\ (~ accepts (env w) ->
        (exists e, fst (loadCalibration w) = Thrown e)
        /\ exists evs, trace (snd (startXR w)) = trace w ++ evs
                       /\ perEyeTexOffset_calls evs = [])
  /\ (forall res body,
        fetch_result (env w) "/calibration" = inr res ->
        json_body res = inr body ->
        ok res = false
        \/ field body "baseline_m" = None
        \/ (exists v, field body "baseline_m" = Some v /\ forall x, v <> JNum x)
        \/ field body "k_left" = None
        \/ field body "k_right" = None ->
        ~ accepts (env w)).
Proof.
  destruct (loadCalibration_accepts w) as (Hacc & _ & _).
  split; [exact Hacc |]. split.
  - intros Hrej. split.
    + destruct (fst (loadCalibration w)) as [[] | e] eqn:Hrun; [| eauto].
      exfalso. apply Hrej, Hacc. reflexivity.
    + destruct (Inv_run startXR w no_call (fun _ e _ => e = env w)
                  (startXR_rejected _ _ Hrej) eq_refl) as (evs & Htr & Hall & _).
      exists evs. split; [exact Htr | apply no_call_calls, Hall].
  - intros res body Hf Hb Hbad (res' & body' & Hf' & Hok & Hb' & Hp).
    rewrite Hf in Hf'. injection Hf' as <-. rewrite Hb in Hb'. injection Hb' as <-.
    destruct Hp as (_ & Hl & Hr & Hn).
    destruct Hbad as [Hbad | [Hbad | [(v & Hv & Hnum) | [Hbad | Hbad]]]].
    + congruence.
    + rewrite Hbad in Hn. discriminate.
    + rewrite Hv in Hn. destruct v; try discriminate. apply (Hnum x). reflexivity.
    + rewrite Hbad in Hl. discriminate.
    + rewrite Hbad in Hr. discriminate.
Qed.

(** The amended C4 on a page whose calibration lacks [baseline_m]. *)
Lemma calibration_validation_witness :
  field Sample.short_payload "baseline_m" = None
  /\ (exists e, fst (loadCalibration
                       (Sample.page (Sample.browser Sample.short_payload connecting
                                       Sample.not_ready Sample.not_ready))) = Thrown e)
  /\ exists evs,
       trace (snd (startXR (Sample.page (Sample.browser Sample.short_payload
                              connecting Sample.not_ready Sample.not_ready))))
       = [] ++ evs
       /\ perEyeTexOffset_calls evs = [].
Proof.
  split; [reflexivity |].
  destruct (calibration_validation
              (Sample.page (Sample.browser Sample.short_payload connecting
                              Sample.not_ready Sample.not_ready)))
    as (_ & Hrej & Hcases).
  apply Hrej.
  apply (Hcases {| ok := true; status := 200; json_body := inr Sample.short_payload |}
           Sample.short_payload eq_refl eq_refl).
  right; left; reflexivity.
Defined.

(** C4, counterexample.  A payload whose [k_left] is the number 1 passes
    validation, and [startXR] enters [perEyeTexOffset] with it. *)
Lemma non_object_k_left_reaches_perEyeTexOffset :
  field Sample.bad_payload "k_left" = Some (JNum (F64.of_Z 1))
  /\ fst (loadCalibration (Sample.page (Sample.browser Sample.bad_payload connecting
                                          Sample.not_ready Sample.not_ready)))
     = Normal tt
  /\ perEyeTexOffset_calls
       (trace (snd (startXR (Sample.page (Sample.browser Sample.bad_payload
                               connecting Sample.not_ready Sample.not_ready)))))
     = [(Some (JNum (F64.of_Z 1)), "left")].
Proof.
  split; [reflexivity |]. split; vm_compute; reflexivity.
Qed.

(** On a payload matrix of numbers and a numeric baseline the call made by
    [startXR] computes [perEyeTexOffset] of that matrix. *)
Lemma perEyeTexOffset_call_matrix (K : Mat3 spec_float)
    (width height baseline_m convergence_m : spec_float) (eye : string) (w : World) :
  perEyeTexOffset_call (Some (json_of_matrix K)) width height
    (Some (JNum baseline_m)) convergence_m eye w
  = (Normal (perEyeTexOffset K width height baseline_m convergence_m eye),
     with_trace (fun t => t ++ [CallPerEyeTexOffset (Some (json_of_matrix K)) eye]) w).
Proof.
  destruct K as [[[[a b] c] [[d e] f]] [[g h] i]]. reflexivity.
Qed.

(** ** The frame callback *)

(** The callback itself never raises: its body is inside [try]. *)
Lemma onXRFrame_returns (time : Z) (frame : XRFrame) (w : World) :
  fst (onXRFrame time frame w) = Normal tt.
Proof.
  unfold onXRFrame, try_catch.
  destruct (frame_body frame w) as [[[] | e] w']; reflexivity.
Qed.

(** C9.  On a frame for which the pose query returns [null], the callback
    sends nothing and draws nothing: it leaves the variables and the WebGL
    state alone and, after the query, only requests the next frame (or,
    should that request raise, logs the error). *)
Theorem untracked_frame_only_reschedules (time : Z) (frame : XRFrame) (w : World) :
  getViewerPose frame = None ->
  next_call_returns (oracle w) ->
  fst (onXRFrame time frame w) = Normal tt
  /\ vars (snd (onXRFrame time frame w)) = vars w
  /\ gpu (snd (onXRFrame time frame w)) = gpu w
  /\ exists evs,
       trace (snd (onXRFrame time frame w)) = trace w ++ GetViewerPose :: evs
       /\ (evs = [RequestAnimationFrame]
           \/ exists e, evs = [LogError "XR frame error" (Some e)])
       /\ (next_call_returns (tail (oracle w)) -> evs = [RequestAnimationFrame]).
Proof.
  intros Hpose Hret. split; [apply onXRFrame_returns |].
  unfold onXRFrame, frame_body, try_catch, logError. rewrite Hpose.
  destruct w as [v en g t o]. cbn [oracle] in Hret |- *.
  destruct o as [| [e |] [| [e' |] o']];
    try (destruct (Hret e _ eq_refl));
    unfold mbind, Js_bind, platform, emit, update, with_trace, with_oracle; cbn;
    (split; [reflexivity |]); (split; [reflexivity |]).
  - exists [RequestAnimationFrame].
    split; [rewrite <- app_assoc; reflexivity | split; auto].
  - exists [RequestAnimationFrame].
    split; [rewrite <- app_assoc; reflexivity | split; auto].
  - exists [LogError "XR frame error" (Some e')].
    split; [rewrite <- app_assoc; reflexivity |]. split; [eauto |].
    intros H. exfalso. apply (H e' o'). reflexivity.
  - exists [RequestAnimationFrame].
    split; [rewrite <- app_assoc; reflexivity | split; auto].
Qed.

(** C9 on a running session with the data channel open. *)
Lemma untracked_frame_only_reschedules_witness :
  getViewerPose Sample.untracked_frame = None
  /\ channel_is_open (Sample.running (Sample.browser Sample.payload open
                                        (Sample.playing 3) (Sample.playing 3)) [])
     = true
  /\ trace (snd (onXRFrame 0 Sample.untracked_frame
                   (Sample.running (Sample.browser Sample.payload open
                                      (Sample.playing 3) (Sample.playing 3)) [])))
     = [GetViewerPose; RequestAnimationFrame].
Proof.
  split; [reflexivity |]. split; [reflexivity |].
  destruct (untracked_frame_only_reschedules 0 Sample.untracked_frame
              (Sample.running (Sample.browser Sample.payload open
                                 (Sample.playing 3) (Sample.playing 3)) [])
              eq_refl)
    as (_ & _ & _ & evs & Htr & _ & Hevs).
  - intros e rest. discriminate.
  - rewrite Htr, Hevs; [reflexivity |]. intros e rest. discriminate.
Defined.

(** *** The frame body, step by step *)

Lemma draw_view_keeps (I : World -> Prop) (view : XRView) :
  frame_steps_keep I -> keeps I (draw_view view).
Proof.
  intros (_ & _ & HupL & HupR & Hgl & _ & Hvp & _). unfold draw_view.
  apply keeps_bind; [exact Hvp | intros _].
  apply keeps_bind; [apply Hgl; exact Logic.I | intros _].
  apply keeps_bind.
  { destruct (bool_decide _);
      (apply keeps_bind; [assumption | intros _]);
      (apply keeps_bind; [apply Hgl; exact Logic.I | intros _]);
      apply Hgl; exact Logic.I. }
  intros _. apply keeps_bind; [apply keeps_read | intros sampler].
  apply keeps_bind; [apply keeps_when, Hgl; exact Logic.I | intros _].
  apply keeps_bind; [apply keeps_read | intros off].
  apply keeps_bind; [apply keeps_read | intros loc].
  apply keeps_bind; [apply keeps_when, Hgl; exact Logic.I | intros _].
  apply Hgl. exact Logic.I.
Qed.

(** Whatever holds at every step of a frame holds when its body raises;
    when it returns, the last step was the request for the next frame. *)
Lemma frame_body_guarded (I : World -> Prop) (Q : unit -> World -> Prop)
    (frame : XRFrame) :
  frame_steps_keep I ->
  guarded I (platform RequestAnimationFrame) Q ->
  guarded I (frame_body frame) Q.
Proof.
  intros Hsteps Hraf.
  pose proof (draw_view_keeps I) as Hdraw.
  destruct Hsteps as (Hpose & Hctl & HupL & HupR & Hgl & Hvp & Hgv & Hst).
  unfold frame_body.
  apply guarded_bind; [exact Hvp | intros _].
  destruct (getViewerPose frame) as [pose |]; [| exact Hraf].
  apply guarded_bind; [apply Hpose | intros _].
  apply guarded_bind; [apply Hctl | intros _].
  apply guarded_bind; [apply keeps_read | intros sampler].
  destruct (negb _).
  { apply guarded_bind; [exact Hst | intros _]. exact Hraf. }
  do 4 (apply guarded_bind; [apply Hgl; exact Logic.I | intros _]).
  apply guarded_bind; [apply keeps_read | intros attr].
  apply guarded_bind.
  { apply keeps_when.
    do 2 (apply keeps_bind; [apply Hgl; exact Logic.I | intros _]).
    apply Hgl; exact Logic.I. }
  intros _. apply guarded_bind; [| intros _; exact Hraf].
  apply keeps_for_each. intros view. apply Hdraw.
  repeat split; assumption.
Qed.

Lemma frame_body_keeps (I : World -> Prop) (frame : XRFrame) :
  frame_steps_keep I -> keeps I (platform RequestAnimationFrame) ->
  keeps I (frame_body frame).
Proof. intros Hs Hraf. apply frame_body_guarded; assumption. Qed.

Lemma onXRFrame_keeps (I : World -> Prop) (time : Z) (frame : XRFrame) :
  frame_steps_keep I -> keeps I (platform RequestAnimationFrame) ->
  (forall e, keeps I (logError "XR frame error" (Some e))) ->
  keeps I (onXRFrame time frame).
Proof.
  intros Hs Hraf Hlog. unfold onXRFrame.
  apply keeps_catch; [apply frame_body_keeps; assumption | exact Hlog].
Qed.

(** *** A closed telemetry channel *)

Lemma channel_closed_not_open (w : World) :
  channel_closed (vars w) (env w) <-> channel_is_open w = false.
Proof.
  unfold channel_closed, channel_is_open.
  destruct (dataChannel (vars w)) as [ch |].
  - rewrite bool_decide_eq_false. split; [intros [[=] | H]; exact H | auto].
  - split; auto.
Qed.

Lemma send_pose_closed (pose : XRViewerPose) (w : World) :
  channel_is_open w = false -> send_pose pose w = (Normal tt, w).
Proof. intros Hc. unfold send_pose. rewrite run_read, Hc. reflexivity. Qed.

Section ClosedChannel.
Variables (t0 : list Event) (fixed : Vars -> Env -> GLState -> Prop).
Hypothesis fixed_closed : forall v e s, fixed v e s -> channel_closed v e.
Hypothesis fixed_flag_left :
  forall v e s b, fixed v e s -> fixed (set_hasLoggedLeftVideo b v) e s.
Hypothesis fixed_flag_right :
  forall v e s b, fixed v e s -> fixed (set_hasLoggedRightVideo b v) e s.
Hypothesis fixed_gpu : forall v e s s', fixed v e s -> fixed v e s'.

Lemma closed_noop {A} (m : Js A) :
  (forall w, channel_is_open w = false -> snd (m w) = w) ->
  keeps (Inv t0 not_send fixed) m.
Proof.
  intros Hm. apply keeps_spec. intros w Hw. rewrite Hm; [exact Hw |].
  apply channel_closed_not_open. destruct Hw as (_ & _ & _ & Hf).
  apply (fixed_closed _ _ _ Hf).
Qed.

Lemma closed_updateTexture (t : Texture) (v : Video) :
  keeps (Inv t0 not_send fixed) (updateTextureFromVideo t v).
Proof.
  unfold updateTextureFromVideo. keeps_walk; try exact Logic.I;
    try (intros; eauto using fixed_flag_left, fixed_flag_right, fixed_gpu);
    try (destruct s; exact Logic.I).
Qed.

Lemma closed_gl_call (c : GLCall) : keeps (Inv t0 not_send fixed) (gl_call c).
Proof.
  apply Inv_gl_call.
  - intros s. destruct c; exact Logic.I.
  - intros v e s Hf. apply (fixed_gpu _ _ _ _ Hf).
Qed.

Lemma closed_frame_steps : frame_steps_keep (Inv t0 not_send fixed).
Proof.
  repeat split.
  - intros pose. apply closed_noop. intros w Hc.
    rewrite (send_pose_closed pose w Hc). reflexivity.
  - intros srcs. apply closed_noop. intros w Hc.
    rewrite (sendControllerData_closed srcs w Hc). reflexivity.
  - apply closed_updateTexture.
  - apply closed_updateTexture.
  - intros c _. apply closed_gl_call.
  - apply Inv_platform. exact Logic.I.
  - apply Inv_platform. exact Logic.I.
  - apply Inv_emit. exact Logic.I.
Qed.

Lemma closed_onXRFrame (time : Z) (frame : XRFrame) :
  keeps (Inv t0 not_send fixed) (onXRFrame time frame).
Proof.
  apply onXRFrame_keeps.
  - apply closed_frame_steps.
  - apply Inv_platform. exact Logic.I.
  - intros e. apply Inv_emit. exact Logic.I.
Qed.
End ClosedChannel.

Lemma dropped_turn (t0 : list Event) (t : Turn) :
  keeps (Inv t0 not_send channel_dropped) (turn t).
Proof.
  unfold turn. apply keeps_bind; [| intros _].
  { apply keeps_update. intros w (evs & Htr & Hall & Hf). exists evs. auto. }
  apply keeps_catch; [| intros e; apply Inv_emit; exact Logic.I].
  destruct (callback t) as [time frame | event |]; cbn [run_callback].
  - apply closed_onXRFrame; unfold channel_dropped, channel_closed; auto.
  - unfold pc_ontrack. keeps_walk; try exact Logic.I; auto.
  - unfold dataChannel_onclose. keeps_walk; try exact Logic.I; auto.
    intros _. reflexivity.
Qed.

(** C8.  While the data channel is not open - closing or closed, or already
    dropped by its [onclose] handler - a telemetry send attempt, for the
    pose or for the controllers, returns at once and leaves the whole state
    as it was: nothing is sent, nothing is queued, nothing is raised; a whole
    frame sends nothing and returns normally.  And once the [onclose]
    handler has run, nothing is sent in any later turn of the session. *)
Theorem closed_channel_drops_telemetry (w : World) (turns : list Turn) :
  (channel_closed (vars w) (env w) ->
     (forall srcs, sendControllerData srcs w = (Normal tt, w))
     /\ (forall pose, send_pose pose w = (Normal tt, w))
     /\ (forall time frame,
           fst (onXRFrame time frame w) = Normal tt
           /\ exists evs,
                trace (snd (onXRFrame time frame w)) = trace w ++ evs
                /\ Forall not_send evs))
  /\ channel_closed (vars (snd (dataChannel_onclose w)))
                    (env (snd (dataChannel_onclose w)))
  /\ exists evs,
       trace (snd ((dataChannel_onclose;; session turns) w)) = trace w ++ evs
       /\ Forall not_send evs.
Proof.
  split; [| split].
  - intros Hc. pose proof (proj1 (channel_closed_not_open w) Hc) as Hno.
    split; [intros srcs; apply sendControllerData_closed, Hno |].
    split; [intros pose; apply send_pose_closed, Hno |].
    intros time frame. split; [apply onXRFrame_returns |].
    destruct (Inv_run (onXRFrame time frame) w not_send
                (fun v e _ => channel_closed v e)) as (evs & Htr & Hall & _).
    + apply closed_onXRFrame; auto.
    + exact Hc.
    + exists evs. auto.
  - left. reflexivity.
  - rewrite run_bind.
    change (dataChannel_onclose w)
      with (Normal tt,
            with_trace (fun t => t ++ [SetStatus "Data channel closed"])
              (with_vars (set_dataChannel None) w)).
    cbv beta iota.
    set (w1 := with_trace _ _).
    destruct (Inv_run (session turns) w1 not_send channel_dropped)
      as (evs & Htr & Hall & _).
    + apply keeps_for_each. intros t. apply dropped_turn.
    + reflexivity.
    + exists (SetStatus "Data channel closed" :: evs).
      split; [rewrite Htr; subst w1; cbn; rewrite <- app_assoc; reflexivity |].
      constructor; [exact Logic.I | exact Hall].
Qed.

(** C8 on a running session whose channel has just closed. *)
Lemma closed_channel_drops_telemetry_witness :
  channel_closed
    (vars (Sample.running (Sample.browser Sample.payload closed
                             (Sample.playing 3) (Sample.playing 3)) []))
    (env (Sample.running (Sample.browser Sample.payload closed
                            (Sample.playing 3) (Sample.playing 3)) []))
  /\ sendControllerData [Sample.left_controller]
       (Sample.running (Sample.browser Sample.payload closed
                          (Sample.playing 3) (Sample.playing 3)) [])
     = (Normal tt,
        Sample.running (Sample.browser Sample.payload closed
                          (Sample.playing 3) (Sample.playing 3)) []).
Proof.
  assert (Hc : channel_closed
                 (vars (Sample.running (Sample.browser Sample.payload closed
                                          (Sample.playing 3) (Sample.playing 3)) []))
                 (env (Sample.running (Sample.browser Sample.payload closed
                                         (Sample.playing 3) (Sample.playing 3)) []))).
  { right. discriminate. }
  split; [exact Hc |].
  apply (proj1 (closed_channel_drops_telemetry
                  (Sample.running (Sample.browser Sample.payload closed
                                     (Sample.playing 3) (Sample.playing 3)) [])
                  []) Hc).
Defined.

(** *** An exception in the frame body *)

Lemma no_raf_frame_steps (t0 : list Event) :
  frame_steps_keep (Inv t0 no_raf (fun _ _ _ => True)).
Proof.
  repeat split.
  - intros pose. unfold send_pose. keeps_walk. exact Logic.I.
  - intros srcs. unfold sendControllerData. keeps_walk; exact Logic.I.
  - unfold updateTextureFromVideo. keeps_walk; try exact Logic.I; auto;
      destruct s; exact Logic.I.
  - unfold updateTextureFromVideo. keeps_walk; try exact Logic.I; auto;
      destruct s; exact Logic.I.
  - intros c _. apply Inv_gl_call; [| auto]. intros s. destruct c; exact Logic.I.
  - apply Inv_platform. exact Logic.I.
  - apply Inv_platform. exact Logic.I.
  - apply Inv_emit. exact Logic.I.
Qed.

Lemma raf_guarded (I : World -> Prop) :
  oracle_stable I -> guarded I (platform RequestAnimationFrame) (fun _ _ => True).
Proof.
  intros Ho w Hw. unfold platform. destruct (oracle w) as [| [e |] o]; cbn; auto.
Qed.

(** C3, what the code does.  Whenever the body of a frame raises, the
    callback catches and logs the exception and returns normally, but no
    request for the next frame has been made in this invocation: the loop
    ends there. *)
Theorem frame_exception_ends_loop (time : Z) (frame : XRFrame) (w : World) (e : Exn) :
  fst (frame_body frame w) = Thrown e ->
  fst (onXRFrame time frame w) = Normal tt
  /\ exists evs,
       trace (snd (onXRFrame time frame w))
       = trace w ++ evs ++ [LogError "XR frame error" (Some e)]
       /\ Forall no_raf evs.
Proof.
  intros Hthrown. split; [apply onXRFrame_returns |].
  pose proof (frame_body_guarded _ (fun _ _ => True) frame (no_raf_frame_steps (trace w))
                (raf_guarded _ (Inv_oracle_stable _ _ _)) w
                (Inv_start _ _ w Logic.I)) as Hg.
  unfold onXRFrame, try_catch, logError.
  destruct (frame_body frame w) as [[[] | e'] w'] eqn:Hrun; [discriminate |].
  cbn in Hthrown. injection Hthrown as ->.
  destruct Hg as (evs & Htr & Hall & _).
  exists evs. cbn. rewrite Htr, app_assoc. auto.
Qed.

(** C3 at the failing input: the channel is open and sending the pose
    raises.  The error is logged and no frame is requested. *)
Lemma frame_exception_ends_loop_witness :
  fst (frame_body Sample.tracked_frame
         (Sample.running (Sample.browser Sample.payload open
                            (Sample.playing 3) (Sample.playing 3))
            [None; Some (DOMException "OperationError" "Failure to send data")]))
  = Thrown (DOMException "OperationError" "Failure to send data")
  /\ fst (onXRFrame 0 Sample.tracked_frame
            (Sample.running (Sample.browser Sample.payload open
                               (Sample.playing 3) (Sample.playing 3))
               [None; Some (DOMException "OperationError" "Failure to send data")]))
     = Normal tt
  /\ exists evs,
       trace (snd (onXRFrame 0 Sample.tracked_frame
                     (Sample.running (Sample.browser Sample.payload open
                                        (Sample.playing 3) (Sample.playing 3))
                        [None; Some (DOMException "OperationError" "Failure to send data")])))
       = [] ++ evs ++ [LogError "XR frame error"
                         (Some (DOMException "OperationError" "Failure to send data"))]
       /\ Forall no_raf evs.
Proof.
  split; [vm_compute; reflexivity |].
  apply (frame_exception_ends_loop 0 Sample.tracked_frame
           (Sample.running (Sample.browser Sample.payload open
                              (Sample.playing 3) (Sample.playing 3))
              [None; Some (DOMException "OperationError" "Failure to send data")])
           (DOMException "OperationError" "Failure to send data")).
  vm_compute; reflexivity.
Defined.

(** ** Videos that are not decodable yet *)

Lemma not_decodable_test (s : VideoState) :
  (readyState s <? 2)%nat || (videoWidth s =? 0)%nat || (videoHeight s =? 0)%nat = true
  <-> not_decodable s.
Proof.
  unfold not_decodable.
  rewrite !orb_true_iff, Nat.ltb_lt, !Nat.eqb_eq. tauto.
Qed.

(** The skipped upload: no WebGL call, no platform call at all; the stall is
    logged if it had not been, and the flag is raised. *)
Lemma updateTexture_stalled (t : Texture) (v : Video) (w : World) :
  not_decodable (video (env w) v) ->
  updateTextureFromVideo t v w
  = (Normal tt,
     if has_logged v (vars w) then w
     else with_vars (set_logged v)
            (with_trace (fun tr => tr ++ [SetStatus (stall_message v)]) w)).
Proof.
  intros Hs. apply not_decodable_test in Hs.
  unfold updateTextureFromVideo. rewrite run_read, Hs.
  destruct w as [vs en g tr o].
  destruct vs as [dc ca ctx ol or [|] [|] ul sl pa vc], v; reflexivity.
Qed.

Lemma updateTexture_decodable (t : Texture) (v : Video) (w : World) :
  ~ not_decodable (video (env w) v) ->
  updateTextureFromVideo t v w
  = try_catch
      (gl_call (bindTexture t);;
       gl_call (texImage2D (VideoFrame v (currentFrame (video (env w) v)))))
      (fun err => emit (ConsoleError "Error updating texture from video:" err)) w.
Proof.
  intros Hs. unfold updateTextureFromVideo. rewrite run_read.
  destruct (_ || _ || _) eqn:Hc; [| reflexivity].
  apply not_decodable_test in Hc. contradiction.
Qed.

Lemma not_decodable_dec (s : VideoState) : not_decodable s \/ ~ not_decodable s.
Proof.
  destruct ((readyState s <? 2)%nat || (videoWidth s =? 0)%nat
            || (videoHeight s =? 0)%nat) eqn:Hc.
  - left. apply not_decodable_test, Hc.
  - right. intros H. apply not_decodable_test in H. congruence.
Qed.

(** *** The stall is logged once *)

Lemma stall_logs_snoc (v : Video) (evs : list Event) (ev : Event) :
  stall_logs v (evs ++ [ev])
  = (stall_logs v evs + if is_stall v ev then 1 else 0)%nat.
Proof.
  unfold stall_logs. rewrite filter_app, length_app, filter_cons, filter_nil.
  destruct (is_stall v ev).
  - rewrite decide_True by reflexivity. reflexivity.
  - rewrite decide_False by discriminate. reflexivity.
Qed.

Lemma logged_once_emit (ev : Event) :
  (forall v, is_stall v ev = false) -> emit_stable logged_once ev.
Proof.
  intros Hev w Hw v. unfold with_trace. cbn [trace vars].
  rewrite stall_logs_snoc, Hev, Nat.add_0_r. apply Hw.
Qed.

Lemma logged_once_oracle : oracle_stable logged_once.
Proof. intros w o Hw. exact Hw. Qed.

Lemma logged_once_gl_event (c : GLCall) (s : GLState) (v : Video) :
  is_stall v (gl_event c s) = false.
Proof. destruct c; reflexivity. Qed.

Lemma J_emit (ev : Event) :
  (forall v, is_stall v ev = false) -> keeps logged_once (emit ev).
Proof. intros H. apply keeps_emit, logged_once_emit, H. Qed.

Lemma J_platform (ev : Event) :
  (forall v, is_stall v ev = false) -> keeps logged_once (platform ev).
Proof.
  intros H. apply keeps_platform; [apply logged_once_oracle | apply logged_once_emit, H].
Qed.

Lemma J_gl_call (c : GLCall) : keeps logged_once (gl_call c).
Proof.
  apply keeps_gl_call.
  - apply logged_once_oracle.
  - intros w Hw. exact Hw.
  - intros s. apply logged_once_emit. intros v. apply logged_once_gl_event.
Qed.

Lemma J_vars (f : Vars -> Vars) :
  (forall v vs, has_logged v vs = true -> has_logged v (f vs) = true) ->
  keeps logged_once (update (with_vars f)).
Proof.
  intros Hf. apply keeps_update. intros w Hw v. unfold with_vars. cbn [trace vars].
  specialize (Hw v).
  destruct (has_logged v (vars w)) eqn:Hl.
  - rewrite (Hf v _ Hl). exact Hw.
  - destruct (has_logged v (f (vars w))); lia.
Qed.

Ltac J_leaf :=
  lazymatch goal with
  | |- keeps logged_once (emit _) => apply J_emit; intros []; reflexivity
  | |- keeps logged_once (platform _) => apply J_platform; intros []; reflexivity
  | |- keeps logged_once (gl_call _) => apply J_gl_call
  | |- keeps logged_once (update (with_vars _)) =>
      apply J_vars; intros [] ? ?; assumption
  end.

Lemma J_updateTexture (t : Texture) (v : Video) :
  keeps logged_once (updateTextureFromVideo t v).
Proof.
  apply keeps_spec. intros w Hw.
  destruct (not_decodable_dec (video (env w) v)) as [Hs | Hs].
  - rewrite (updateTexture_stalled t v w Hs). cbn [snd].
    destruct (has_logged v (vars w)) eqn:Hl; [exact Hw |].
    intros u. unfold with_vars, with_trace. cbn [trace vars].
    rewrite stall_logs_snoc. specialize (Hw u).
    destruct v, u; cbn in *; rewrite ?Hl in Hw; cbn;
      try (destruct (hasLoggedLeftVideo (vars w)));
      try (destruct (hasLoggedRightVideo (vars w))); lia.
  - rewrite (updateTexture_decodable t v w Hs). clear Hs.
    generalize (currentFrame (video (env w) v)). intros n.
    revert w Hw. apply (proj1 (keeps_spec _ _)).
    keeps_structure ltac:(idtac; J_leaf).
Qed.

Lemma J_frame_steps : frame_steps_keep logged_once.
Proof.
  repeat split.
  - intros pose. unfold send_pose. keeps_structure ltac:(idtac; J_leaf).
  - intros srcs. unfold sendControllerData. keeps_structure ltac:(idtac; J_leaf).
  - apply J_updateTexture.
  - apply J_updateTexture.
  - intros c _. apply J_gl_call.
  - J_leaf.
  - J_leaf.
  - unfold setStatus. J_leaf.
Qed.

Lemma J_turn (t : Turn) : keeps logged_once (turn t).
Proof.
  unfold turn. apply keeps_bind; [| intros _].
  { apply keeps_update. intros w Hw. exact Hw. }
  apply keeps_catch; [| intros e; unfold logError; J_leaf].
  destruct (callback t) as [time frame | event |]; cbn [run_callback].
  - apply onXRFrame_keeps; [apply J_frame_steps | J_leaf |].
    intros e. unfold logError. J_leaf.
  - unfold pc_ontrack. keeps_structure ltac:(idtac; J_leaf).
  - unfold dataChannel_onclose. keeps_structure ltac:(idtac; J_leaf).
Qed.

(** Over a whole session each stall is logged at most once. *)
Lemma session_logs_once (turns : list Turn) (w : World) (v : Video) :
  (forall u, stall_logs u (trace w) = 0%nat) ->
  (stall_logs v (trace (snd (session turns w))) <= 1)%nat.
Proof.
  intros Hfresh.
  assert (Hw : logged_once w) by (intros u; rewrite Hfresh; lia).
  pose proof (proj1 (keeps_spec _ _)
                (keeps_for_each logged_once turns turn J_turn) w Hw v) as Hend.
  unfold session. destruct (has_logged v _); lia.
Qed.

(** *** A frame in which nothing raises *)

Lemma gl_call_quiet (c : GLCall) (w : World) :
  quiet w -> gl_call c w = (Normal tt, after_gl c w).
Proof.
  intros [Ho Hgl]. unfold gl_call. rewrite run_read, Hgl, run_read.
  rewrite run_platform_quiet by exact Ho. reflexivity.
Qed.

Lemma reaches_refl (w : World) : quiet w -> reaches w w [].
Proof.
  intros Hq. repeat split; try apply Hq; auto.
  rewrite app_nil_r. reflexivity.
Qed.

Lemma reaches_trans (w w1 w2 : World) (evs1 evs2 : list Event) :
  reaches w w1 evs1 -> reaches w1 w2 evs2 -> reaches w w2 (evs1 ++ evs2).
Proof.
  intros (_ & He1 & Hs1 & Hi1 & Ht1 & Hu1) (Hq2 & He2 & Hs2 & Hi2 & Ht2 & Hu2).
  rewrite He1 in *.
  split; [exact Hq2 |]. split; [congruence |]. split; [congruence |].
  split; [intros u Hu; rewrite Hi2, Hi1 by exact Hu; reflexivity |].
  split; [rewrite Ht2, Ht1, app_assoc; reflexivity |].
  apply Forall_app. split; assumption.
Qed.

Lemma reaches_emit (ev : Event) (w : World) :
  quiet w -> no_stalled_upload (env w) ev ->
  reaches w (with_trace (fun t => t ++ [ev]) w) [ev].
Proof.
  intros Hq Hev. repeat split; try apply Hq; auto.
Qed.

Lemma not_upload (e : Env) (ev : Event) :
  (forall img, ev <> GL (texImage2D img)) -> no_stalled_upload e ev.
Proof. intros Hev u _ (n & Hn). apply (Hev _ Hn). Qed.

Lemma reaches_gl (c : GLCall) (w : World) :
  quiet w -> frame_gl c -> reaches w (after_gl c w) [gl_event c (gpu w)].
Proof.
  intros Hq Hc. unfold after_gl.
  split; [exact Hq |]. split; [reflexivity |]. split; [reflexivity |].
  split; [| split; [reflexivity |]].
  - intros u _. destruct c, u; try reflexivity; destruct Hc.
  - repeat constructor. apply not_upload. intros img.
    destruct c; try discriminate; destruct Hc.
Qed.

(** The upload of a decodable video writes the texture of that video
    only. *)
Lemma reaches_upload (v : Video) (n : nat) (w : World) :
  quiet w -> ~ not_decodable (video (env w) v) ->
  reaches w
    (after_gl (texImage2D (VideoFrame v n)) (after_gl (bindTexture (texture_for v)) w))
    [GL (bindTexture (texture_for v)); GL (texImage2D (VideoFrame v n))].
Proof.
  intros Hq Hv. unfold after_gl.
  split; [exact Hq |]. split; [reflexivity |]. split; [reflexivity |].
  split; [| split; [cbn; rewrite <- app_assoc; reflexivity |]].
  - intros u Hu. destruct v, u; try reflexivity; contradiction.
  - constructor; [apply not_upload; discriminate |].
    constructor; [| constructor].
    intros u Hu (k & [= <- _]). contradiction.
Qed.

Lemma runs_bind (m k : Js unit) : runs m -> runs k -> runs (m;; k).
Proof.
  intros Hm Hk w Hq. destruct (Hm w Hq) as (w1 & evs1 & Hrun1 & Hr1).
  destruct (Hk w1 (proj1 Hr1)) as (w2 & evs2 & Hrun2 & Hr2).
  exists w2, (evs1 ++ evs2). rewrite run_bind, Hrun1.
  split; [exact Hrun2 | eapply reaches_trans; eassumption].
Qed.

Lemma runs_read {A} (f : World -> A) (k : A -> Js unit) :
  (forall a, runs (k a)) -> runs (read f ≫= k).
Proof. intros Hk w Hq. rewrite run_read. apply Hk, Hq. Qed.

Lemma runs_ret : runs (mret tt).
Proof. intros w Hq. exists w, []. split; [reflexivity | apply reaches_refl, Hq]. Qed.

Lemma runs_when (b : bool) (m : Js unit) : runs m -> runs (when b m).
Proof. intros Hm. destruct b; [exact Hm | apply runs_ret]. Qed.

Lemma runs_platform (ev : Event) :
  (forall img, ev <> GL (texImage2D img)) -> runs (platform ev).
Proof.
  intros Hev w Hq. eexists _, [ev].
  split; [apply platform_quiet, Hq | apply reaches_emit; [exact Hq |]].
  apply not_upload, Hev.
Qed.

Lemma runs_gl (c : GLCall) : frame_gl c -> runs (gl_call c).
Proof.
  intros Hc w Hq. eexists _, _.
  split; [apply gl_call_quiet, Hq | apply reaches_gl; assumption].
Qed.

Lemma runs_send_pose (pose : XRViewerPose) : runs (send_pose pose).
Proof.
  unfold send_pose. apply runs_read. intros b. apply runs_when, runs_platform.
  discriminate.
Qed.

Lemma runs_sendControllerData (srcs : list XRInputSource) :
  runs (sendControllerData srcs).
Proof.
  intros w Hq. unfold sendControllerData. rewrite run_read.
  destruct (channel_is_open w); cbn [negb].
  - rewrite run_read. unfold try_catch. rewrite (platform_quiet _ w (proj1 Hq)).
    eexists _, _. split; [reflexivity |]. apply reaches_emit; [exact Hq |].
    apply not_upload. discriminate.
  - exists w, []. split; [reflexivity | apply reaches_refl, Hq].
Qed.

Lemma runs_updateTexture (v : Video) :
  runs (updateTextureFromVideo (texture_for v) v).
Proof.
  intros w Hq. destruct (not_decodable_dec (video (env w) v)) as [Hs | Hs].
  - rewrite (updateTexture_stalled _ v w Hs).
    destruct (has_logged v (vars w)).
    + exists w, []. split; [reflexivity | apply reaches_refl, Hq].
    + eexists _, [SetStatus (stall_message v)]. split; [reflexivity |].
      destruct Hq as [Ho Hgl].
      repeat split; auto; try (destruct v; assumption); try (destruct v; reflexivity).
      repeat constructor. apply not_upload. discriminate.
  - rewrite (updateTexture_decodable _ v w Hs). unfold try_catch.
    rewrite run_bind, (gl_call_quiet _ w Hq).
    rewrite (gl_call_quiet _ (after_gl _ w)) by exact Hq.
    eexists _, _. split; [reflexivity | apply reaches_upload; assumption].
Qed.

Lemma updateTexture_viewport (t : Texture) (v : Video) (w : World) :
  current_viewport (gpu (snd (updateTextureFromVideo t v w)))
  = current_viewport (gpu w).
Proof.
  destruct (Inv_run (updateTextureFromVideo t v) w (fun _ => True)
              (fun _ _ s => current_viewport s = current_viewport (gpu w)))
    as (_ & _ & _ & H); [| reflexivity | exact H].
  unfold updateTextureFromVideo. keeps_walk; try exact Logic.I; auto;
    intros <-; cbn; try destruct (bound_texture s) as [[|] |]; reflexivity.
Qed.

(** The texture of the eye is bound when its pass reaches the draw. *)
Lemma bind_eye_texture (v : Video) (w : World) :
  quiet w ->
  exists w' evs,
    (updateTextureFromVideo (texture_for v) v;;
     gl_call activeTexture;;
     gl_call (bindTexture (texture_for v))) w = (Normal tt, w')
    /\ reaches w w' evs
    /\ bound_texture (gpu w') = Some (texture_for v)
    /\ current_viewport (gpu w') = current_viewport (gpu w).
Proof.
  intros Hq. destruct (runs_updateTexture v w Hq) as (w1 & evs1 & Hrun1 & Hr1).
  pose proof (updateTexture_viewport (texture_for v) v w) as Hvp.
  rewrite Hrun1 in Hvp. cbn [snd] in Hvp.
  pose proof (proj1 Hr1) as Hq1.
  rewrite run_bind, Hrun1, run_bind, (gl_call_quiet _ w1 Hq1).
  rewrite (gl_call_quiet _ (after_gl activeTexture w1)) by exact Hq1.
  eexists _, _. split; [reflexivity |]. split; [| split; [reflexivity | exact Hvp]].
  eapply reaches_trans; [exact Hr1 |].
  eapply (reaches_trans _ (after_gl activeTexture w1));
    apply reaches_gl; try exact Hq1; exact Logic.I.
Qed.

(** The end of an eye pass: the uniforms, then the draw with whatever is
    bound. *)
Lemma draw_tail (isLeft : bool) (w : World) :
  quiet w ->
  exists w' evs,
    (sampler ← read (fun w => samplerLoc (vars w));
     when (bool_decide (is_Some sampler)) (gl_call uniform1i);;
     offset ← read (fun w => if isLeft then texOffsetLeft (vars w)
                             else texOffsetRight (vars w));
     loc ← read (fun w => uTexOffsetLoc (vars w));
     when (bool_decide (is_Some loc))
       (gl_call (uniform2fv (default (Float32Array [F64.of_Z 0; F64.of_Z 0]) offset)));;
     gl_call drawArrays) w = (Normal tt, w')
    /\ reaches w w' evs
    /\ (forall t, image_of (gpu w') t = image_of (gpu w) t)
    /\ exists d, Draw d ∈ evs
                 /\ drawn_viewport d = current_viewport (gpu w)
                 /\ drawn_texture d = bound_texture (gpu w)
                 /\ drawn_image d = image_of (gpu w) <$> bound_texture (gpu w).
Proof.
  intros Hq. rewrite run_read.
  assert (Hu1 : exists w1 evs1,
             when (bool_decide (is_Some (samplerLoc (vars w)))) (gl_call uniform1i) w
             = (Normal tt, w1)
             /\ reaches w w1 evs1 /\ gpu w1 = gpu w
             /\ (forall ev, ev ∈ evs1 -> ev = GL uniform1i)).
  { destruct (bool_decide (is_Some (samplerLoc (vars w)))); cbn [when].
    - rewrite (gl_call_quiet _ w Hq). eexists _, _. split; [reflexivity |].
      split; [apply reaches_gl; [exact Hq | exact Logic.I] |].
      split; [reflexivity |]. intros ev Hev. apply list_elem_of_singleton in Hev. exact Hev.
    - exists w, []. split; [reflexivity |]. split; [apply reaches_refl, Hq |].
      split; [reflexivity |]. intros ev Hev. apply elem_of_nil in Hev. contradiction. }
  destruct Hu1 as (w1 & evs1 & Hrun1 & Hr1 & Hg1 & _).
  pose proof (proj1 Hr1) as Hq1.
  rewrite run_bind, Hrun1, run_read, run_read.
  set (off := default _ _).
  assert (Hu2 : exists w2 evs2,
             when (bool_decide (is_Some (uTexOffsetLoc (vars w1))))
               (gl_call (uniform2fv off)) w1 = (Normal tt, w2)
             /\ reaches w1 w2 evs2
             /\ (forall t, image_of (gpu w2) t = image_of (gpu w1) t)
             /\ bound_texture (gpu w2) = bound_texture (gpu w1)
             /\ current_viewport (gpu w2) = current_viewport (gpu w1)).
  { destruct (bool_decide (is_Some (uTexOffsetLoc (vars w1)))); cbn [when].
    - rewrite (gl_call_quiet _ w1 Hq1). eexists _, _. split; [reflexivity |].
      split; [apply reaches_gl; [exact Hq1 | exact Logic.I] |].
      repeat split.
    - exists w1, []. split; [reflexivity |]. split; [apply reaches_refl, Hq1 |].
      repeat split. }
  destruct Hu2 as (w2 & evs2 & Hrun2 & Hr2 & Hi2 & Hb2 & Hv2).
  pose proof (proj1 Hr2) as Hq2.
  rewrite run_bind, Hrun2, (gl_call_quiet _ w2 Hq2).
  eexists _, _. split; [reflexivity |]. split; [| split].
  - eapply reaches_trans; [exact Hr1 |]. eapply reaches_trans; [exact Hr2 |].
    apply reaches_gl; [exact Hq2 | exact Logic.I].
  - intros t. cbn. rewrite Hi2, Hg1. reflexivity.
  - exists (snapshot (gpu w2)). split; [set_solver |].
    unfold snapshot. cbn. rewrite Hv2, Hb2, Hg1. repeat split.
    destruct (bound_texture (gpu w)) as [t |]; [| reflexivity].
    cbn. rewrite Hi2, Hg1. reflexivity.
Qed.

Lemma drawn_with_more (view : XRView) (img : TexImage) (pre evs post : list Event) :
  drawn_with view img evs -> drawn_with view img (pre ++ evs ++ post).
Proof.
  intros (d & Hin & Hd). exists d. split; [rewrite !elem_of_app; auto | exact Hd].
Qed.

(** One eye pass in a quiet world: it returns, and has drawn the view with
    the texture of its eye. *)
Lemma draw_view_quiet (view : XRView) (w : World) :
  quiet w ->
  exists w' evs,
    draw_view view w = (Normal tt, w')
    /\ reaches w w' evs
    /\ drawn_with view (image_of (gpu w') (texture_for (video_of view))) evs.
Proof.
  intros Hq. unfold draw_view, drawn_with, video_of.
  rewrite run_platform_quiet by apply Hq. set (w1 := with_trace _ w).
  assert (Hq1 : quiet w1) by exact Hq.
  rewrite run_bind, (gl_call_quiet _ w1 Hq1). cbv beta iota.
  set (w2 := after_gl _ w1).
  assert (Hq2 : quiet w2) by exact Hq.
  assert (Hr2 : reaches w w2 ([GetViewport] ++ [GL (viewport (viewport_of view))])).
  { eapply reaches_trans.
    - apply (reaches_emit GetViewport w Hq). apply not_upload. discriminate.
    - apply (reaches_gl (viewport (viewport_of view)) w1 Hq1 Logic.I). }
  rewrite run_bind.
  destruct (bool_decide (XREye_str (eye view) = "left")).
  - destruct (bind_eye_texture leftVideo w2 Hq2) as (w3 & evs3 & Hrun3 & Hr3 & Hb3 & Hv3).
    cbn [texture_for] in Hrun3, Hb3. rewrite Hrun3.
    destruct (draw_tail true w3 (proj1 Hr3))
      as (w4 & evs4 & Hrun4 & Hr4 & Hi4 & d & Hin & Hdv & Hdt & Hdi).
    rewrite Hrun4. exists w4, (([GetViewport] ++ [GL (viewport (viewport_of view))])
                                ++ evs3 ++ evs4).
    split; [reflexivity |]. split.
    + eapply reaches_trans; [exact Hr2 |]. eapply reaches_trans; eassumption.
    + exists d. split; [rewrite !elem_of_app; auto |].
      rewrite Hdv, Hdt, Hdi, Hb3, Hv3, Hi4. repeat split.
  - destruct (bind_eye_texture rightVideo w2 Hq2) as (w3 & evs3 & Hrun3 & Hr3 & Hb3 & Hv3).
    cbn [texture_for] in Hrun3, Hb3. rewrite Hrun3.
    destruct (draw_tail false w3 (proj1 Hr3))
      as (w4 & evs4 & Hrun4 & Hr4 & Hi4 & d & Hin & Hdv & Hdt & Hdi).
    rewrite Hrun4. exists w4, (([GetViewport] ++ [GL (viewport (viewport_of view))])
                                ++ evs3 ++ evs4).
    split; [reflexivity |]. split.
    + eapply reaches_trans; [exact Hr2 |]. eapply reaches_trans; eassumption.
    + exists d. split; [rewrite !elem_of_app; auto |].
      rewrite Hdv, Hdt, Hdi, Hb3, Hv3, Hi4. repeat split.
Qed.

(** The passes over all the views: every view whose video is not decodable
    is drawn with the image its texture held before. *)
Lemma views_quiet (vs : list XRView) (w : World) :
  quiet w ->
  exists w' evs,
    for_each vs draw_view w = (Normal tt, w')
    /\ reaches w w' evs
    /\ forall view, view ∈ vs -> not_decodable (video (env w) (video_of view)) ->
         drawn_with view (image_of (gpu w) (texture_for (video_of view))) evs.
Proof.
  revert w. induction vs as [| view vs IH]; intros w Hq.
  - exists w, []. split; [reflexivity |]. split; [apply reaches_refl, Hq |].
    intros view Hin. apply elem_of_nil in Hin. contradiction.
  - cbn [for_each]. rewrite run_bind.
    destruct (draw_view_quiet view w Hq) as (w1 & evs1 & Hrun1 & Hr1 & Hd1).
    rewrite Hrun1.
    destruct (IH w1 (proj1 Hr1)) as (w2 & evs2 & Hrun2 & Hr2 & Hd2).
    exists w2, (evs1 ++ evs2). split; [exact Hrun2 |].
    split; [eapply reaches_trans; eassumption |].
    destruct Hr1 as (_ & He1 & _ & Hi1 & _ & _).
    intros view' Hin Hs. rewrite <- (Hi1 _ Hs).
    apply elem_of_cons in Hin as [-> | Hin].
    + apply (drawn_with_more view _ [] evs1 evs2), Hd1.
    + rewrite <- (app_nil_r evs2). apply (drawn_with_more view' _ evs1 evs2 []).
      apply Hd2; [exact Hin |]. rewrite He1. exact Hs.
Qed.

(** A whole frame in a quiet world, with a pose and the sampler handle. *)
Lemma frame_quiet (frame : XRFrame) (pose : XRViewerPose) (w : World) :
  quiet w -> getViewerPose frame = Some pose -> is_Some (samplerLoc (vars w)) ->
  exists w' evs,
    frame_body frame w = (Normal tt, w')
    /\ reaches w w' evs
    /\ RequestAnimationFrame ∈ evs
    /\ forall view, view ∈ views pose ->
         not_decodable (video (env w) (video_of view)) ->
         drawn_with view (image_of (gpu w) (texture_for (video_of view))) evs.
Proof.
  intros Hq Hpose Hsampler. unfold frame_body. rewrite Hpose.
  assert (Hgvp : runs (platform GetViewerPose)) by (apply runs_platform; discriminate).
  rewrite run_bind.
  destruct (Hgvp w Hq) as (w0 & evs0 & Hrun0 & Hr0). rewrite Hrun0.
  rewrite run_bind.
  destruct (runs_send_pose pose w0 (proj1 Hr0)) as (w1 & evs1 & Hrun1 & Hr1').
  rewrite Hrun1.
  pose proof (reaches_trans _ _ _ _ _ Hr0 Hr1') as Ha.
  rewrite run_bind.
  destruct (runs_sendControllerData (inputSources frame) w1 (proj1 Hr1'))
    as (w2 & evs2 & Hrun2 & Hr1).
  rewrite Hrun2.
  pose proof (reaches_trans _ _ _ _ _ Ha Hr1) as Hb.
  rewrite run_read.
  assert (Hs : bool_decide (is_Some (samplerLoc (vars w2))) = true).
  { apply bool_decide_eq_true. destruct Hb as (_ & _ & -> & _). exact Hsampler. }
  rewrite Hs. cbn [negb].
  rewrite run_bind.
  destruct (runs_gl bindFramebuffer Logic.I w2 (proj1 Hr1)) as (wa & ea & Hra & Hqa).
  rewrite Hra. rewrite run_bind.
  destruct (runs_gl clearColor Logic.I wa (proj1 Hqa)) as (wb & eb & Hrb & Hqb).
  rewrite Hrb. rewrite run_bind.
  destruct (runs_gl clear Logic.I wb (proj1 Hqb)) as (wc & ec & Hrc & Hqc).
  rewrite Hrc. rewrite run_bind.
  destruct (runs_gl useProgram Logic.I wc (proj1 Hqc)) as (w3 & ed & Hrd & Hr3).
  rewrite Hrd. rewrite run_read.
  pose proof (reaches_trans _ _ _ _ _
                (reaches_trans _ _ _ _ _
                   (reaches_trans _ _ _ _ _
                      (reaches_trans _ _ _ _ _ Hb Hqa) Hqb) Hqc) Hr3) as Hc.
  assert (Hattr : runs (when (0 <=? positionAttrLoc (vars w3))
                          (gl_call enableVertexAttribArray;; gl_call bindBuffer;;
                           gl_call vertexAttribPointer))).
  { apply runs_when. repeat apply runs_bind; apply runs_gl; exact Logic.I. }
  rewrite run_bind.
  destruct (Hattr w3 (proj1 Hr3)) as (w4 & evs4 & Hrun4 & Hr4). rewrite Hrun4.
  pose proof (reaches_trans _ _ _ _ _ Hc Hr4) as Hd.
  rewrite run_bind.
  destruct (views_quiet (views pose) w4 (proj1 Hr4))
    as (w5 & evs5 & Hrun5 & Hr5 & Hdrawn).
  rewrite Hrun5.
  rewrite (platform_quiet RequestAnimationFrame w5 (proj1 (proj1 Hr5))).
  eexists _, _. split; [reflexivity |]. split; [| split].
  - eapply reaches_trans; [exact Hd |].
    eapply reaches_trans; [exact Hr5 |].
    apply reaches_emit; [exact (proj1 Hr5) |]. apply not_upload. discriminate.
  - rewrite !elem_of_app. right. right. apply list_elem_of_singleton. reflexivity.
  - intros view Hin Hstall.
    destruct Hd as (_ & He4 & _ & Hi4 & _ & _).
    rewrite <- (Hi4 _ Hstall).
    apply (drawn_with_more view _ _ evs5 [RequestAnimationFrame]).
    apply Hdrawn; [exact Hin |]. rewrite He4. exact Hstall.
Qed.



(** * Further properties *)

(** ** The frame callback *)

Lemma frame_body_split (frame : XRFrame) :
  frame_body frame
  = (platform GetViewerPose;;
     match getViewerPose frame with
     | None => platform RequestAnimationFrame
     | Some pose =>
         send_pose pose;;
         sendControllerData (inputSources frame);;
         frame_rest pose
     end).
Proof. reflexivity. Qed.

(** X1.  An invocation of the frame callback requests at most one next
    frame, and when it does, that request is the last thing it does. *)
Theorem frame_requests_at_most_once (time : Z) (frame : XRFrame) (w : World) :
  exists evs,
    trace (snd (onXRFrame time frame w)) = trace w ++ evs
    /\ (Forall no_raf evs
        \/ exists pre, evs = pre ++ [RequestAnimationFrame] /\ Forall no_raf pre).
Proof.
  set (Q := fun (_ : unit) (w' : World) =>
              exists pre, trace w' = trace w ++ pre ++ [RequestAnimationFrame]
                          /\ Forall no_raf pre).
  assert (Hraf : guarded (Inv (trace w) no_raf (fun _ _ _ => True))
                   (platform RequestAnimationFrame) Q).
  { intros w1 (evs & Htr & Hall & _). unfold platform.
    destruct (oracle w1) as [| [e |] o]; unfold Q, emit, with_trace, with_oracle; cbn.
    - exists evs. rewrite Htr, app_assoc. auto.
    - exists evs. auto.
    - exists evs. rewrite Htr, app_assoc. auto. }
  pose proof (frame_body_guarded _ Q frame (no_raf_frame_steps (trace w)) Hraf w
                (Inv_start _ _ w Logic.I)) as Hg.
  unfold onXRFrame, try_catch, logError.
  destruct (frame_body frame w) as [[[] | e] w']; cbn.
  - destruct Hg as (pre & Htr & Hall). exists (pre ++ [RequestAnimationFrame]).
    split; [exact Htr | right; eauto].
  - destruct Hg as (evs & Htr & Hall & _).
    exists (evs ++ [LogError "XR frame error" (Some e)]).
    split; [rewrite Htr, app_assoc; reflexivity | left].
    apply Forall_app. split; [exact Hall | repeat constructor].
Qed.

(** *** What a frame draws when nothing raises *)

Lemma draws_app (evs evs' : list Event) : draws (evs ++ evs') = draws evs ++ draws evs'.
Proof. apply omap_app. Qed.

Lemma advances_refl (w : World) : quiet w -> advances w w [].
Proof. intros Hq. split; auto. rewrite app_nil_r. reflexivity. Qed.

Lemma advances_trans (w w1 w2 : World) (evs1 evs2 : list Event) :
  advances w w1 evs1 -> advances w1 w2 evs2 -> advances w w2 (evs1 ++ evs2).
Proof.
  intros [Q1 E1 L1 R1 U1 S1 P1 O1 I1 T1] [Q2 E2 L2 R2 U2 S2 P2 O2 I2 T2].
  split; try congruence.
  - intros Hn. rewrite O2, O1; congruence.
  - intros u Hu. rewrite I2, I1; [reflexivity | exact Hu | rewrite E1; exact Hu].
  - rewrite T2, T1, app_assoc. reflexivity.
Qed.

Lemma advances_emit (ev : Event) (w : World) :
  quiet w -> advances w (with_trace (fun t => t ++ [ev]) w) [ev].
Proof. intros Hq. split; auto. Qed.

Lemma advances_gl (c : GLCall) (w : World) :
  quiet w -> inert c -> advances w (after_gl c w) [gl_event c (gpu w)].
Proof.
  intros Hq Hc. split; auto.
  - intros _. destruct c; try reflexivity; destruct Hc.
  - intros u _. destruct c, u; try reflexivity; destruct Hc.
Qed.

Lemma advances_uniform2fv (off : list spec_float) (w : World) :
  quiet w -> is_Some (uTexOffsetLoc (vars w)) ->
  advances w (after_gl (uniform2fv off) w) [GL (uniform2fv off)].
Proof.
  intros Hq [loc Hloc]. split; auto. cbn. intros Hn. congruence.
Qed.

Lemma eye_image_stalled (w : World) (v : Video) :
  not_decodable (video (env w) v) -> eye_image w v = image_of (gpu w) (texture_for v).
Proof.
  intros Hs. apply not_decodable_test in Hs. unfold eye_image. rewrite Hs. reflexivity.
Qed.

Lemma eye_image_decodable (w : World) (v : Video) :
  ~ not_decodable (video (env w) v) ->
  eye_image w v = VideoFrame v (currentFrame (video (env w) v)).
Proof.
  intros Hs. unfold eye_image.
  destruct (_ || _ || _) eqn:Hc; [| reflexivity].
  apply not_decodable_test in Hc. contradiction.
Qed.

(** The expected draw of a view does not change while the code advances. *)
Lemma expected_draw_advances (w x : World) (evs : list Event) (view : XRView) :
  advances w x evs -> expected_draw x view = expected_draw w view.
Proof.
  intros [Q E L R U S P O I T]. unfold expected_draw.
  f_equal.
  - f_equal. destruct (not_decodable_dec (video (env w) (video_of view))) as [Hs | Hs].
    + rewrite !eye_image_stalled; [apply I, Hs | exact Hs | rewrite E; exact Hs].
    + rewrite !eye_image_decodable; [rewrite E; reflexivity | exact Hs | rewrite E; exact Hs].
  - rewrite U. destruct (uTexOffsetLoc (vars w)) eqn:Hl.
    + unfold offset_for. destruct (video_of view); congruence.
    + apply O. reflexivity.
Qed.

(** The upload step of an eye pass. *)
Lemma upload_record (v : Video) (w : World) :
  quiet w ->
  exists w1 evs,
    updateTextureFromVideo (texture_for v) v w = (Normal tt, w1)
    /\ advances w w1 evs /\ draws evs = []
    /\ current_viewport (gpu w1) = current_viewport (gpu w)
    /\ image_of (gpu w1) (texture_for v) = eye_image w v.
Proof.
  intros Hq. destruct (not_decodable_dec (video (env w) v)) as [Hs | Hs].
  - rewrite (updateTexture_stalled _ v w Hs), (eye_image_stalled w v Hs).
    destruct (has_logged v (vars w)).
    + exists w, []. split; [reflexivity |]. split; [apply advances_refl, Hq |]. auto.
    + eexists _, [SetStatus (stall_message v)]. split; [reflexivity |].
      split; [| auto]. destruct Hq as [Ho Hgl].
      split; auto; try (destruct v; assumption); try (destruct v; reflexivity).
      split; [exact Ho | destruct v; exact Hgl].
  - rewrite (updateTexture_decodable _ v w Hs), (eye_image_decodable w v Hs).
    unfold try_catch.
    rewrite run_bind, (gl_call_quiet _ w Hq).
    rewrite (gl_call_quiet _ (after_gl _ w)) by exact Hq.
    eexists _, [GL (bindTexture (texture_for v)); GL (texImage2D _)].
    split; [reflexivity |]. split; [| split; [reflexivity |]].
    + split; auto.
      * intros _. destruct v; reflexivity.
      * intros u Hu. destruct v, u; try reflexivity; contradiction.
      * cbn. rewrite <- app_assoc. reflexivity.
    + split; destruct v; reflexivity.
Qed.

Lemma draw_view_eye (view : XRView) :
  draw_view view
  = (platform GetViewport;;
     gl_call (viewport (viewport_of view));;
     (updateTextureFromVideo (texture_for (video_of view)) (video_of view);;
      gl_call activeTexture;;
      gl_call (bindTexture (texture_for (video_of view))));;
     sampler ← read (fun w => samplerLoc (vars w));
     when (bool_decide (is_Some sampler)) (gl_call uniform1i);;
     offset ← read (fun w => match video_of view with
                             | leftVideo => texOffsetLeft (vars w)
                             | rightVideo => texOffsetRight (vars w)
                             end);
     loc ← read (fun w => uTexOffsetLoc (vars w));
     when (bool_decide (is_Some loc))
       (gl_call (uniform2fv (default (Float32Array [F64.of_Z 0; F64.of_Z 0]) offset)));;
     gl_call drawArrays).
Proof.
  unfold draw_view, video_of.
  destruct (bool_decide (XREye_str (eye view) = "left")); reflexivity.
Qed.

(** One eye pass in a quiet world: it returns, and makes exactly the
    expected draw. *)
Lemma draw_view_record (view : XRView) (w : World) :
  quiet w ->
  exists w' evs,
    draw_view view w = (Normal tt, w')
    /\ advances w w' evs
    /\ draws evs = [expected_draw w view].
Proof.
  intros Hq. rewrite draw_view_eye. set (v := video_of view).
  rewrite run_platform_quiet by apply Hq. set (w1 := with_trace _ w).
  assert (Hq1 : quiet w1) by exact Hq.
  rewrite run_bind, (gl_call_quiet _ w1 Hq1). cbv beta iota.
  set (w2 := after_gl _ w1).
  assert (Hq2 : quiet w2) by exact Hq.
  assert (Ha2 : advances w w2 ([GetViewport] ++ [GL (viewport (viewport_of view))])).
  { eapply advances_trans; [apply (advances_emit GetViewport w Hq) |].
    apply (advances_gl (viewport (viewport_of view)) w1 Hq1 Logic.I). }
  destruct (upload_record v w2 Hq2) as (w3 & evs3 & Hrun3 & Ha3 & Hd3 & Hv3 & Hi3).
  pose proof (adv_quiet _ _ _ Ha3) as Hq3.
  rewrite run_bind, run_bind, Hrun3.
  rewrite run_bind, (gl_call_quiet _ w3 Hq3).
  rewrite (gl_call_quiet _ (after_gl activeTexture w3)) by exact Hq3.
  set (w5 := after_gl (bindTexture _) _).
  assert (Hq5 : quiet w5) by exact Hq3.
  assert (Ha5 : advances w3 w5 ([GL activeTexture] ++ [GL (bindTexture (texture_for v))])).
  { eapply advances_trans; [apply (advances_gl activeTexture w3 Hq3 Logic.I) |].
    apply (advances_gl (bindTexture (texture_for v)) (after_gl activeTexture w3)
             Hq3 Logic.I). }
  rewrite run_read.
  assert (Hu : exists w6 evs6,
             when (bool_decide (is_Some (samplerLoc (vars w5)))) (gl_call uniform1i) w5
             = (Normal tt, w6)
             /\ advances w5 w6 evs6 /\ draws evs6 = [] /\ gpu w6 = gpu w5).
  { destruct (bool_decide (is_Some (samplerLoc (vars w5)))); cbn [when].
    - rewrite (gl_call_quiet _ w5 Hq5). eexists _, _. split; [reflexivity |].
      split; [apply (advances_gl uniform1i w5 Hq5 Logic.I) |]. split; reflexivity.
    - exists w5, []. split; [reflexivity |].
      split; [apply advances_refl, Hq5 |]. split; reflexivity. }
  destruct Hu as (w6 & evs6 & Hrun6 & Ha6 & Hd6 & Hg6).
  pose proof (adv_quiet _ _ _ Ha6) as Hq6.
  rewrite run_bind, Hrun6, run_read, run_read.
  set (off := default _ _).
  pose proof (advances_trans _ _ _ _ _ Ha2
                (advances_trans _ _ _ _ _ Ha3 (advances_trans _ _ _ _ _ Ha5 Ha6)))
    as Ha.
  assert (Hoff : off = offset_for v (vars w)).
  { unfold off, offset_for. destruct v;
      [rewrite (adv_left _ _ _ Ha) | rewrite (adv_right _ _ _ Ha)]; reflexivity. }
  assert (Himg : image_of (gpu w6) (texture_for v) = eye_image w v).
  { rewrite Hg6. transitivity (image_of (gpu w3) (texture_for v)).
    - destruct v; reflexivity.
    - rewrite Hi3. unfold eye_image. destruct v; reflexivity. }
  assert (Hvp : current_viewport (gpu w6) = viewport_of view).
  { rewrite Hg6. cbn. exact Hv3. }
  assert (Hbt : bound_texture (gpu w6) = Some (texture_for v)).
  { rewrite Hg6. reflexivity. }
  pose proof (adv_loc _ _ _ Ha) as Hloc.
  destruct (uTexOffsetLoc (vars w6)) as [loc |] eqn:Hl6.
  - rewrite bool_decide_true by eauto. cbn [when].
    rewrite run_bind, (gl_call_quiet _ w6 Hq6).
    rewrite (gl_call_quiet _ (after_gl (uniform2fv off) w6)) by exact Hq6.
    eexists _, _. split; [reflexivity |]. split.
    + eapply advances_trans; [exact Ha |].
      eapply advances_trans.
      * apply (advances_uniform2fv off w6 Hq6). rewrite Hl6. eauto.
      * apply (advances_gl drawArrays (after_gl (uniform2fv off) w6) Hq6 Logic.I).
    + rewrite !draws_app, Hd3, Hd6. cbn.
      unfold snapshot, expected_draw. cbn. fold v.
      rewrite <- Hloc, Hvp, Hbt, <- Himg, Hoff. reflexivity.
  - rewrite bool_decide_false by (intros [? ?]; discriminate). cbn [when].
    rewrite run_bind. change ((mret tt : Js unit) w6) with (Normal tt, w6).
    cbv beta iota. rewrite (gl_call_quiet _ w6 Hq6).
    eexists _, _. split; [reflexivity |]. split.
    + eapply advances_trans; [exact Ha |].
      apply (advances_gl drawArrays w6 Hq6 Logic.I).
    + rewrite !draws_app, Hd3, Hd6. cbn.
      unfold snapshot, expected_draw. cbn. fold v.
      rewrite <- Hloc, Hvp, Hbt, <- Himg.
      rewrite (adv_uniform _ _ _ Ha) by congruence. reflexivity.
Qed.

(** The passes over the views: one draw per view, in the order of the
    views. *)
Lemma views_record (vs : list XRView) (w : World) :
  quiet w ->
  exists w' evs,
    for_each vs draw_view w = (Normal tt, w')
    /\ advances w w' evs
    /\ draws evs = map (expected_draw w) vs.
Proof.
  revert w. induction vs as [| view vs IH]; intros w Hq.
  - exists w, []. split; [reflexivity |]. split; [apply advances_refl, Hq | reflexivity].
  - cbn [for_each]. rewrite run_bind.
    destruct (draw_view_record view w Hq) as (w1 & evs1 & Hrun1 & Ha1 & Hd1).
    rewrite Hrun1.
    destruct (IH w1 (adv_quiet _ _ _ Ha1)) as (w2 & evs2 & Hrun2 & Ha2 & Hd2).
    exists w2, (evs1 ++ evs2). split; [exact Hrun2 |].
    split; [eapply advances_trans; eassumption |].
    rewrite draws_app, Hd1, Hd2. cbn [map app]. f_equal.
    apply map_ext. intros view'. eapply expected_draw_advances, Ha1.
Qed.

Lemma prepares_run {B} (m : Js unit) (k : unit -> Js B) (w : World) :
  prepares m -> quiet w ->
  exists w1 evs1, (m ≫= k) w = k tt w1 /\ advances w w1 evs1 /\ draws evs1 = [].
Proof.
  intros Hm Hq. destruct (Hm w Hq) as (w1 & evs1 & Hrun & Ha & Hd).
  exists w1, evs1. rewrite run_bind, Hrun. auto.
Qed.

Lemma prepares_ret : prepares (mret tt).
Proof.
  intros w Hq. exists w, []. split; [reflexivity |].
  split; [apply advances_refl, Hq | reflexivity].
Qed.

Lemma prepares_bind (m k : Js unit) : prepares m -> prepares k -> prepares (m;; k).
Proof.
  intros Hm Hk w Hq.
  destruct (prepares_run m (fun _ => k) w Hm Hq) as (w1 & evs1 & Hrun & Ha & Hd).
  destruct (Hk w1 (adv_quiet _ _ _ Ha)) as (w2 & evs2 & Hrun2 & Ha2 & Hd2).
  exists w2, (evs1 ++ evs2). rewrite Hrun, draws_app, Hd, Hd2.
  split; [exact Hrun2 |]. split; [eapply advances_trans; eassumption | reflexivity].
Qed.

Lemma prepares_when (b : bool) (m : Js unit) : prepares m -> prepares (when b m).
Proof. intros Hm. destruct b; [exact Hm | apply prepares_ret]. Qed.

Lemma prepares_platform (ev : Event) : draws [ev] = [] -> prepares (platform ev).
Proof.
  intros Hev w Hq. eexists _, [ev].
  split; [apply platform_quiet, Hq |]. split; [apply advances_emit, Hq | exact Hev].
Qed.

Lemma prepares_gl (c : GLCall) : inert c -> c <> drawArrays -> prepares (gl_call c).
Proof.
  intros Hc Hd w Hq. eexists _, _.
  split; [apply gl_call_quiet, Hq |]. split; [apply advances_gl; assumption |].
  destruct c; try reflexivity. contradiction.
Qed.

Lemma prepares_send_pose (pose : XRViewerPose) : prepares (send_pose pose).
Proof.
  intros w Hq. unfold send_pose. rewrite run_read.
  refine (prepares_when _ _ _ w Hq). apply prepares_platform. reflexivity.
Qed.

Lemma prepares_sendControllerData (srcs : list XRInputSource) :
  prepares (sendControllerData srcs).
Proof.
  intros w Hq. unfold sendControllerData. rewrite run_read.
  destruct (channel_is_open w); cbn [negb].
  - rewrite run_read. unfold try_catch. rewrite (platform_quiet _ w (proj1 Hq)).
    eexists _, _. split; [reflexivity |].
    split; [apply advances_emit, Hq | reflexivity].
  - apply prepares_ret, Hq.
Qed.

Ltac prepare Hm Hq w1 evs1 Ha Hd :=
  lazymatch goal with
  | |- context [mbind ?k ?m ?w] =>
      let Hrun := fresh "Hrun" in
      destruct (prepares_run m k w Hm Hq) as (w1 & evs1 & Hrun & Ha & Hd);
      rewrite Hrun; clear Hrun
  end.

(** The clear and the eye passes of a frame in which nothing raises. *)
Lemma frame_rest_record (pose : XRViewerPose) (w : World) :
  quiet w ->
  is_Some (samplerLoc (vars w)) ->
  exists w' evs,
    frame_rest pose w = (Normal tt, w')
    /\ trace w' = trace w ++ evs
    /\ draws evs = map (expected_draw w) (views pose)
    /\ last evs = Some RequestAnimationFrame.
Proof.
  intros Hq Hs. unfold frame_rest. rewrite run_read.
  rewrite bool_decide_true by exact Hs. cbn [negb].
  prepare (prepares_gl bindFramebuffer Logic.I ltac:(discriminate)) Hq
    w4 evs4 Ha4 Hd4.
  prepare (prepares_gl clearColor Logic.I ltac:(discriminate)) (adv_quiet _ _ _ Ha4)
    w5 evs5 Ha5 Hd5.
  prepare (prepares_gl clear Logic.I ltac:(discriminate)) (adv_quiet _ _ _ Ha5)
    w6 evs6 Ha6 Hd6.
  prepare (prepares_gl useProgram Logic.I ltac:(discriminate)) (adv_quiet _ _ _ Ha6)
    w7 evs7 Ha7 Hd7.
  rewrite run_read.
  assert (Hattr : prepares
            (gl_call enableVertexAttribArray;; gl_call bindBuffer;;
             gl_call vertexAttribPointer)).
  { repeat (apply prepares_bind; [apply prepares_gl; [exact Logic.I | discriminate] |]).
    apply prepares_gl; [exact Logic.I | discriminate]. }
  prepare (prepares_when (0 <=? positionAttrLoc (vars w7)) _ Hattr) (adv_quiet _ _ _ Ha7)
    w8 evs8 Ha8 Hd8.
  pose proof (advances_trans _ _ _ _ _ Ha4
                (advances_trans _ _ _ _ _ Ha5
                   (advances_trans _ _ _ _ _ Ha6
                      (advances_trans _ _ _ _ _ Ha7 Ha8)))) as Hpre.
  clear Ha4 Ha5 Ha6 Ha7 Ha8.
  destruct (views_record (views pose) w8 (adv_quiet _ _ _ Hpre))
    as (w9 & evs9 & Hrun9 & Ha9 & Hd9).
  rewrite run_bind, Hrun9, (platform_quiet _ w9 (proj1 (adv_quiet _ _ _ Ha9))).
  pose proof (advances_trans _ _ _ _ _ Hpre Ha9) as Hall.
  eexists _, _. split; [reflexivity |]. split; [| split].
  - cbn. rewrite (adv_trace _ _ _ Hall), <- app_assoc. reflexivity.
  - rewrite !draws_app, Hd4, Hd5, Hd6, Hd7, Hd8, Hd9. cbn.
    rewrite app_nil_r. apply map_ext. intros view.
    eapply expected_draw_advances, Hpre.
  - apply last_snoc.
Qed.



(** *** Telemetry of a frame *)

Lemma telemetry_quiet {B} (pose : XRViewerPose) (srcs : list XRInputSource)
    (k : unit -> Js B) (w : World) :
  oracle w = [] ->
  (send_pose pose;; sendControllerData srcs ≫= k) w
  = k tt (with_trace (fun t => t ++ telemetry_of pose srcs w) w).
Proof.
  intros Ho. unfold send_pose, sendControllerData, telemetry_of.
  rewrite run_bind, run_read.
  destruct (channel_is_open w) eqn:Hopen; cbn [when negb].
  - rewrite (platform_quiet _ w Ho). cbv beta iota.
    rewrite run_bind, run_read.
    change (channel_is_open (with_trace _ w)) with (channel_is_open w).
    rewrite Hopen. cbn [negb]. rewrite run_read. unfold try_catch.
    rewrite platform_quiet by exact Ho.
    destruct w; cbn. unfold with_trace; cbn. rewrite <- app_assoc. reflexivity.
  - change ((mret tt : Js unit) w) with (Normal tt, w). cbv beta iota.
    rewrite run_bind, run_read, Hopen. cbn [negb].
    change ((mret tt : Js unit) w) with (Normal tt, w). cbv beta iota.
    destruct w; unfold with_trace; cbn. rewrite app_nil_r. reflexivity.
Qed.

Lemma draw_view_no_send (t0 : list Event) (view : XRView) :
  keeps (Inv t0 not_send (fun _ _ _ => True)) (draw_view view).
Proof.
  unfold draw_view, updateTextureFromVideo. keeps_walk; auto.
  all: try exact Logic.I.
Qed.

Lemma frame_rest_no_send (t0 : list Event) (pose : XRViewerPose) :
  keeps (Inv t0 not_send (fun _ _ _ => True)) (frame_rest pose).
Proof.
  unfold frame_rest. keeps_walk; auto; try exact Logic.I.
  apply draw_view_no_send.
Qed.

(** X3.  When no platform call raises, a frame with a viewer pose sends its
    telemetry right after reading the pose and before anything else: with
    the channel open, one pose message followed by one controller message
    built from the input sources of the frame and the clock; with the
    channel closed or absent, nothing.  Nothing else is sent in the frame. *)
Theorem frame_telemetry_first (time : Z) (frame : XRFrame) (pose : XRViewerPose)
    (w : World) :
  oracle w = [] ->
  getViewerPose frame = Some pose ->
  exists rest,
    trace (snd (onXRFrame time frame w))
    = trace w ++ GetViewerPose :: telemetry_of pose (inputSources frame) w ++ rest
    /\ Forall not_send rest.
Proof.
  intros Ho Hpose. unfold onXRFrame, try_catch.
  rewrite frame_body_split, Hpose, run_platform_quiet by exact Ho.
  rewrite telemetry_quiet by exact Ho.
  set (w3 := with_trace _ (with_trace _ w)).
  destruct (Inv_run (try_catch (frame_rest pose)
                       (fun err => logError "XR frame error" (Some err)))
              w3 not_send (fun _ _ _ => True))
    as (rest & Htr & Hall & _); [| exact Logic.I |].
  - apply keeps_catch; [apply frame_rest_no_send | intros e].
    keeps_walk. exact Logic.I.
  - exists rest. split; [| exact Hall].
    unfold try_catch in Htr. rewrite Htr. unfold w3, telemetry_of. cbn.
    rewrite <- !app_assoc. reflexivity.
Qed.

Lemma frame_telemetry_first_witness :
  exists rest,
    trace (snd (onXRFrame 0 Sample.tracked_frame
                  (Sample.running (Sample.browser Sample.payload open
                                     (Sample.playing 3) (Sample.playing 3)) [])))
    = trace (Sample.running (Sample.browser Sample.payload open
                               (Sample.playing 3) (Sample.playing 3)) [])
      ++ GetViewerPose
         :: telemetry_of Sample.pose (inputSources Sample.tracked_frame)
              (Sample.running (Sample.browser Sample.payload open
                                 (Sample.playing 3) (Sample.playing 3)) [])
         ++ rest
    /\ Forall not_send rest.
Proof.
  apply (frame_telemetry_first 0 Sample.tracked_frame Sample.pose
           (Sample.running (Sample.browser Sample.payload open
                              (Sample.playing 3) (Sample.playing 3)) [])
           eq_refl eq_refl).
Defined.

(** *** A frame before the sampler is there *)

(** X4.  While the sampler handle is missing, a frame with a viewer pose
    makes no WebGL call at all and leaves the WebGL state as it was,
    whatever the platform raises; when nothing raises it still sends its
    telemetry, sets the status to "Waiting for GL sampler" and requests the
    next frame, and does nothing else. *)
Theorem frame_without_sampler (time : Z) (frame : XRFrame) (pose : XRViewerPose)
    (w : World) :
  getViewerPose frame = Some pose ->
  samplerLoc (vars w) = None ->
  gpu (snd (onXRFrame time frame w)) = gpu w
  /\ exists evs,
       trace (snd (onXRFrame time frame w)) = trace w ++ evs
       /\ Forall no_gl evs
       /\ (oracle w = [] ->
           fst (onXRFrame time frame w) = Normal tt
           /\ evs = GetViewerPose
                    :: telemetry_of pose (inputSources frame) w
                    ++ [SetStatus "Waiting for GL sampler"; RequestAnimationFrame]).
Proof.
  intros Hpose Hs.
  set (fixed := fun (v : Vars) (_ : Env) (g : GLState) =>
                  samplerLoc v = None /\ g = gpu w).
  destruct (Inv_run (onXRFrame time frame) w no_gl fixed)
    as (evs & Htr & Hall & _ & Hg); [| split; [exact Hs | reflexivity] |].
  { unfold onXRFrame. apply keeps_catch; [| intros e; keeps_walk; exact Logic.I].
    rewrite frame_body_split, Hpose.
    apply keeps_bind; [keeps_walk; exact Logic.I | intros _].
    apply keeps_bind; [unfold send_pose; keeps_walk; exact Logic.I | intros _].
    apply keeps_bind; [unfold sendControllerData; keeps_walk; exact Logic.I | intros _].
    intros w1 HI. pose proof HI as (_ & _ & _ & Hs1 & _).
    unfold frame_rest. rewrite run_read, Hs1.
    rewrite bool_decide_false by (intros [? ?]; discriminate). cbn [negb].
    clear Hs1. revert w1 HI.
    change (keeps (Inv (trace w) no_gl fixed)
              (setStatus "Waiting for GL sampler";; platform RequestAnimationFrame)).
    keeps_walk; exact Logic.I. }
  split; [exact Hg |]. exists evs. split; [exact Htr |]. split; [exact Hall |].
  intros Ho. revert Htr. unfold onXRFrame, try_catch.
  rewrite frame_body_split, Hpose, run_platform_quiet by exact Ho.
  rewrite telemetry_quiet by exact Ho.
  unfold frame_rest. rewrite run_read. cbn [vars with_trace]. rewrite Hs.
  rewrite bool_decide_false by (intros [? ?]; discriminate). cbn [negb].
  unfold setStatus. rewrite run_emit, platform_quiet by exact Ho.
  cbn. intros Htr. split; [reflexivity |].
  rewrite <- !app_assoc in Htr. apply app_inv_head in Htr.
  rewrite <- Htr. reflexivity.
Qed.

Lemma frame_without_sampler_witness :
  let w := Sample.page (Sample.browser Sample.payload open
                          (Sample.playing 3) (Sample.playing 3)) in
  samplerLoc (vars w) = None
  /\ gpu (snd (onXRFrame 0 Sample.tracked_frame w)) = gpu w.
Proof.
  split; [reflexivity |].
  apply (frame_without_sampler 0 Sample.tracked_frame Sample.pose
           (Sample.page (Sample.browser Sample.payload open
                           (Sample.playing 3) (Sample.playing 3)))
           eq_refl eq_refl).
Defined.

(** *** The upload of one eye *)

(** X5.  [updateTextureFromVideo] never raises, whatever WebGL does, and
    writes at most the image of the texture it was given: the image of the
    other texture, the offset uniform and the viewport are as before.  When
    the video is decodable, a failing upload is reported on the console
    with the exception itself and leaves the image of the texture as it
    was: the [TypeError] of a call on a [gl] that is still [null], the
    exception [bindTexture] raises, and the exception [texImage2D] raises
    once the texture is bound. *)
Theorem updateTexture_contained (t : Texture) (v : Video) (w : World) :
  fst (updateTextureFromVideo t v w) = Normal tt
  /\ (forall t', t' <> t ->
        image_of (gpu (snd (updateTextureFromVideo t v w))) t' = image_of (gpu w) t')
  /\ uTexOffset (gpu (snd (updateTextureFromVideo t v w))) = uTexOffset (gpu w)
  /\ current_viewport (gpu (snd (updateTextureFromVideo t v w)))
     = current_viewport (gpu w)
  /\ (~ not_decodable (video (env w) v) ->
      (gl (vars w) = false ->
         exists m,
           trace (snd (updateTextureFromVideo t v w))
           = trace w ++ [ConsoleError "Error updating texture from video:"
                           (TypeError m)]
           /\ gpu (snd (updateTextureFromVideo t v w)) = gpu w)
      /\ (forall e o, gl (vars w) = true -> oracle w = Some e :: o ->
            trace (snd (updateTextureFromVideo t v w))
            = trace w ++ [ConsoleError "Error updating texture from video:" e]
            /\ gpu (snd (updateTextureFromVideo t v w)) = gpu w)
      /\ (forall e o, gl (vars w) = true -> oracle w = None :: Some e :: o ->
            trace (snd (updateTextureFromVideo t v w))
            = trace w ++ [GL (bindTexture t);
                          ConsoleError "Error updating texture from video:" e]
            /\ image_of (gpu (snd (updateTextureFromVideo t v w))) t
               = image_of (gpu w) t)).
Proof.
  destruct (not_decodable_dec (video (env w) v)) as [Hs | Hs].
  - rewrite (updateTexture_stalled t v w Hs).
    destruct (has_logged v (vars w)); repeat split; contradiction.
  - rewrite (updateTexture_decodable t v w Hs).
    destruct w as [vs en g tr o].
    destruct vs as [dc ca ctx ol or ll lr ul sl pa vc].
    unfold try_catch, gl_call, platform, emit, update, read, throw, mbind, Js_bind.
    cbn.
    split; [| split; [| split; [| split; [| intros _; split; [| split]]]]].
    + destruct ctx, o as [| [e |] [| [e' |] o]]; reflexivity.
    + intros t' Hne.
      destruct ctx, o as [| [e |] [| [e' |] o]]; cbn;
        destruct t, t'; try reflexivity; contradiction.
    + destruct ctx, o as [| [e |] [| [e' |] o]]; cbn; try reflexivity;
        destruct t; reflexivity.
    + destruct ctx, o as [| [e |] [| [e' |] o]]; cbn; try reflexivity;
        destruct t; reflexivity.
    + intros ->. eexists. split; reflexivity.
    + intros e o' -> ->. split; reflexivity.
    + intros e o' -> ->. cbn. rewrite <- app_assoc.
      split; [reflexivity |]. destruct t; reflexivity.
Qed.

(** X5 on a running session: an upload to the left texture leaves the right
    one alone, and an upload that [texImage2D] refuses is reported. *)
Lemma updateTexture_contained_witness :
  image_of (gpu (snd (updateTextureFromVideo leftTexture leftVideo
                        (Sample.running (Sample.browser Sample.payload open
                                           (Sample.playing 3) (Sample.playing 3)) []))))
    rightTexture
  = DefaultCanvas
  /\ trace (snd (updateTextureFromVideo leftTexture leftVideo
                   (Sample.running (Sample.browser Sample.payload open
                                      (Sample.playing 3) (Sample.playing 3))
                      [None; Some (DOMException "SecurityError"
                                     "The video element contains cross-origin data")])))
     = [GL (bindTexture leftTexture);
        ConsoleError "Error updating texture from video:"
          (DOMException "SecurityError"
             "The video element contains cross-origin data")].
Proof.
  split.
  - apply (proj1 (proj2 (updateTexture_contained leftTexture leftVideo
                           (Sample.running (Sample.browser Sample.payload open
                                              (Sample.playing 3) (Sample.playing 3)) [])))
             rightTexture).
    discriminate.
  - assert (Hd : ~ not_decodable (Sample.playing 3)).
    { intros [Hr | [Hw | Hh]]; [cbn in Hr; lia | discriminate | discriminate]. }
    destruct (updateTexture_contained leftTexture leftVideo
                (Sample.running (Sample.browser Sample.payload open
                                   (Sample.playing 3) (Sample.playing 3))
                   [None; Some (DOMException "SecurityError"
                                  "The video element contains cross-origin data")]))
      as (_ & _ & _ & _ & Hreport).
    destruct (Hreport Hd) as (_ & _ & Hupload).
    exact (proj1 (Hupload _ _ eq_refl eq_refl)).
Defined.

(** ** The buttons object *)

(** X6.  The buttons object of whatever controller message is sent holds
    exactly the keys written by some input source of the frame, each with
    the value [true]: "<hand>_trigger" for a pressed button 0 and
    "<hand>_grip" for a pressed button 1, under the handedness of the source
    as a string ("none" included); "plow_up" and "plow_down" for buttons 4
    and 5 of either hand; "lights" and "horn" for button 1 of the right and
    of the left hand.  A source without gamepad writes nothing, and so the
    keys do not depend on the order of the sources. *)
Theorem buttons_exactly (w : World) (srcs : list XRInputSource) :
  exists evs,
    trace (snd (sendControllerData srcs w)) = trace w ++ evs
    /\ forall m, Send (Controller m) ∈ evs ->
         (forall key,
            buttons m !! key
            = if existsb (fun src => writes src key) srcs then Some true else None)
         /\ forall srcs' now,
              srcs' ≡ₚ srcs ->
              buttons (controllerMessage_of now srcs') = buttons m.
Proof.
  destruct (sendControllerData_sends srcs w) as (evs & Htr & _ & Hm & _).
  exists evs. split; [exact Htr |]. intros m Hin. rewrite (Hm m Hin).
  assert (Hkeys : forall now l key,
            buttons (controllerMessage_of now l) !! key
            = if existsb (fun src => writes src key) l then Some true else None).
  { intros now l key. unfold controllerMessage_of.
    rewrite fold_inputSources_lookup. cbn. rewrite lookup_empty. reflexivity. }
  split; [apply Hkeys |].
  intros srcs' now Hp. apply map_eq. intros key. rewrite !Hkeys.
  assert (He : existsb (fun src => writes src key) srcs'
               = existsb (fun src => writes src key) srcs).
  { apply eq_true_iff_eq. rewrite !existsb_exists.
    split; intros (src & Hin' & Hw); exists src; (split; [| exact Hw]).
    - eapply Permutation_in; [exact Hp | exact Hin'].
    - eapply Permutation_in; [symmetry; exact Hp | exact Hin']. }
  rewrite He. reflexivity.
Qed.

(** X6 on a left controller with the grip held: the message carries "horn"
    and no "plow_up". *)
Lemma buttons_exactly_witness :
  exists m,
    Send (Controller m)
      ∈ trace (snd (sendControllerData [Sample.left_controller]
                      (Sample.running (Sample.browser Sample.payload open
                                         Sample.not_ready Sample.not_ready) [])))
    /\ buttons m !! "horn" = Some true
    /\ buttons m !! "plow_up" = None.
Proof.
  destruct (buttons_exactly
              (Sample.running (Sample.browser Sample.payload open
                                 Sample.not_ready Sample.not_ready) [])
              [Sample.left_controller]) as (evs & Htr & Hkeys).
  exists (controllerMessage_of 1700000000000 [Sample.left_controller]).
  assert (Hin : Send (Controller (controllerMessage_of 1700000000000
                                    [Sample.left_controller])) ∈ evs).
  { cbn in Htr. subst evs. apply list_elem_of_singleton. reflexivity. }
  split; [rewrite Htr; exact Hin |].
  destruct (Hkeys _ Hin) as [Hk _]. split; rewrite Hk; reflexivity.
Defined.

(** ** Failing transmissions *)

Lemma platform_ok (ev : Event) (w : World) (o : list (option Exn)) :
  oracle w = None :: o ->
  platform ev w = (Normal tt, with_trace (fun t => t ++ [ev]) (with_oracle o w)).
Proof. intros Ho. unfold platform. rewrite Ho. reflexivity. Qed.

Lemma platform_raises (ev : Event) (w : World) (e : Exn) (o : list (option Exn)) :
  oracle w = Some e :: o -> platform ev w = (Thrown e, with_oracle o w).
Proof. intros Ho. unfold platform. rewrite Ho. reflexivity. Qed.

(** X7.  The two transmissions of a frame fail differently.  When sending
    the pose raises, the exception leaves the frame body: the frame ends
    with the log "XR frame error", no controller message is sent and nothing
    is drawn.  When sending the controller message raises, the failure is
    logged to the overlay as "Controller send error: " followed by the
    message of the exception, and the frame goes on: every view is drawn and
    the next frame is requested. *)
Theorem telemetry_send_failures (time : Z) (frame : XRFrame) (pose : XRViewerPose)
    (w : World) (e : Exn) :
  getViewerPose frame = Some pose ->
  channel_is_open w = true ->
  (forall o, oracle w = None :: Some e :: o ->
     fst (onXRFrame time frame w) = Normal tt
     /\ trace (snd (onXRFrame time frame w))
        = trace w ++ [GetViewerPose; LogError "XR frame error" (Some e)])
  /\ (oracle w = [None; None; Some e] ->
      gl (vars w) = true ->
      is_Some (samplerLoc (vars w)) ->
      exists w' evs,
        onXRFrame time frame w = (Normal tt, w')
        /\ trace w'
           = trace w
             ++ [GetViewerPose;
                 Send (PoseMessage "pose" (position pose) (orientation pose));
                 LogToOverlay ("Controller send error: " +:+ exn_message e)]
             ++ evs
        /\ draws evs = map (expected_draw w) (views pose)
        /\ last evs = Some RequestAnimationFrame).
Proof.
  intros Hpose Hopen. split.
  - intros o Ho. unfold onXRFrame, try_catch.
    rewrite frame_body_split, Hpose, run_bind, (platform_ok _ w _ Ho). cbv beta iota.
    unfold send_pose. rewrite run_bind, run_read.
    change (channel_is_open (with_trace _ (with_oracle _ w))) with (channel_is_open w).
    rewrite Hopen. cbn [when].
    rewrite (platform_raises _ _ e o) by reflexivity.
    cbn. rewrite <- app_assoc. split; reflexivity.
  - intros Ho Hgl Hs. unfold onXRFrame, try_catch.
    rewrite frame_body_split, Hpose, run_bind, (platform_ok _ w _ Ho). cbv beta iota.
    unfold send_pose. rewrite run_bind, run_read.
    change (channel_is_open (with_trace _ (with_oracle _ w))) with (channel_is_open w).
    rewrite Hopen. cbn [when].
    rewrite (platform_ok _ _ [Some e]) by reflexivity. cbv beta iota.
    unfold sendControllerData. rewrite run_bind, run_read.
    change (channel_is_open (with_trace _ (with_oracle _ (with_trace _ (with_oracle _ w)))))
      with (channel_is_open w).
    rewrite Hopen. cbn [negb]. rewrite run_read. unfold try_catch.
    rewrite (platform_raises _ _ e []) by reflexivity.
    unfold logToOverlay, emit, update. cbv beta iota.
    set (w3 := with_trace _ (with_oracle [] _)).
    destruct (frame_rest_record pose w3) as (w' & evs & Hrun & Htr & Hd & Hlast).
    { split; [reflexivity | exact Hgl]. }
    { exact Hs. }
    rewrite Hrun. exists w', evs. split; [reflexivity |].
    split; [| split; [exact Hd | exact Hlast]].
    rewrite Htr. unfold w3. cbn. rewrite <- !app_assoc. reflexivity.
Qed.

(** X7 on a running session: the same exception raised by the first and by
    the second transmission of a frame. *)
Lemma telemetry_send_failures_witness :
  trace (snd (onXRFrame 0 Sample.tracked_frame
                (Sample.running (Sample.browser Sample.payload open
                                   (Sample.playing 3) (Sample.playing 3))
                   [None; Some (DOMException "NetworkError" "Could not send data")])))
  = [GetViewerPose;
     LogError "XR frame error"
       (Some (DOMException "NetworkError" "Could not send data"))]
  /\ exists evs,
       trace (snd (onXRFrame 0 Sample.tracked_frame
                     (Sample.running (Sample.browser Sample.payload open
                                        (Sample.playing 3) (Sample.playing 3))
                        [None; None;
                         Some (DOMException "NetworkError" "Could not send data")])))
       = [GetViewerPose;
          Send (PoseMessage "pose" (position Sample.pose) (orientation Sample.pose));
          LogToOverlay "Controller send error: Could not send data"] ++ evs
       /\ last evs = Some RequestAnimationFrame.
Proof.
  split.
  - apply (proj1 (telemetry_send_failures 0 Sample.tracked_frame Sample.pose
                    (Sample.running (Sample.browser Sample.payload open
                                       (Sample.playing 3) (Sample.playing 3))
                       [None; Some (DOMException "NetworkError" "Could not send data")])
                    (DOMException "NetworkError" "Could not send data")
                    eq_refl eq_refl) [] eq_refl).
  - destruct (proj2 (telemetry_send_failures 0 Sample.tracked_frame Sample.pose
                       (Sample.running (Sample.browser Sample.payload open
                                          (Sample.playing 3) (Sample.playing 3))
                          [None; None;
                           Some (DOMException "NetworkError" "Could not send data")])
                       (DOMException "NetworkError" "Could not send data")
                       eq_refl eq_refl) eq_refl eq_refl (ex_intro _ _ eq_refl))
      as (w' & evs & Hrun & Htr & _ & Hlast).
    exists evs. rewrite Hrun. split; [exact Htr | exact Hlast].
Defined.

(** ** Start-up *)

(** *** The calibration loader *)

Ltac fail_case :=
  cbn; unfold logError, emit, update, throw, mbind, Js_bind; cbn;
  split; [reflexivity | left; reflexivity].

(** X8.  [loadCalibration] logs each outcome once.  When it returns, the
    response to the request of "/calibration" was OK and its body parsed to
    a payload that passes validation: this payload is what [calib] holds
    and what is written to the overlay, after the status
    "Calibration loaded".  When it fails it has logged "Failed to load calibration" with
    the error it then raises, and nothing else; [calib] is as before unless
    the response was OK and parsed, in which case the payload that failed
    validation stays stored in [calib]. *)
Theorem loadCalibration_logs (w : World) :
  match fst (loadCalibration w) with
  | Normal _ =>
      exists res body,
        fetch_result (env w) "/calibration" = inr res
        /\ ok res = true
        /\ json_body res = inr body
        /\ passes_validation body
        /\ calib (vars (snd (loadCalibration w))) = Some body
        /\ trace (snd (loadCalibration w))
           = trace w ++ [SetStatus "Calibration loaded";
                         LogToOverlay ("Calibration: "
                                       +:+ JSON_stringify (env w) body)]
  | Thrown e =>
      trace (snd (loadCalibration w))
      = trace w ++ [LogError "Failed to load calibration" (Some e)]
      /\ (calib (vars (snd (loadCalibration w))) = calib (vars w)
          \/ exists res body,
               fetch_result (env w) "/calibration" = inr res
               /\ ok res = true
               /\ json_body res = inr body
               /\ ~ passes_validation body
               /\ e = Error "Calibration payload missing required fields"
               /\ calib (vars (snd (loadCalibration w))) = Some body)
  end.
Proof.
  unfold loadCalibration, try_catch, fetch.
  rewrite run_bind, run_read.
  destruct (fetch_result (env w) "/calibration") as [e | res] eqn:Hf.
  { fail_case. }
  cbn [mret Js_ret]. destruct (ok res) eqn:Hok; cbn [negb].
  2:{ fail_case. }
  unfold json_of. destruct (json_body res) as [e | body] eqn:Hb.
  { fail_case. }
  rewrite run_bind. cbn [mret Js_ret]. rewrite run_update, run_read.
  cbn [vars with_vars calib set_calib mbind option_bind].
  destruct (negb (truthy (Some body)) || _ || _ || _) eqn:Hv.
  - assert (Hnot : ~ passes_validation body).
    { intros Hp. apply passes_validation_test in Hp. congruence. }
    cbn. unfold logError, emit, update, throw, mbind, Js_bind. cbn.
    split; [reflexivity |]. right. exists res, body. auto 10.
  - apply passes_validation_test in Hv.
    cbn. unfold setStatus, logToOverlay, emit, update, read, mbind, Js_bind. cbn.
    exists res, body. do 4 (split; [assumption || reflexivity |]).
    split; [reflexivity |]. rewrite <- app_assoc. reflexivity.
Qed.

(** X8 on the sample page: the payload of the response is stored and
    written to the overlay. *)
Lemma loadCalibration_logs_witness :
  exists res body,
    fetch_result (Sample.browser Sample.payload connecting
                    Sample.not_ready Sample.not_ready) "/calibration" = inr res
    /\ ok res = true
    /\ json_body res = inr body
    /\ passes_validation body
    /\ calib (vars (snd (loadCalibration
                           (Sample.page (Sample.browser Sample.payload connecting
                                           Sample.not_ready Sample.not_ready)))))
       = Some body
    /\ trace (snd (loadCalibration
                     (Sample.page (Sample.browser Sample.payload connecting
                                     Sample.not_ready Sample.not_ready))))
       = [] ++ [SetStatus "Calibration loaded";
                LogToOverlay
                  ("Calibration: "
                   +:+ JSON_stringify (Sample.browser Sample.payload connecting
                                         Sample.not_ready Sample.not_ready) body)].
Proof.
  exact (loadCalibration_logs
           (Sample.page (Sample.browser Sample.payload connecting
                           Sample.not_ready Sample.not_ready))).
Defined.

(** *** The render loop starts last *)

Lemma triple_weaken {A} (P P' : World -> Prop) (m : Js A)
    (Q Q' : A -> World -> Prop) (E E' : Exn -> World -> Prop) :
  (forall w, P' w -> P w) ->
  (forall a w, Q a w -> Q' a w) ->
  (forall e w, E e w -> E' e w) ->
  triple P m Q E -> triple P' m Q' E'.
Proof.
  intros HP HQ HE Hm w Hw. specialize (Hm w (HP w Hw)).
  destruct (m w) as [[a | e] w']; [apply HQ | apply HE]; exact Hm.
Qed.

Lemma Inv_weaken (t0 : list Event) (allowed : Event -> Prop)
    (fixed fixed' : Vars -> Env -> GLState -> Prop) (w : World) :
  (forall v e g, fixed v e g -> fixed' v e g) ->
  Inv t0 allowed fixed w -> Inv t0 allowed fixed' w.
Proof. intros Hf (evs & Htr & Hall & Hfix). exists evs. auto. Qed.

Section StartupSteps.
Variables (t0 : list Event) (allowed : Event -> Prop)
  (fixed : Vars -> Env -> GLState -> Prop).
Hypothesis allowed_startup : forall ev, startup_event ev -> allowed ev.

Lemma startWebRTC_keeps :
  (forall v e g c, fixed v e g -> fixed (set_dataChannel c v) e g) ->
  (forall v e g n, fixed v e g -> fixed (set_videoCount n v) e g) ->
  keeps (Inv t0 allowed fixed) startWebRTC.
Proof.
  intros Hdc Hvc. unfold startWebRTC.
  keeps_walk; try (apply allowed_startup; exact Logic.I); auto.
Qed.

Lemma loadCalibration_keeps :
  (forall v e g c, fixed v e g -> fixed (set_calib c v) e g) ->
  keeps (Inv t0 allowed fixed) loadCalibration.
Proof.
  intros Hc. unfold loadCalibration.
  keeps_walk; try (apply allowed_startup; exact Logic.I); auto.
Qed.

Lemma perEyeTexOffset_call_keeps K width height b c eye :
  keeps (Inv t0 allowed fixed) (perEyeTexOffset_call K width height b c eye).
Proof.
  unfold perEyeTexOffset_call, index, ToNumber.
  keeps_walk; try (apply allowed_startup; exact Logic.I); auto.
Qed.

Lemma log_convergence_keeps calib :
  keeps (Inv t0 allowed fixed) (log_convergence calib).
Proof.
  unfold log_convergence, index, ToNumber, toFixed1.
  keeps_walk; try (apply allowed_startup; exact Logic.I); auto.
Qed.
End StartupSteps.

Lemma no_raf_startup (ev : Event) : startup_event ev -> no_raf ev.
Proof. destruct ev; intros H; try destruct H; exact Logic.I. Qed.

Lemma initGLResources_no_raf (t0 : list Event) :
  keeps (Inv t0 no_raf (fun _ _ _ => True)) initGLResources.
Proof.
  unfold initGLResources, createShader, init_texture.
  keeps_walk; try exact Logic.I; auto.
Qed.

Lemma loop_ready_no_raf (t0 suffix : list Event) (w : World) :
  Forall no_raf suffix -> loop_ready t0 suffix w ->
  Inv t0 no_raf (fun _ _ _ => True) w.
Proof.
  intros Hs (pre & Htr & Hall & _). exists (pre ++ suffix).
  split; [exact Htr |]. split; [apply Forall_app; auto | exact Logic.I].
Qed.

Lemma platform_appends (t0 suffix : list Event) (ev : Event) :
  Forall no_raf suffix ->
  triple (loop_ready t0 suffix) (platform ev)
    (fun _ => loop_ready t0 (suffix ++ [ev]))
    (fun _ => Inv t0 no_raf (fun _ _ _ => True)).
Proof.
  intros Hs w Hw. pose proof (loop_ready_no_raf _ _ _ Hs Hw) as Hinv.
  destruct Hw as (pre & Htr & Hall & Hoff). unfold platform.
  destruct (oracle w) as [| [e |] o]; cbn.
  - exists pre. cbn. rewrite Htr, <- !app_assoc. auto.
  - destruct Hinv as (evs & Htr' & Hall' & _). exists evs. auto.
  - exists pre. cbn. rewrite Htr, <- !app_assoc. auto.
Qed.

(** X9.  [startXR] requests the first animation frame at most once, and
    only as its very last step, right after the five calls that set the XR
    session up, and with both texture offsets stored: the render loop never
    starts on a path on which start-up stopped early or raised. *)
Theorem startXR_starts_loop_last (w : World) :
  exists evs,
    trace (snd (startXR w)) = trace w ++ evs
    /\ (Forall no_raf evs
        \/ (fst (startXR w) = Normal tt
            /\ offsets_stored (vars (snd (startXR w)))
            /\ exists pre,
                 evs = pre ++ session_setup ++ [RequestAnimationFrame]
                 /\ Forall no_raf pre)).
Proof.
  set (P0 := Inv (trace w) no_raf (fun _ _ _ => True)).
  set (P1 := Inv (trace w) no_raf (fun v _ _ => is_Some (texOffsetLeft v))).
  set (P2 := Inv (trace w) no_raf (fun v _ _ => offsets_stored v)).
  set (Good := loop_ready (trace w) (session_setup ++ [RequestAnimationFrame])).
  assert (H10 : forall x, P1 x -> P0 x) by (intros x; apply Inv_weaken; auto).
  assert (H20 : forall x, P2 x -> P0 x) by (intros x; apply Inv_weaken; auto).
  assert (Hstop : forall m : Js unit, keeps P0 m ->
            triple P0 m (fun _ x => P0 x \/ Good x) (fun _ => P0)).
  { intros m. apply triple_weaken; auto. }
  assert (Hmain : triple P0 startXR (fun _ x => P0 x \/ Good x) (fun _ => P0)).
  { unfold startXR.
    eapply triple_bind; [apply keeps_read | intros xr].
    destruct (negb xr); [apply Hstop; unfold P0; keeps_walk; exact Logic.I |].
    eapply triple_bind with (R := fun _ => P0).
    { apply keeps_catch.
      - apply keeps_bind; [apply startWebRTC_keeps; auto using no_raf_startup | intros _].
        apply keeps_bind; [apply loadCalibration_keeps; auto using no_raf_startup | intros _].
        apply keeps_ret.
      - intros err. unfold P0. keeps_walk. exact Logic.I. }
    intros started. destruct (negb started); [apply Hstop, keeps_ret |].
    eapply triple_bind; [apply keeps_read | intros ctx].
    eapply triple_bind with (R := fun _ => P0).
    { destruct (negb ctx); [| apply keeps_ret].
      apply keeps_catch.
      - apply keeps_bind; [apply initGLResources_no_raf | intros _]. apply keeps_ret.
      - intros err. unfold P0. keeps_walk. exact Logic.I. }
    intros ready. destruct (negb ready); [apply Hstop, keeps_ret |].
    cbv zeta.
    eapply triple_bind; [apply keeps_read | intros calib].
    eapply triple_bind; [apply perEyeTexOffset_call_keeps, no_raf_startup | intros left].
    eapply triple_bind with (R := fun _ => P1).
    { intros x (evs & Htr & Hall & _). exists evs. cbn. eauto. }
    intros _.
    eapply triple_bind with (R := fun _ => P1).
    { apply (triple_weaken P1 P1 _ (fun _ => P1) (fun _ => P1) (fun _ => P1)
               (fun _ => P0)); auto.
      apply perEyeTexOffset_call_keeps, no_raf_startup. }
    intros right.
    eapply triple_bind with (R := fun _ => P2).
    { intros x (evs & Htr & Hall & Hl). exists evs. cbn.
      split; [exact Htr |]. split; [exact Hall |]. split; [exact Hl | eauto]. }
    intros _.
    eapply triple_bind with (R := fun _ => loop_ready (trace w) []).
    { apply (triple_weaken P2 P2 _ (fun _ => P2) (fun _ => loop_ready (trace w) [])
               (fun _ => P2) (fun _ => P0)); auto.
      - intros _ x (evs & Htr & Hall & Hoff). exists evs.
        rewrite app_nil_r. auto.
      - apply log_convergence_keeps, no_raf_startup. }
    intros _.
    assert (Hsetup : forall k, Forall no_raf (take k session_setup)).
    { intros k. apply Forall_take. repeat constructor. }
    eapply triple_bind; [apply (platform_appends _ _ _ (Hsetup 0%nat)) | intros ?].
    eapply triple_bind; [apply (platform_appends _ _ _ (Hsetup 1%nat)) | intros ?].
    eapply triple_bind; [apply (platform_appends _ _ _ (Hsetup 2%nat)) | intros ?].
    eapply triple_bind; [apply (platform_appends _ _ _ (Hsetup 3%nat)) | intros ?].
    eapply triple_bind; [apply (platform_appends _ _ _ (Hsetup 4%nat)) | intros ?].
    refine (triple_weaken _ _ _ _ _ _ _ _ _ _
              (platform_appends (trace w) _ RequestAnimationFrame (Hsetup 5%nat))).
    - intros x Hx. exact Hx.
    - intros _ x Hx. right. exact Hx.
    - intros _ x Hx. exact Hx. }
  specialize (Hmain w (Inv_start _ _ w Logic.I)).
  destruct (startXR w) as [[[] | e] w'] eqn:Hrun; cbn [fst snd].
  - destruct Hmain as [(evs & Htr & Hall & _) | (pre & Htr & Hall & Hoff)].
    + exists evs. auto.
    + exists (pre ++ session_setup ++ [RequestAnimationFrame]).
      split; [exact Htr |]. right. split; [reflexivity |]. split; [exact Hoff |].
      exists pre. auto.
  - destruct Hmain as (evs & Htr & Hall & _). exists evs. auto.
Qed.

(** *** A start-up that goes through *)

Ltac quiet_step Ho :=
  first [ rewrite run_read
        | rewrite run_update
        | rewrite run_emit
        | rewrite run_platform_quiet by exact Ho
        | rewrite platform_quiet by exact Ho ].

Lemma startWebRTC_quiet (w : World) :
  oracle w = [] -> answers (env w) ->
  exists w',
    startWebRTC w = (Normal tt, w')
    /\ oracle w' = [] /\ env w' = env w /\ gpu w' = gpu w
    /\ vars w' = set_videoCount 0 (set_dataChannel (Some poseData) (vars w))
    /\ trace w' = trace w ++ negotiation.
Proof.
  intros Ho (res & answer & Hf & Hb & Hnull & Herr).
  unfold startWebRTC, setStatus, fetch, json_of.
  repeat quiet_step Ho.
  set (w9 := with_trace _ _).
  assert (Ho9 : oracle w9 = []) by exact Ho.
  rewrite run_bind, run_read.
  change (fetch_result (env w9) "/offer") with (fetch_result (env w) "/offer").
  rewrite Hf. cbn [mret Js_ret]. rewrite run_bind, Hb. cbn [mret Js_ret].
  assert (Hrun : match answer with
                 | JNull => throw (TypeError "Cannot read properties of null")
                 | _ =>
                     if truthy (field answer "error")
                     then
                       message ← ToString (field answer "error");
                       throw (Error message)
                     else platform (RTC setRemoteDescription)
                 end w9
                 = (Normal tt, with_trace (fun t => t ++ [RTC setRemoteDescription]) w9)).
  { destruct answer; try contradiction; rewrite Herr; apply platform_quiet, Ho9. }
  rewrite Hrun. eexists. split; [reflexivity |].
  unfold w9, negotiation. cbn. rewrite <- !app_assoc. repeat split. exact Ho.
Qed.

Lemma field_object (body : json) (name : string) (v : json) :
  field body name = Some v -> truthy (Some body) = true.
Proof. destruct body; try discriminate. reflexivity. Qed.

Lemma matrix_truthy (K : Mat3 spec_float) : truthy (Some (json_of_matrix K)) = true.
Proof. destruct K as [[r0 r1] r2]. reflexivity. Qed.

Lemma serves_accepts (e : Env) (body : json) (KL KR : Mat3 spec_float) (b : spec_float) :
  serves e body KL KR b -> passes_validation body.
Proof.
  intros (_ & Hl & Hr & Hb). unfold passes_validation.
  rewrite Hl, Hr, Hb, !matrix_truthy, (field_object _ _ _ Hb). auto.
Qed.

Lemma loadCalibration_quiet (w : World) (body : json) (KL KR : Mat3 spec_float)
    (b : spec_float) :
  serves (env w) body KL KR b ->
  exists w',
    loadCalibration w = (Normal tt, w')
    /\ oracle w' = oracle w /\ env w' = env w /\ gpu w' = gpu w
    /\ vars w' = set_calib (Some body) (vars w)
    /\ trace w'
       = trace w ++ [SetStatus "Calibration loaded";
                     LogToOverlay ("Calibration: " +:+ JSON_stringify (env w) body)].
Proof.
  intros Hserves. pose proof (serves_accepts _ _ _ _ _ Hserves) as Hp.
  destruct Hserves as ((res & Hf & Hok & Hb) & _).
  apply passes_validation_test in Hp.
  unfold loadCalibration, try_catch, fetch, json_of.
  rewrite run_bind, run_read, Hf. cbn [mret Js_ret]. rewrite Hok. cbn [negb].
  rewrite run_bind, Hb. cbn [mret Js_ret]. rewrite run_update, run_read.
  cbn [vars with_vars calib set_calib mbind option_bind]. rewrite Hp.
  unfold setStatus, logToOverlay. rewrite run_emit, run_read.
  eexists. split; [reflexivity |]. cbn. rewrite <- app_assoc. repeat split.
Qed.


Lemma env_after_gl (c : GLCall) (w : World) : env (after_gl c w) = env w.
Proof. reflexivity. Qed.

Lemma env_with_vars (f : Vars -> Vars) (w : World) : env (with_vars f w) = env w.
Proof. reflexivity. Qed.

Lemma trace_after_gl (c : GLCall) (w : World) :
  trace (after_gl c w) = trace w ++ [gl_event c (gpu w)].
Proof. reflexivity. Qed.

Lemma trace_with_trace (f : list Event -> list Event) (w : World) :
  trace (with_trace f w) = f (trace w).
Proof. reflexivity. Qed.

Lemma trace_with_vars (f : Vars -> Vars) (w : World) : trace (with_vars f w) = trace w.
Proof. reflexivity. Qed.

Lemma gpu_after_gl (c : GLCall) (w : World) : gpu (after_gl c w) = gl_effect c (gpu w).
Proof. reflexivity. Qed.

Lemma gpu_with_trace (f : list Event -> list Event) (w : World) :
  gpu (with_trace f w) = gpu w.
Proof. reflexivity. Qed.

Lemma gpu_with_vars (f : Vars -> Vars) (w : World) : gpu (with_vars f w) = gpu w.
Proof. reflexivity. Qed.

Lemma run_ret {A} (a : A) (w : World) : (mret a : Js A) w = (Normal a, w).
Proof. reflexivity. Qed.

Lemma emit_run (ev : Event) (w : World) :
  emit ev w = (Normal tt, with_trace (fun t => t ++ [ev]) w).
Proof. reflexivity. Qed.

Ltac gl_step Hq :=
  first [ rewrite run_read
        | rewrite run_update
        | rewrite run_emit
        | rewrite emit_run
        | rewrite gl_call_quiet by exact Hq
        | rewrite run_ret
        | rewrite run_bind ];
  cbv beta iota.

Lemma initGLResources_quiet (w : World) :
  oracle w = [] -> gl_available (env w) ->
  exists w' evs,
    initGLResources w = (Normal tt, w')
    /\ trace w' = trace w ++ evs
    /\ Forall init_event evs
    /\ oracle w' = [] /\ env w' = env w
    /\ vars w' = set_gl_handles (gl_handles (env w)) (set_gl true (vars w))
    /\ image_left (gpu w') = DefaultCanvas
    /\ image_right (gpu w') = DefaultCanvas
    /\ uTexOffset (gpu w') = uTexOffset (gpu w)
    /\ current_viewport (gpu w') = current_viewport (gpu w).
Proof.
  intros Ho (Hctx & Hcomp & Hlink).
  unfold initGLResources, createShader, init_texture.
  rewrite run_read, Hctx, run_update. set (w1 := with_vars (set_gl true) w).
  assert (Hq : quiet w1) by (split; [exact Ho | reflexivity]).
  repeat gl_step Hq.
  rewrite !env_after_gl. change (env w1) with (env w). rewrite Hcomp. cbn [negb].
  repeat gl_step Hq.
  rewrite !env_after_gl. change (env w1) with (env w). rewrite Hcomp. cbn [negb].
  repeat gl_step Hq.
  rewrite !env_after_gl. change (env w1) with (env w). rewrite Hlink. cbn [negb].
  repeat gl_step Hq.
  rewrite !env_after_gl. change (env w1) with (env w).
  destruct (0 <=? h_positionAttrLoc (gl_handles (env w))); repeat gl_step Hq;
    (eexists _, _; split; [reflexivity |]; split;
     [unfold w1;
      repeat (rewrite trace_after_gl || rewrite trace_with_trace
              || rewrite trace_with_vars);
      cbn [gl_event]; rewrite <- !app_assoc; reflexivity |]);
    (split; [repeat constructor |]);
    (split; [exact Ho |]);
    (split; [reflexivity |]);
    (split; [reflexivity |]);
    unfold w1;
    repeat (rewrite gpu_after_gl || rewrite gpu_with_trace || rewrite gpu_with_vars);
    cbn [gl_effect set_image image_left image_right bound_texture uTexOffset
         current_viewport];
    repeat split.
Qed.
Lemma log_convergence_quiet (body : json) (KL : Mat3 spec_float) (b : spec_float)
    (w : World) :
  field body "k_left" = Some (json_of_matrix KL) ->
  field body "baseline_m" = Some (JNum b) ->
  exists line,
    log_convergence (Some body) w
    = (Normal tt, with_trace (fun t => t ++ [LogToOverlay line]) w).
Proof.
  intros Hl Hb. destruct KL as [[[[k00 k01] k02] r1] r2].
  unfold log_convergence. cbn [mbind option_bind]. rewrite Hl, Hb.
  cbv beta iota zeta
      delta [index ToNumber toFixed1 logToOverlay emit update read mbind Js_bind
             mret Js_ret json_of_matrix json_of_row lookup list_lookup].
  eexists. reflexivity.
Qed.


(** X10.  When the browser supports WebXR, the server answers the offer and
    serves a calibration with two matrices of numbers and a numeric
    baseline, WebGL is ready or can be initialised, and no platform call
    raises, [startXR] returns having stored, for each eye, the offset
    [perEyeTexOffset] computes from the matrix of that eye, a frame of
    1280 by 720, the baseline of the payload and a convergence distance of
    1.2 m; the payload is in [calib], the channel "poseData" in
    [dataChannel], and the first animation frame is requested last. *)
Theorem startXR_stores_offsets (w : World) (body : json) (KL KR : Mat3 spec_float)
    (b : spec_float) :
  oracle w = [] ->
  navigator_xr (env w) = true ->
  answers (env w) ->
  serves (env w) body KL KR b ->
  gl (vars w) = true \/ gl_available (env w) ->
  exists w' evs,
    startXR w = (Normal tt, w')
    /\ trace w' = trace w ++ negotiation ++ evs
    /\ last evs = Some RequestAnimationFrame
    /\ texOffsetLeft (vars w')
       = Some (perEyeTexOffset KL (F64.of_Z 1280) (F64.of_Z 720) b
                 (F64.decimal 12 1) "left")
    /\ texOffsetRight (vars w')
       = Some (perEyeTexOffset KR (F64.of_Z 1280) (F64.of_Z 720) b
                 (F64.decimal 12 1) "right")
    /\ calib (vars w') = Some body
    /\ dataChannel (vars w') = Some poseData
    /\ gl (vars w') = true.
Proof.
  intros Ho Hxr Hans Hserves Hgl.
  destruct (startWebRTC_quiet w Ho Hans) as (w1 & Hrun1 & Ho1 & He1 & Hg1 & Hv1 & Ht1).
  rewrite <- He1 in Hserves.
  destruct (loadCalibration_quiet w1 body KL KR b Hserves)
    as (w2 & Hrun2 & Ho2 & He2 & Hg2 & Hv2 & Ht2).
  rewrite Ho1 in Ho2.
  destruct Hserves as (_ & Hl & Hr & Hb).
  unfold startXR. rewrite run_read, Hxr. cbn [negb].
  rewrite run_bind. unfold try_catch at 1.
  rewrite run_bind, Hrun1. cbv beta iota. rewrite run_bind, Hrun2. cbv beta iota.
  rewrite run_ret. cbv beta iota. cbn [negb]. rewrite run_read.
  set (init := if negb (gl (vars w2)) then _ else _).
  assert (Hinit : exists w3 evs3,
             init w2 = (Normal true, w3)
             /\ trace w3 = trace w2 ++ evs3
             /\ oracle w3 = [] /\ gl (vars w3) = true
             /\ calib (vars w3) = Some body
             /\ dataChannel (vars w3) = Some poseData).
  { unfold init. destruct (gl (vars w2)) eqn:Hctx; cbn [negb].
    - exists w2, []. rewrite app_nil_r.
      split; [reflexivity |]. split; [reflexivity |]. split; [exact Ho2 |].
      split; [exact Hctx |]. rewrite Hv2, Hv1. split; reflexivity.
    - destruct Hgl as [Hgl | Hgl].
      { rewrite Hv2, Hv1 in Hctx. cbn in Hctx. congruence. }
      rewrite <- He1, <- He2 in Hgl.
      destruct (initGLResources_quiet w2 Ho2 Hgl)
        as (w3 & evs3 & Hrun3 & Ht3 & _ & Ho3 & _ & Hv3 & _).
      unfold try_catch. rewrite run_bind, Hrun3. cbv beta iota. rewrite run_ret.
      exists w3, evs3.
      split; [reflexivity |]. split; [exact Ht3 |]. split; [exact Ho3 |].
      rewrite Hv3, Hv2, Hv1. repeat split. }
  destruct Hinit as (w3 & evs3 & Hrun3 & Ht3 & Ho3 & Hgl3 & Hc3 & Hd3).
  rewrite run_bind, Hrun3. cbv beta iota. cbn [negb]. cbv zeta.
  rewrite run_read, Hc3. cbn [mbind option_bind]. rewrite Hl, Hr, Hb.
  rewrite run_bind, perEyeTexOffset_call_matrix. cbv beta iota. rewrite run_update.
  rewrite run_bind, perEyeTexOffset_call_matrix. cbv beta iota. rewrite run_update.
  set (w5 := with_vars _ (with_trace _ (with_vars _ (with_trace _ w3)))).
  destruct (log_convergence_quiet body KL b w5 Hl Hb) as (line & Hrun5).
  rewrite run_bind, Hrun5. cbv beta iota.
  assert (Ho5 : oracle (with_trace (fun t => t ++ [LogToOverlay line]) w5) = [])
    by exact Ho3.
  do 5 (rewrite run_platform_quiet by exact Ho5).
  rewrite platform_quiet by exact Ho5.
  eexists _, _. split; [reflexivity |]. split; [| split].
  - unfold w5. cbn [trace with_trace with_vars].
    rewrite Ht3, Ht2, Ht1, <- !app_assoc. reflexivity.
  - rewrite !last_app. reflexivity.
  - unfold w5.
    cbn [vars with_trace with_vars set_texOffsetLeft set_texOffsetRight
         texOffsetLeft texOffsetRight calib dataChannel gl].
    repeat split; assumption.
Qed.

(** X10 on the sample page: both offsets are those of the matrix with
    [cx = 640]. *)
Lemma startXR_stores_offsets_witness :
  exists w',
    fst (startXR (Sample.page (Sample.browser Sample.payload connecting
                                 Sample.not_ready Sample.not_ready)))
    = Normal tt
    /\ snd (startXR (Sample.page (Sample.browser Sample.payload connecting
                                    Sample.not_ready Sample.not_ready))) = w'
    /\ texOffsetLeft (vars w')
       = Some (perEyeTexOffset Sample.K640 (F64.of_Z 1280) (F64.of_Z 720)
                 Sample.baseline_m (F64.decimal 12 1) "left").
Proof.
  destruct (startXR_stores_offsets
              (Sample.page (Sample.browser Sample.payload connecting
                              Sample.not_ready Sample.not_ready))
              Sample.payload Sample.K640 Sample.K640 Sample.baseline_m)
    as (w' & evs & Hrun & _ & _ & Hleft & _).
  - reflexivity.
  - reflexivity.
  - eexists _, _. split; [reflexivity |]. split; [reflexivity |].
    split; [discriminate | reflexivity].
  - split; [eexists; repeat split |]. repeat split.
  - right. repeat split.
  - exists w'. rewrite Hrun. repeat split. exact Hleft.
Defined.

(** *** WebGL initialisation *)

Lemma gl_call_null (c : GLCall) (w : World) :
  gl (vars w) = false ->
  gl_call c w = (Thrown (TypeError "Cannot read properties of null"), w).
Proof. intros Hgl. unfold gl_call. rewrite run_read, Hgl. reflexivity. Qed.

Lemma throw_run {A} (e : Exn) (w : World) : throw (A := A) e w = (Thrown e, w).
Proof. reflexivity. Qed.

Ltac init_step Hq :=
  first [ gl_step Hq | rewrite throw_run; cbv beta iota ].

Ltac init_env w w1 :=
  rewrite !env_after_gl; change (env w1) with (env w).

Ltac init_trace w1 :=
  unfold w1;
  repeat (rewrite trace_after_gl || rewrite trace_with_trace || rewrite trace_with_vars);
  cbn [gl_event]; rewrite <- ?app_assoc.

(** X11.  [initGLResources] assigns [gl] before anything can fail.  Without
    a context the first WebGL call raises a [TypeError] and [gl] stays
    unset.  With a context, and no call raising: when the vertex shader does
    not compile it deletes the shader and raises an error carrying the info
    log, or "Shader compile failed" when the log is empty; when the program
    does not link it raises the info log or "Program link failed"; in both
    cases [gl] is set, the three handles are as before and no texture was
    touched.  When both succeed it returns with the handles of the linked
    program stored and both textures holding the default image, without
    having drawn. *)
Theorem initGLResources_outcome (w : World) :
  (getContext (env w) = false ->
     exists m,
       initGLResources w = (Thrown (TypeError m), with_vars (set_gl false) w))
  /\ (getContext (env w) = true -> oracle w = [] ->
      let info := info_log (env w) in
      let w' := snd (initGLResources w) in
      gl (vars w') = true
      /\ (COMPILE_STATUS (env w) = false ->
            fst (initGLResources w)
            = Thrown (Error (if String.eqb info "" then "Shader compile failed"
                             else info))
            /\ trace w'
               = trace w ++ [GL (setup "createShader"); GL (setup "shaderSource");
                             GL (setup "compileShader"); GL (setup "deleteShader")]
            /\ vars w' = set_gl true (vars w)
            /\ gpu w' = gpu w)
      /\ (COMPILE_STATUS (env w) = true -> LINK_STATUS (env w) = false ->
            fst (initGLResources w)
            = Thrown (Error (if String.eqb info "" then "Program link failed"
                             else info))
            /\ vars w' = set_gl true (vars w)
            /\ gpu w' = gpu w)
      /\ (COMPILE_STATUS (env w) = true -> LINK_STATUS (env w) = true ->
            fst (initGLResources w) = Normal tt
            /\ vars w' = set_gl_handles (gl_handles (env w)) (set_gl true (vars w))
            /\ image_left (gpu w') = DefaultCanvas
            /\ image_right (gpu w') = DefaultCanvas
            /\ exists evs, trace w' = trace w ++ evs /\ draws evs = [])).
Proof.
  split.
  { intros Hctx. unfold initGLResources, createShader.
    rewrite run_read, Hctx, run_update, run_bind, run_bind.
    rewrite gl_call_null by reflexivity. eexists. reflexivity. }
  intros Hctx Ho info w'. subst info w'.
  set (w1 := with_vars (set_gl true) w).
  assert (Hq : quiet w1) by (split; [exact Ho | reflexivity]).
  destruct (COMPILE_STATUS (env w)) eqn:Hcomp.
  2:{ assert (Hrun : exists x,
                initGLResources w
                = (Thrown (Error (if String.eqb (info_log (env w)) ""
                                  then "Shader compile failed" else info_log (env w))),
                   x)
                /\ trace x
                   = trace w ++ [GL (setup "createShader"); GL (setup "shaderSource");
                                 GL (setup "compileShader"); GL (setup "deleteShader")]
                /\ vars x = set_gl true (vars w) /\ gpu x = gpu w).
      { unfold initGLResources, createShader.
        rewrite run_read, Hctx, run_update. fold w1.
        repeat init_step Hq. init_env w w1. rewrite Hcomp. cbn [negb].
        repeat init_step Hq. init_env w w1.
        eexists. split; [reflexivity |]. split; [init_trace w1; reflexivity |].
        split; reflexivity. }
      destruct Hrun as (x & -> & Htr & Hv & Hg). cbn [fst snd].
      split; [rewrite Hv; reflexivity |]. split; [auto |].
      split; intros; discriminate. }
  destruct (LINK_STATUS (env w)) eqn:Hlink.
  2:{ assert (Hrun : exists x,
                initGLResources w
                = (Thrown (Error (if String.eqb (info_log (env w)) ""
                                  then "Program link failed" else info_log (env w))),
                   x)
                /\ vars x = set_gl true (vars w) /\ gpu x = gpu w).
      { unfold initGLResources, createShader.
        rewrite run_read, Hctx, run_update. fold w1.
        repeat init_step Hq. init_env w w1. rewrite Hcomp. cbn [negb].
        repeat init_step Hq. init_env w w1. rewrite Hcomp. cbn [negb].
        repeat init_step Hq. init_env w w1. rewrite Hlink. cbn [negb].
        repeat init_step Hq. init_env w w1.
        eexists. split; [reflexivity |]. split; reflexivity. }
      destruct Hrun as (x & -> & Hv & Hg). cbn [fst snd].
      split; [rewrite Hv; reflexivity |]. split; [intros; discriminate |].
      split; [auto | intros; discriminate]. }
  destruct (initGLResources_quiet w Ho (conj Hctx (conj Hcomp Hlink)))
    as (x & evs & -> & Htr & Hall & _ & _ & Hv & Hl & Hr & _).
  cbn [fst snd]. split; [rewrite Hv; reflexivity |].
  split; [intros; discriminate |]. split; [intros; discriminate |].
  intros _ _. split; [reflexivity |]. split; [exact Hv |].
  split; [exact Hl |]. split; [exact Hr |]. exists evs. split; [exact Htr |].
  clear Htr. induction Hall as [| ev evs Hev _ IH]; [reflexivity |].
  destruct ev; try contradiction; exact IH.
Qed.

Lemma initGLResources_outcome_witness :
  fst (initGLResources (Sample.page (Sample.browser Sample.payload connecting
                                       Sample.not_ready Sample.not_ready)))
  = Normal tt
  /\ image_left (gpu (snd (initGLResources
                             (Sample.page (Sample.browser Sample.payload connecting
                                             Sample.not_ready Sample.not_ready)))))
     = DefaultCanvas.
Proof.
  destruct (proj2 (initGLResources_outcome
                     (Sample.page (Sample.browser Sample.payload connecting
                                     Sample.not_ready Sample.not_ready)))
              eq_refl eq_refl) as (_ & _ & _ & H).
  destruct (H eq_refl eq_refl) as (Hn & _ & Hl & _).
  split; [exact Hn | exact Hl].
Defined.

(** *** Initialisation is attempted once *)

Lemma keeps_read_gl {B} (I : World -> Prop) (k : bool -> Js B) :
  (forall w, I w -> gl (vars w) = true) ->
  keeps I (k true) ->
  keeps I (read (fun w => gl (vars w)) ≫= k).
Proof.
  intros HI Hk w Hw. rewrite run_read, (HI w Hw). apply Hk, Hw.
Qed.

Lemma no_gl_startup (ev : Event) : startup_event ev -> no_gl ev.
Proof. destruct ev; intros H; try destruct H; exact Logic.I. Qed.

(** X12.  Once [gl] is set, [startXR] never initialises WebGL again: it
    makes no WebGL call, and leaves the WebGL state and the three handles as
    they are - also when [gl] was set by an initialisation that then
    failed. *)
Theorem startXR_skips_init (w : World) :
  gl (vars w) = true ->
  gpu (snd (startXR w)) = gpu w
  /\ handles_of (vars (snd (startXR w))) = handles_of (vars w)
  /\ gl (vars (snd (startXR w))) = true
  /\ exists evs,
       trace (snd (startXR w)) = trace w ++ evs /\ Forall no_gl evs.
Proof.
  intros Hgl.
  set (fixed := fun (v : Vars) (_ : Env) (g : GLState) =>
                  gl v = true /\ handles_of v = handles_of (vars w) /\ g = gpu w).
  destruct (Inv_run startXR w no_gl fixed) as (evs & Htr & Hall & Hg & Hh & Hs).
  - unfold startXR.
    apply keeps_bind; [apply keeps_read | intros xr].
    destruct (negb xr); [keeps_walk; exact Logic.I |].
    apply keeps_bind.
    { apply keeps_catch.
      - apply keeps_bind;
          [apply startWebRTC_keeps; auto using no_gl_startup | intros _].
        apply keeps_bind;
          [apply loadCalibration_keeps; auto using no_gl_startup | intros _].
        apply keeps_ret.
      - intros err. keeps_walk. exact Logic.I. }
    intros started. destruct (negb started); [apply keeps_ret |].
    apply keeps_read_gl; [intros x (_ & _ & _ & Hx & _); exact Hx |].
    cbn [negb]. apply keeps_bind; [apply keeps_ret | intros ready].
    destruct (negb ready); [apply keeps_ret |]. cbv zeta.
    apply keeps_bind; [apply keeps_read | intros calib].
    apply keeps_bind; [apply perEyeTexOffset_call_keeps, no_gl_startup | intros left].
    apply keeps_bind; [apply Inv_vars; auto | intros _].
    apply keeps_bind; [apply perEyeTexOffset_call_keeps, no_gl_startup | intros right].
    apply keeps_bind; [apply Inv_vars; auto | intros _].
    apply keeps_bind; [apply log_convergence_keeps, no_gl_startup | intros _].
    keeps_walk; exact Logic.I.
  - repeat split. exact Hgl.
  - split; [exact Hs |]. split; [exact Hh |]. split; [exact Hg |]. eauto.
Qed.

Lemma startXR_skips_init_witness :
  gpu (snd (startXR (Sample.running (Sample.browser Sample.payload open
                                       Sample.not_ready Sample.not_ready) [])))
  = Sample.blank_gpu.
Proof.
  apply (startXR_skips_init
           (Sample.running (Sample.browser Sample.payload open
                              Sample.not_ready Sample.not_ready) [])
           eq_refl).
Defined.

(** ** The loop goes on while nothing raises *)

Lemma runs_emit (ev : Event) :
  (forall img, ev <> GL (texImage2D img)) -> runs (emit ev).
Proof.
  intros Hev w Hq. eexists _, [ev].
  split; [reflexivity | apply reaches_emit; [exact Hq |]]. apply not_upload, Hev.
Qed.

Lemma runs_draw_view (view : XRView) : runs (draw_view view).
Proof.
  intros w Hq. destruct (draw_view_quiet view w Hq) as (w' & evs & Hrun & Hr & _).
  eauto.
Qed.

Lemma runs_for_each {A} (xs : list A) (body : A -> Js unit) :
  (forall x, runs (body x)) -> runs (for_each xs body).
Proof.
  intros Hb. induction xs as [| x xs IH]; [apply runs_ret |].
  cbn [for_each]. apply runs_bind; [apply Hb | exact IH].
Qed.

Lemma runs_frame_body (frame : XRFrame) : runs (frame_body frame).
Proof.
  unfold frame_body.
  apply runs_bind; [apply runs_platform; discriminate |].
  destruct (getViewerPose frame) as [pose |]; [| apply runs_platform; discriminate].
  apply runs_bind; [apply runs_send_pose |].
  apply runs_bind; [apply runs_sendControllerData |].
  apply runs_read. intros sampler. destruct (negb _).
  { apply runs_bind; [apply runs_emit; discriminate | apply runs_platform; discriminate]. }
  do 4 (apply runs_bind; [apply runs_gl; exact Logic.I |]).
  apply runs_read. intros attr.
  apply runs_bind.
  { apply runs_when. repeat apply runs_bind; apply runs_gl; exact Logic.I. }
  apply runs_bind; [apply runs_for_each, runs_draw_view |].
  apply runs_platform; discriminate.
Qed.

Lemma frame_requests_app (evs evs' : list Event) :
  frame_requests (evs ++ evs') = (frame_requests evs + frame_requests evs')%nat.
Proof. unfold frame_requests. rewrite List.filter_app, length_app. reflexivity. Qed.

Lemma frame_requests_none (evs : list Event) :
  Forall no_raf evs -> frame_requests evs = 0%nat.
Proof.
  induction 1 as [| ev evs Hev _ IH]; [reflexivity |].
  unfold frame_requests in *. destruct ev; cbn in *; try exact IH. contradiction.
Qed.

(** A frame in which nothing raises returns, has requested exactly one next
    frame, as its last step, and leaves a world in which [gl] is still
    set. *)
Lemma quiet_frame_requests_next (time : Z) (frame : XRFrame) (w : World) :
  quiet w ->
  exists w' pre,
    onXRFrame time frame w = (Normal tt, w')
    /\ trace w' = trace w ++ pre ++ [RequestAnimationFrame]
    /\ Forall no_raf pre
    /\ quiet w'.
Proof.
  intros Hq.
  destruct (runs_frame_body frame w Hq) as (w' & evs & Hrun & Hr).
  set (Q := fun (_ : unit) (x : World) =>
              exists pre, trace x = trace w ++ pre ++ [RequestAnimationFrame]
                          /\ Forall no_raf pre).
  assert (Hraf : guarded (Inv (trace w) no_raf (fun _ _ _ => True))
                   (platform RequestAnimationFrame) Q).
  { intros w1 (pre & Htr & Hall & _). unfold platform.
    destruct (oracle w1) as [| [e |] o]; unfold Q, emit, with_trace, with_oracle; cbn.
    - exists pre. rewrite Htr, app_assoc. auto.
    - exists pre. auto.
    - exists pre. rewrite Htr, app_assoc. auto. }
  pose proof (frame_body_guarded _ Q frame (no_raf_frame_steps (trace w)) Hraf w
                (Inv_start _ _ w Logic.I)) as Hg.
  rewrite Hrun in Hg. destruct Hg as (pre & Htr & Hall).
  exists w', pre. unfold onXRFrame, try_catch. rewrite Hrun.
  split; [reflexivity |]. split; [exact Htr |]. split; [exact Hall | apply Hr].
Qed.

(** One turn of a session in which no platform call raises. *)
Lemma quiet_turn (t : Turn) (w : World) :
  faults t = [] -> gl (vars w) = true ->
  exists w' evs,
    turn t w = (Normal tt, w')
    /\ trace w' = trace w ++ evs
    /\ frame_requests evs = (if is_frame t then 1 else 0)%nat
    /\ gl (vars w') = true.
Proof.
  intros Hf Hgl. unfold turn, is_frame. rewrite run_update, Hf.
  set (w0 := with_oracle [] (with_env (browser_state t) w)).
  assert (Hq : quiet w0) by (split; [reflexivity | exact Hgl]).
  unfold try_catch.
  destruct (callback t) as [time frame | event |]; cbn [run_callback].
  - destruct (quiet_frame_requests_next time frame w0 Hq)
      as (w' & pre & Hrun & Htr & Hall & Hq').
    rewrite Hrun. exists w', (pre ++ [RequestAnimationFrame]).
    split; [reflexivity |]. split; [exact Htr |]. split; [| apply Hq'].
    rewrite frame_requests_app, (frame_requests_none pre Hall). reflexivity.
  - destruct (is_video event) eqn:Hv.
    + rewrite (pc_ontrack_video event w0 Hv). eexists _, _.
      split; [reflexivity |]. split; [reflexivity |]. split; [reflexivity | exact Hgl].
    + rewrite (pc_ontrack_other event w0 Hv). exists w0, [].
      split; [reflexivity |]. split; [cbn; rewrite app_nil_r; reflexivity |].
      split; [reflexivity | exact Hgl].
  - unfold dataChannel_onclose, setStatus. rewrite run_update. eexists _, _.
    split; [reflexivity |]. split; [reflexivity |]. split; [reflexivity | exact Hgl].
Qed.

(** X13.  The render loop goes on for as long as no platform call raises:
    over a session started with [gl] set, every animation-frame callback
    returns having requested exactly one next frame, whatever the state of
    the videos, of the channel and of the handles, and whatever track
    events and channel closures come in between; these request none. *)
Theorem session_keeps_requesting (turns : list Turn) (w : World) :
  Forall (fun t => faults t = []) turns ->
  gl (vars w) = true ->
  exists w' evs,
    session turns w = (Normal tt, w')
    /\ trace w' = trace w ++ evs
    /\ frame_requests evs = frames turns
    /\ gl (vars w') = true.
Proof.
  intros Hall. revert w. unfold session.
  induction Hall as [| t turns Ht _ IH]; intros w Hgl.
  - exists w, []. split; [reflexivity |]. rewrite app_nil_r. auto.
  - cbn [for_each]. rewrite run_bind.
    destruct (quiet_turn t w Ht Hgl) as (w1 & evs1 & Hrun1 & Htr1 & Hn1 & Hgl1).
    rewrite Hrun1.
    destruct (IH w1 Hgl1) as (w2 & evs2 & Hrun2 & Htr2 & Hn2 & Hgl2).
    exists w2, (evs1 ++ evs2). split; [exact Hrun2 |].
    split; [rewrite Htr2, Htr1, app_assoc; reflexivity |].
    split; [| exact Hgl2].
    rewrite frame_requests_app, Hn1, Hn2. unfold frames. cbn [List.filter].
    destruct (is_frame t); reflexivity.
Qed.

Lemma session_keeps_requesting_witness :
  frame_requests
    (trace (snd (session
                   [{| browser_state := Sample.browser Sample.payload open
                                          (Sample.playing 3) Sample.not_ready;
                       faults := [];
                       callback := AnimationFrame 0 Sample.tracked_frame |};
                    {| browser_state := Sample.browser Sample.payload closed
                                          (Sample.playing 4) Sample.not_ready;
                       faults := [];
                       callback := ChannelClose |};
                    {| browser_state := Sample.browser Sample.payload closed
                                          (Sample.playing 5) (Sample.playing 1);
                       faults := [];
                       callback := AnimationFrame 16 Sample.untracked_frame |}]
                   (Sample.running (Sample.browser Sample.payload open
                                      Sample.not_ready Sample.not_ready) []))))
  = 2%nat.
Proof.
  destruct (session_keeps_requesting
              [{| browser_state := Sample.browser Sample.payload open
                                     (Sample.playing 3) Sample.not_ready;
                  faults := [];
                  callback := AnimationFrame 0 Sample.tracked_frame |};
               {| browser_state := Sample.browser Sample.payload closed
                                     (Sample.playing 4) Sample.not_ready;
                  faults := [];
                  callback := ChannelClose |};
               {| browser_state := Sample.browser Sample.payload closed
                                     (Sample.playing 5) (Sample.playing 1);
                  faults := [];
                  callback := AnimationFrame 16 Sample.untracked_frame |}]
              (Sample.running (Sample.browser Sample.payload open
                                 Sample.not_ready Sample.not_ready) []))
    as (w' & evs & Hrun & Htr & Hn & _).
  - repeat constructor.
  - reflexivity.
  - rewrite Hrun. cbn [snd]. rewrite Htr. exact Hn.
Defined.

(** ** Reading the intrinsics out of the payload *)

Lemma index_nullish (v : jsval) (i : nat) (w : World) :
  nullish v = true -> exists m, index v i w = (Thrown (TypeError m), w).
Proof. destruct v as [[] |]; try discriminate; intros _; eexists; reflexivity. Qed.

Lemma index_value (v : jsval) (i : nat) (w : World) :
  nullish v = false -> index v i w = (Normal (element v i), w).
Proof. destruct v as [[] |]; try discriminate; intros _; reflexivity. Qed.

Lemma ToNumber_returns (v : jsval) (w : World) :
  no_primitive v = false -> exists x, ToNumber v w = (Normal x, w).
Proof.
  destruct v as [[] |]; cbn [no_primitive from_option ToNumber]; intros Hv;
    try (eexists; reflexivity); rewrite Hv; eexists; reflexivity.
Qed.

Lemma ToNumber_raises (v : jsval) (w : World) :
  no_primitive v = true -> exists m, ToNumber v w = (Thrown (TypeError m), w).
Proof.
  destruct v as [[] |]; cbn [no_primitive from_option ToNumber inconvertible];
    intros Hv; try discriminate; rewrite Hv; eexists; reflexivity.
Qed.

(** X14.  [perEyeTexOffset], called on values of the payload, raises
    exactly when the matrix, its row 0 or its row 1 is [undefined] or
    [null], or when one of the four operands of its arithmetic - [K[0][2]],
    [K[1][2]], [K[0][0]] and the baseline - is an object or an array with
    no primitive form; it then raises a [TypeError].  On anything else -
    rows that are too short, entries that are not numbers - it returns two
    numbers.  Either way it changes nothing. *)
Theorem perEyeTexOffset_call_raises (K : jsval) (width height : spec_float)
    (baseline_m : jsval) (convergence_m : spec_float) (eye : string) (w : World) :
  snd (perEyeTexOffset_call K width height baseline_m convergence_m eye w)
  = with_trace (fun t => t ++ [CallPerEyeTexOffset K eye]) w
  /\ if nullish K || nullish (element K 0) || nullish (element K 1)
        || no_primitive (element (element K 0) 2)
        || no_primitive (element (element K 1) 2)
        || no_primitive (element (element K 0) 0)
        || no_primitive baseline_m
     then exists m,
            fst (perEyeTexOffset_call K width height baseline_m convergence_m eye w)
            = Thrown (TypeError m)
     else exists du dv,
            fst (perEyeTexOffset_call K width height baseline_m convergence_m eye w)
            = Normal [du; dv].
Proof.
  unfold perEyeTexOffset_call. rewrite run_emit. set (w1 := with_trace _ w).
  rewrite run_bind.
  destruct (nullish K) eqn:HK; cbn [orb].
  { destruct (index_nullish K 0 w1 HK) as (m & ->). split; [reflexivity | eauto]. }
  rewrite (index_value K 0 w1 HK). cbv beta iota. rewrite run_bind.
  destruct (nullish (element K 0)) eqn:H0; cbn [orb].
  { destruct (index_nullish (element K 0) 0 w1 H0) as (m & ->).
    split; [reflexivity | eauto]. }
  rewrite (index_value _ 0 w1 H0). cbv beta iota.
  rewrite run_bind, (index_value K 0 w1 HK). cbv beta iota.
  rewrite run_bind, (index_value _ 2 w1 H0). cbv beta iota.
  rewrite run_bind, (index_value K 1 w1 HK). cbv beta iota. rewrite run_bind.
  destruct (nullish (element K 1)) eqn:H1; cbn [orb].
  { destruct (index_nullish (element K 1) 2 w1 H1) as (m & ->).
    split; [reflexivity | eauto]. }
  rewrite (index_value _ 2 w1 H1). cbv beta iota.
  do 4 (rewrite run_bind;
        match goal with
        | |- context [ToNumber ?v w1] =>
            let x := fresh "x" in
            let Hx := fresh "Hx" in
            let Hv := fresh "Hv" in
            destruct (no_primitive v) eqn:Hv; cbn [orb];
            [ destruct (ToNumber_raises v w1 Hv) as (x & Hx); rewrite Hx;
              split; [reflexivity | eauto]
            | destruct (ToNumber_returns v w1 Hv) as (x & Hx); rewrite Hx;
              clear Hx; cbv beta iota ]
        end).
  split; [reflexivity |]. unfold texOffset, Float32Array. cbn [map]. eauto.
Qed.

(** X14 on a matrix whose entry [K[0][2]] is the object [{"toString": null}]:
    the subtraction [cx - width / 2] raises. *)
Lemma perEyeTexOffset_call_raises_witness :
  exists m,
    fst (perEyeTexOffset_call
           (Some (JArr [JArr [JNum (F64.of_Z 800); JNum F64.zero;
                              JObj [("toString", JNull)]];
                        JArr [JNum F64.zero; JNum (F64.of_Z 800);
                              JNum (F64.of_Z 360)]]))
           Sample.width Sample.height (Some (JNum Sample.baseline_m))
           Sample.convergence_m "left"
           (Sample.page (Sample.browser Sample.payload connecting
                           Sample.not_ready Sample.not_ready)))
    = Thrown (TypeError m).
Proof.
  exact (proj2 (perEyeTexOffset_call_raises
                  (Some (JArr [JArr [JNum (F64.of_Z 800); JNum F64.zero;
                                     JObj [("toString", JNull)]];
                               JArr [JNum F64.zero; JNum (F64.of_Z 800);
                                     JNum (F64.of_Z 360)]]))
                  Sample.width Sample.height (Some (JNum Sample.baseline_m))
                  Sample.convergence_m "left"
                  (Sample.page (Sample.browser Sample.payload connecting
                                  Sample.not_ready Sample.not_ready)))).
Defined.

(** ** The log overlay *)

Lemma push_line_latest (line : string) (all : list string) :
  Logging.push_line line (latest 200 all) = latest 200 (all ++ [line]).
Proof.
  unfold Logging.push_line, latest.
  rewrite !length_app, length_drop. cbn [length].
  destruct (200 <? length all - (length all - 200) + 1)%nat eqn:Hfull.
  - apply Nat.ltb_lt in Hfull.
    replace (length all + 1 - 200)%nat with (S (length all - 200)) by lia.
    rewrite drop_app_le by lia.
    destruct (drop (length all - 200) all) as [| x rest] eqn:Hd.
    { apply (f_equal length) in Hd. rewrite length_drop in Hd. cbn in Hd. lia. }
    cbn [app tail]. f_equal.
    change rest with (drop 1 (x :: rest)). rewrite <- Hd, drop_drop.
    f_equal. lia.
  - apply Nat.ltb_ge in Hfull.
    replace (length all + 1 - 200)%nat with 0%nat by lia.
    replace (length all - 200)%nat with 0%nat by lia. reflexivity.
Qed.

Lemma push_line_length (line : string) (lines : list string) :
  (length lines <= 200)%nat -> (length (Logging.push_line line lines) <= 200)%nat.
Proof.
  intros Hl. unfold Logging.push_line.
  destruct (200 <? length (lines ++ [line]))%nat eqn:Hfull.
  - destruct lines as [| x rest]; cbn in *; [lia |].
    rewrite length_app. cbn. lia.
  - apply Nat.ltb_ge in Hfull. exact Hfull.
Qed.

(** What one use does to the overlay and its buffer. *)
Lemma run_overlay (u : Logging.Use) (p : Logging.Page) :
  (Logging.fault u = Logging.no_fault \/ is_Some (Logging.logOverlay p) ->
     Logging._logLines (Logging.run u p)
     = Logging.push_line (Logging.written u) (Logging._logLines p)
     /\ Logging.logOverlay (Logging.run u p)
        = Some (String.concat Logging.newline (Logging._logLines (Logging.run u p))))
  /\ (Logging._logLines (Logging.run u p) = Logging._logLines p
      \/ Logging._logLines (Logging.run u p)
         = Logging.push_line (Logging.written u) (Logging._logLines p)).
Proof.
  destruct u as [f iso c], p as [st er ov lines co].
  unfold Logging.run, Logging.written, Logging.setStatus, Logging.logError,
    Logging.logToOverlay, Logging.createLogOverlay.
  cbn [Logging.fault Logging.clock Logging.call Logging.logOverlay Logging._logLines
       Logging.statusEl Logging.errorOverlay Logging.console_error].
  split.
  - intros [Hf | [text Hov]]; cbn in *; subst;
      destruct c; try destruct st; try destruct ov; cbn; auto;
      destruct f; cbn; auto.
  - destruct c; try destruct st; destruct ov, f; cbn; auto.
Qed.

Lemma log_session_length (uses : list Logging.Use) (p : Logging.Page) :
  (length (Logging._logLines p) <= 200)%nat ->
  (length (Logging._logLines (log_session uses p)) <= 200)%nat.
Proof.
  revert p. induction uses as [| u uses IH]; intros p Hp; [exact Hp |].
  cbn [log_session fold_left]. apply IH.
  destruct (proj2 (run_overlay u p)) as [-> | ->];
    [exact Hp | apply push_line_length, Hp].
Qed.

Lemma log_session_latest (uses : list Logging.Use) (p : Logging.Page)
    (all : list string) :
  Forall (fun u => Logging.fault u = Logging.no_fault) uses
  \/ is_Some (Logging.logOverlay p) ->
  Logging._logLines p = latest 200 all ->
  Logging._logLines (log_session uses p)
  = latest 200 (all ++ map Logging.written uses)
  /\ (uses <> [] ->
      Logging.logOverlay (log_session uses p)
      = Some (String.concat Logging.newline
                (Logging._logLines (log_session uses p)))).
Proof.
  revert p all. induction uses as [| u uses IH]; intros p all Hok Hp.
  - cbn. rewrite app_nil_r. split; [exact Hp | intros H; contradiction].
  - cbn [log_session fold_left map].
    assert (Hu : Logging.fault u = Logging.no_fault
                 \/ is_Some (Logging.logOverlay p)).
    { destruct Hok as [Hall | Hov]; [left | right; exact Hov].
      apply Forall_cons in Hall. apply Hall. }
    destruct (proj1 (run_overlay u p) Hu) as [Hlines Hov].
    destruct (IH (Logging.run u p) (all ++ [Logging.written u])) as [Hl Ho].
    + right. rewrite Hov. eauto.
    + rewrite Hlines, Hp. apply push_line_latest.
    + rewrite <- app_assoc in Hl. split; [exact Hl |]. intros _.
      destruct uses as [| u' uses']; [exact Hov | apply Ho; discriminate].
Qed.

(** X15.  The log overlay is a window on the most recent lines.  Its buffer
    never grows beyond 200 lines, whatever fails.  As long as creating the
    overlay does not fail, every use of [logToOverlay], [setStatus] or
    [logError] adds one line - the first 19 characters of the clock's ISO
    string with its "T" replaced by a space, the level in upper case, and
    the message - the buffer holds the latest 200 of all lines written,
    oldest first, and the overlay shows them joined by newlines. *)
Theorem overlay_keeps_latest (uses : list Logging.Use) (p : Logging.Page) :
  (length (Logging._logLines p) <= 200)%nat ->
  (length (Logging._logLines (log_session uses p)) <= 200)%nat
  /\ (Forall (fun u => Logging.fault u = Logging.no_fault) uses
      \/ is_Some (Logging.logOverlay p) ->
      Logging._logLines (log_session uses p)
      = latest 200 (Logging._logLines p ++ map Logging.written uses)
      /\ (uses <> [] ->
          Logging.logOverlay (log_session uses p)
          = Some (String.concat Logging.newline
                    (Logging._logLines (log_session uses p))))).
Proof.
  intros Hp. split; [apply log_session_length, Hp |].
  intros Hok. apply log_session_latest; [exact Hok |].
  unfold latest. replace (length (Logging._logLines p) - 200)%nat with 0%nat by lia.
  reflexivity.
Qed.

Lemma overlay_keeps_latest_witness :
  Logging.logOverlay
    (log_session
       [{| Logging.fault := Logging.no_fault;
           Logging.clock := "2026-01-02T03:04:05.678Z";
           Logging.call := Logging.SetStatus "Starting WebRTC" |}]
       (Logging.loaded true true))
  = Some "2026-01-02 03:04:05 STATUS: Starting WebRTC".
Proof.
  destruct (overlay_keeps_latest
              [{| Logging.fault := Logging.no_fault;
                  Logging.clock := "2026-01-02T03:04:05.678Z";
                  Logging.call := Logging.SetStatus "Starting WebRTC" |}]
              (Logging.loaded true true)) as [_ H].
  - cbn. lia.
  - destruct H as [_ H]; [left; repeat constructor |].
    rewrite H by discriminate. reflexivity.
Defined.

(** ** Start-up errors that are handled, and those that are not *)

Lemma perEyeTexOffset_call_split K width height b c eye :
  perEyeTexOffset_call K width height b c eye
  = (emit (CallPerEyeTexOffset K eye);; read_intrinsics K width height b c eye).
Proof. reflexivity. Qed.

Lemma run_emit_then {A B} (ev : Event) (m : Js A) (k : A -> Js B) (w : World) :
  ((emit ev;; m) ≫= k) w = (m ≫= k) (with_trace (fun t => t ++ [ev]) w).
Proof. reflexivity. Qed.

Lemma triple_never {A} (P : World -> Prop) (m : Js A) (E : Exn -> World -> Prop) :
  (forall w, exists a, m w = (Normal a, w)) -> triple P m (fun _ => P) E.
Proof. intros Hm w Hw. destruct (Hm w) as (a & ->). exact Hw. Qed.

Lemma any_startup (ev : Event) : startup_event ev -> any_event ev.
Proof. intros _. exact Logic.I. Qed.

(** The first stage of [startXR], with the flag it leaves in [started]. *)
Lemma first_stage_run (w : World) :
  (startWebRTC;; loadCalibration;; mret true) w
  = match (startWebRTC;; loadCalibration) w with
    | (Normal _, w') => (Normal true, w')
    | (Thrown e, w') => (Thrown e, w')
    end.
Proof.
  rewrite (run_bind startWebRTC), (run_bind startWebRTC).
  destruct (startWebRTC w) as [[[] | e1] w1]; [| reflexivity].
  rewrite run_bind. destruct (loadCalibration w1) as [[[] | e2] w2]; reflexivity.
Qed.

Lemma init_stage_run (w : World) :
  (initGLResources;; mret true) w
  = match initGLResources w with
    | (Normal _, w') => (Normal true, w')
    | (Thrown e, w') => (Thrown e, w')
    end.
Proof.
  rewrite run_bind. destruct (initGLResources w) as [[[] | e1] w1]; reflexivity.
Qed.

(** X16.  [startXR] handles the failures of its first stages itself.  An
    exception [e] of the negotiation or of the calibration request is
    logged as "Startup failed" with [e], and [startXR] returns there; an
    exception [e] of the WebGL initialisation is logged as
    "WebGL init failed" with [e], and [startXR] returns there.  If [startXR]
    does raise, it had entered [perEyeTexOffset] for the left eye:
    calibration was accepted and WebGL initialised, and the exception comes
    from reading the intrinsics, from the convergence log or from setting
    the XR session up. *)
Theorem startXR_raises_late (w : World) :
  (forall e,
     navigator_xr (env w) = true ->
     fst ((startWebRTC;; loadCalibration) w) = Thrown e ->
     startXR w
     = (Normal tt,
        with_trace (fun t => t ++ [LogError "Startup failed" (Some e)])
          (snd ((startWebRTC;; loadCalibration) w))))
  /\ (forall e w1,
        navigator_xr (env w) = true ->
        (startWebRTC;; loadCalibration) w = (Normal tt, w1) ->
        gl (vars w1) = false ->
        fst (initGLResources w1) = Thrown e ->
        startXR w
        = (Normal tt,
           with_trace (fun t => t ++ [LogError "WebGL init failed" (Some e)])
             (snd (initGLResources w1))))
  /\ (forall e,
        fst (startXR w) = Thrown e ->
        exists pre K evs,
          trace (snd (startXR w))
          = trace w ++ pre ++ CallPerEyeTexOffset K "left" :: evs
          /\ Forall no_call pre).
Proof.
  split; [| split].
  { intros e Hxr Hfail. unfold startXR.
    rewrite run_read, Hxr. cbn [negb].
    rewrite run_bind. unfold try_catch at 1. rewrite first_stage_run.
    destruct ((startWebRTC;; loadCalibration) w) as [[[] | e'] w1];
      cbn [fst] in Hfail; [discriminate |].
    injection Hfail as ->. reflexivity. }
  { intros e w1 Hxr Hfirst Hgl Hfail. unfold startXR.
    rewrite run_read, Hxr. cbn [negb].
    rewrite run_bind. unfold try_catch at 1. rewrite first_stage_run, Hfirst.
    cbn [negb]. rewrite run_read, Hgl. cbn [negb].
    rewrite run_bind. unfold try_catch at 1. rewrite init_stage_run.
    destruct (initGLResources w1) as [[[] | e'] w2];
      cbn [fst] in Hfail; [discriminate |].
    injection Hfail as ->. reflexivity. }
  intros e.
  set (P0 := Inv (trace w) no_call (fun _ e _ => e = env w)).
  set (E := fun (_ : Exn) (x : World) =>
              exists pre K evs,
                trace x = trace w ++ pre ++ CallPerEyeTexOffset K "left" :: evs
                /\ Forall no_call pre).
  assert (Hmain : triple P0 startXR (fun _ _ => True) E).
  { unfold startXR.
    eapply triple_bind; [apply triple_never; intros x; eexists; reflexivity | intros xr].
    destruct (negb xr); [intros x _; exact Logic.I |].
    eapply triple_bind with (R := fun _ => P0).
    { eapply triple_catch with (R := fun _ => P0).
      - apply keeps_bind; [apply startWebRTC_no_call | intros _].
        apply keeps_bind; [apply loadCalibration_no_call | intros _].
        apply keeps_ret.
      - intros err x Hx. unfold logError. rewrite run_emit. cbn.
        apply Inv_emit_stable; [exact Logic.I | exact Hx]. }
    intros started. destruct (negb started); [intros x _; exact Logic.I |].
    eapply triple_bind; [apply triple_never; intros x; eexists; reflexivity | intros ctx].
    eapply triple_bind with (R := fun _ => P0).
    { destruct (negb ctx); [| intros x Hx; exact Hx].
      eapply triple_catch with (R := fun _ => P0).
      - apply keeps_bind; [| intros _; apply keeps_ret].
        unfold P0, initGLResources, createShader, init_texture.
        keeps_walk; try exact Logic.I; auto.
      - intros err x Hx. unfold logError. rewrite run_emit. cbn.
        apply Inv_emit_stable; [exact Logic.I | exact Hx]. }
    intros ready. destruct (negb ready); [intros x _; exact Logic.I |].
    cbv zeta.
    eapply triple_bind; [apply triple_never; intros x; eexists; reflexivity | intros calib].
    intros x (pre & Htr & Hpre & _).
    rewrite (perEyeTexOffset_call_split _ _ _ _ _ "left"), run_emit_then.
    set (K := calib ≫= fun c => field c "k_left").
    set (x1 := with_trace _ x).
    match goal with
    | |- match ?m x1 with _ => _ end =>
        destruct (Inv_run m x1 any_event any_state) as (evs & Htr1 & _)
    end.
    - apply keeps_bind.
      { unfold read_intrinsics, index, ToNumber. keeps_walk; exact Logic.I. }
      intros left.
      apply keeps_bind; [apply Inv_vars; auto | intros _].
      apply keeps_bind;
        [apply perEyeTexOffset_call_keeps, any_startup | intros right].
      apply keeps_bind; [apply Inv_vars; auto | intros _].
      apply keeps_bind; [apply log_convergence_keeps, any_startup | intros _].
      keeps_walk; exact Logic.I.
    - exact Logic.I.
    - match goal with
      | |- match ?m x1 with _ => _ end => destruct (m x1) as [[a | err] x2]
      end; [exact Logic.I |].
      exists pre, K, evs. cbn [snd] in Htr1. rewrite Htr1. unfold x1. cbn.
      rewrite Htr, <- !app_assoc. split; [reflexivity | exact Hpre]. }
  intros Hthrown.
  specialize (Hmain w (Inv_start no_call (fun _ e _ => e = env w) w eq_refl)).
  destruct (startXR w) as [[[] | e'] w']; [discriminate | exact Hmain].
Qed.

(** X16 on a payload whose [k_left] is the number 1: the read of the
    intrinsics raises, after the entry into [perEyeTexOffset]; and on a
    server that refuses the offer: the error is logged and [startXR]
    returns. *)
Lemma startXR_raises_late_witness :
  (exists pre K evs,
     trace (snd (startXR (Sample.page (Sample.browser Sample.bad_payload connecting
                                         Sample.not_ready Sample.not_ready))))
     = trace (Sample.page (Sample.browser Sample.bad_payload connecting
                             Sample.not_ready Sample.not_ready))
       ++ pre ++ CallPerEyeTexOffset K "left" :: evs
     /\ Forall no_call pre)
  /\ fst (startXR (Sample.page (refusing (Sample.browser Sample.payload connecting
                                            Sample.not_ready Sample.not_ready))))
     = Normal tt
  /\ last (trace (snd (startXR
                         (Sample.page (refusing (Sample.browser Sample.payload
                                                   connecting Sample.not_ready
                                                   Sample.not_ready))))))
     = Some (LogError "Startup failed" (Some (Error "no cameras"))).
Proof.
  split.
  - apply (proj2 (proj2 (startXR_raises_late
             (Sample.page (Sample.browser Sample.bad_payload connecting
                             Sample.not_ready Sample.not_ready))))
             (TypeError "Cannot read properties of undefined")).
    vm_compute. reflexivity.
  - rewrite (proj1 (startXR_raises_late
               (Sample.page (refusing (Sample.browser Sample.payload connecting
                                         Sample.not_ready Sample.not_ready))))
               (Error "no cameras") eq_refl eq_refl).
    split; reflexivity.
Defined.

(** ** A negotiation the server refuses *)

Lemma ToString_run (v : jsval) (w : World) :
  ToString v w
  = (if no_primitive v
     then Thrown (TypeError "Cannot convert object to primitive value")
     else Normal (text_of (env w) v), w).
Proof.
  destruct v as [[] |]; cbn [ToString no_primitive from_option text_of];
    try reflexivity;
    match goal with |- context [inconvertible ?v] => destruct (inconvertible v) end;
    reflexivity.
Qed.

(** X18.  When the answer to the offer carries a truthy [error] field,
    [startWebRTC] never returns and never applies a remote description,
    whatever else the platform does.  When no platform call raises, it
    raises after the rest of the negotiation, and the data channel it
    created stays in [dataChannel]: it raises an [Error] whose message is
    that field as a string (the field itself when it is a string), or the
    [TypeError] of the conversion when the field is an object or an array
    with no primitive form. *)
Theorem startWebRTC_refused (w : World) (res : Response) (answer : json) :
  fetch_result (env w) "/offer" = inr res ->
  json_body res = inr answer ->
  truthy (field answer "error") = true ->
  (exists e, fst (startWebRTC w) = Thrown e)
  /\ (exists evs,
        trace (snd (startWebRTC w)) = trace w ++ evs /\ Forall not_applied evs)
  /\ (oracle w = [] ->
      (if no_primitive (field answer "error")
       then exists m, fst (startWebRTC w) = Thrown (TypeError m)
       else fst (startWebRTC w)
            = Thrown (Error (text_of (env w) (field answer "error"))))
      /\ trace (snd (startWebRTC w)) = trace w ++ removelast negotiation
      /\ dataChannel (vars (snd (startWebRTC w))) = Some poseData).
Proof.
  intros Hf Hb Herr.
  assert (Hobj : exists fields, answer = JObj fields).
  { destruct answer; try discriminate. eauto. }
  destruct Hobj as (fields & ->).
  set (P := Inv (trace w) not_applied (fun _ e _ => e = env w)).
  assert (Hmain : triple P startWebRTC (fun _ _ => False) (fun _ => P)).
  { change (guarded P startWebRTC (fun _ _ => False)). unfold startWebRTC, P.
    do 10 (apply guarded_bind; [keeps_walk; try exact Logic.I; auto | intros ?]).
    intros x Hx. pose proof Hx as (_ & _ & _ & He).
    unfold fetch, json_of. rewrite run_bind, run_read, He, Hf.
    cbn [mret Js_ret]. rewrite run_bind, Hb. cbn [mret Js_ret].
    rewrite Herr, run_bind, ToString_run.
    destruct (no_primitive _); exact Hx. }
  specialize (Hmain w (Inv_start not_applied (fun _ e _ => e = env w) w eq_refl)).
  split; [| split].
  - destruct (startWebRTC w) as [[[] | e] w']; [destruct Hmain |].
    exists e. reflexivity.
  - destruct (startWebRTC w) as [[[] | e] w']; [destruct Hmain |].
    destruct Hmain as (evs & Htr & Hall & _). exists evs. auto.
  - intros Ho. clear Hmain. unfold startWebRTC, setStatus, fetch, json_of.
    repeat quiet_step Ho.
    rewrite run_bind, run_read.
    cbn [env with_trace with_vars]. rewrite Hf. cbn [mret Js_ret].
    rewrite run_bind, Hb. cbn [mret Js_ret].
    rewrite Herr, run_bind, ToString_run.
    destruct (no_primitive _);
      cbn [env with_trace with_vars fst snd trace vars dataChannel set_videoCount
           set_dataChannel throw removelast negotiation];
      rewrite <- !app_assoc; repeat split; eauto.
Qed.

(** X18 on a server without cameras. *)
Lemma startWebRTC_refused_witness :
  fst (startWebRTC
         (Sample.page (refusing (Sample.browser Sample.payload connecting
                                   Sample.not_ready Sample.not_ready))))
  = Thrown (Error "no cameras").
Proof.
  apply (proj1 (proj2 (proj2
           (startWebRTC_refused
              (Sample.page (refusing (Sample.browser Sample.payload connecting
                                        Sample.not_ready Sample.not_ready)))
              {| ok := false; status := 500;
                 json_body := inr (JObj [("error", JStr "no cameras")]) |}
              (JObj [("error", JStr "no cameras")])
              eq_refl eq_refl eq_refl)) eq_refl)).
Defined.
